(** * samples/ftrace/ftrace-ops.c: the ftrace_ops benchmark module

    A shallow embedding of the sample module and of the part of the kernel
    interface it drives (allocator, ftrace registration and dispatch, clock,
    printk), followed by the properties of the module proved on it. *)

From Stdlib Require Import ZArith List Bool Lia.
From stdpp Require Import base decidable option list.

Local Open Scope Z_scope.

(** ** Machine integers *)

(** [unsigned int] is 32 bits wide, [unsigned long], [size_t] and [u64] are
    64 bits wide (LP64). *)
Definition to_uint (z : Z) : Z := z mod 2 ^ 32.
Definition to_u64 (z : Z) : Z := z mod 2 ^ 64.
Definition to_size_t (z : Z) : Z := z mod 2 ^ 64.

(** Conversion of an [unsigned int] value to [int]: the value is kept when it
    fits and reduced modulo 2^32 otherwise. *)
Definition to_int (z : Z) : Z := if z <? 2 ^ 31 then z else z - 2 ^ 32.

(** ** Data *)

(** Addresses of the two traceable functions of the module. *)
Inductive func_addr := addr_tracee_relevant | addr_tracee_irrelevant.

(** Values of type [ftrace_func_t] used by the module. *)
Inductive ftrace_func_t := fn_ops_func_nop | fn_ops_func_count.

(** What the module touches of the kernel's [struct ftrace_ops]: the
    callback, the flags word and the filter hash. *)
Record ftrace_ops := mk_ftrace_ops {
  func : option ftrace_func_t;
  flags : Z;
  filter_hash : list func_addr
}.

(** [struct sample_ops]. *)
Record sample_ops := mk_sample_ops {
  ops : ftrace_ops;
  count : Z
}.

(** Pointers to arrays of [struct sample_ops]. [ZERO_SIZE_PTR] is what the
    allocator hands out for a request of zero bytes. *)
Inductive ptr := NULL | ZERO_SIZE_PTR | Block (b : nat).

(** [&p[i]], equally [&p[i].ops]: [container_of] maps one to the other. *)
Definition opref : Type := ptr * Z.

(** The call sites of [WARN_ON_ONCE] in the module. *)
Inductive warn_site := WARN_ALLOC | WARN_FILTER | WARN_REGISTER | WARN_UNREGISTER.

#[global] Instance func_addr_eq_dec : EqDecision func_addr.
Proof. solve_decision. Defined.
#[global] Instance ftrace_func_t_eq_dec : EqDecision ftrace_func_t.
Proof. solve_decision. Defined.
#[global] Instance ptr_eq_dec : EqDecision ptr.
Proof. solve_decision. Defined.
#[global] Instance warn_site_eq_dec : EqDecision warn_site.
Proof. solve_decision. Defined.

(** What the module does that can be observed from outside, in order. *)
Inductive event :=
| EvWarn (site : warn_site)
| EvPrInfoNoRegs
| EvPrInfoRegistering (nr_rel : Z) (tr_rel : ftrace_func_t)
                      (nr_irr : Z) (tr_irr : ftrace_func_t)
                      (regs recursion rcu : bool)
| EvPrWarnCount (called expected : Z)
| EvPrInfoResult (nr period per_call : Z)
| EvKtimeGet (t : Z)
| EvCall (f : func_addr)
| EvSetFilterIp (op : opref) (ip : func_addr)
| EvRegister (op : opref) (o : ftrace_ops)
| EvUnregister (op : opref)
| EvFreeFilter (op : opref)
| EvKfree (p : ptr).

(** The module parameters. *)
Record module_params := mk_params {
  nr_function_calls : Z;
  nr_ops_relevant : Z;
  nr_ops_irrelevant : Z;
  save_regs : bool;
  assist_recursion : bool;
  assist_rcu : bool;
  check_count : bool;
  persist : bool
}.

(** The kernel state the module acts on. A heap block is [None] once freed. *)
Record kernel_state := mk_kern {
  heap : list (option (list sample_ops));
  ftrace_ops_list : list opref;
  nr_allocs : nat;
  nr_clock_reads : nat;
  warned : list warn_site;
  klog : list event
}.

(** Module parameters, module globals and kernel state. *)
Record state := mk_state {
  params : module_params;
  ops_relevant : ptr;
  ops_irrelevant : ptr;
  tracer_relevant : ftrace_func_t;
  tracer_irrelevant : ftrace_func_t;
  kern : kernel_state
}.

Definition set_save_regs (v : bool) (p : module_params) : module_params :=
  mk_params (nr_function_calls p) (nr_ops_relevant p) (nr_ops_irrelevant p)
            v (assist_recursion p) (assist_rcu p) (check_count p) (persist p).

Definition set_heap (h : list (option (list sample_ops))) (k : kernel_state) :=
  mk_kern h (ftrace_ops_list k) (nr_allocs k) (nr_clock_reads k) (warned k) (klog k).
Definition set_ftrace_ops_list (l : list opref) (k : kernel_state) :=
  mk_kern (heap k) l (nr_allocs k) (nr_clock_reads k) (warned k) (klog k).
Definition set_nr_allocs (n : nat) (k : kernel_state) :=
  mk_kern (heap k) (ftrace_ops_list k) n (nr_clock_reads k) (warned k) (klog k).
Definition set_nr_clock_reads (n : nat) (k : kernel_state) :=
  mk_kern (heap k) (ftrace_ops_list k) (nr_allocs k) n (warned k) (klog k).
Definition set_warned (w : list warn_site) (k : kernel_state) :=
  mk_kern (heap k) (ftrace_ops_list k) (nr_allocs k) (nr_clock_reads k) w (klog k).
Definition set_klog (l : list event) (k : kernel_state) :=
  mk_kern (heap k) (ftrace_ops_list k) (nr_allocs k) (nr_clock_reads k) (warned k) l.

Definition with_params (f : module_params → module_params) (s : state) : state :=
  mk_state (f (params s)) (ops_relevant s) (ops_irrelevant s)
           (tracer_relevant s) (tracer_irrelevant s) (kern s).
Definition with_kern (f : kernel_state → kernel_state) (s : state) : state :=
  mk_state (params s) (ops_relevant s) (ops_irrelevant s)
           (tracer_relevant s) (tracer_irrelevant s) (f (kern s)).
Definition set_ops_relevant (p : ptr) (s : state) : state :=
  mk_state (params s) p (ops_irrelevant s)
           (tracer_relevant s) (tracer_irrelevant s) (kern s).
Definition set_ops_irrelevant (p : ptr) (s : state) : state :=
  mk_state (params s) (ops_relevant s) p
           (tracer_relevant s) (tracer_irrelevant s) (kern s).
Definition set_tracer_relevant (f : ftrace_func_t) (s : state) : state :=
  mk_state (params s) (ops_relevant s) (ops_irrelevant s)
           f (tracer_irrelevant s) (kern s).
Definition set_tracer_irrelevant (f : ftrace_func_t) (s : state) : state :=
  mk_state (params s) (ops_relevant s) (ops_irrelevant s)
           (tracer_relevant s) f (kern s).

(** ** Computations *)

(** A computation either returns or stops at a fault; both leave a state. *)
Inductive fault := DivideError | BadPointer | BadFree | OutOfFuel.

Inductive result (A : Type) :=
| Ok (a : A) (s : state)
| Fault (f : fault) (s : state).
Arguments Ok {A} a s.
Arguments Fault {A} f s.

Definition M (A : Type) : Type := state → result A.

Definition ret {A} (a : A) : M A := λ s, Ok a s.

Definition bind {A B} (m : M A) (f : A → M B) : M B := λ s,
  match m s with
  | Ok a s' => f a s'
  | Fault e s' => Fault e s'
  end.

Declare Scope M_scope.
Delimit Scope M_scope with M.
Bind Scope M_scope with M.
Notation "x ← y ; z" := (bind y (λ x : _, z))
  (at level 20, y at level 100, z at level 200, only parsing) : M_scope.
Notation "x ;; z" := (bind x (λ _, z))
  (at level 100, z at level 200, only parsing, right associativity) : M_scope.
Local Open Scope M_scope.

Definition throw {A} (e : fault) : M A := λ s, Fault e s.
Definition gets {A} (f : state → A) : M A := λ s, Ok (f s) s.
Definition modify (f : state → state) : M unit := λ s, Ok tt (f s).

Definition final_state {A} (r : result A) : state :=
  match r with Ok _ s => s | Fault _ s => s end.

Definition log (e : event) : M unit :=
  modify (with_kern (λ k, set_klog (klog k ++ [e]) k)).

(** [for (unsigned int i = 0; i < bound; i++) body]. The counter wraps like
    an [unsigned int]; the loop stops when its condition is false. *)
Fixpoint for_loop (fuel : nat) (i bound : Z) (body : Z → M unit) : M unit :=
  match fuel with
  | O => throw OutOfFuel
  | S fuel' =>
      if i <? bound
      then body i;; for_loop fuel' (to_uint (i + 1)) bound body
      else ret tt
  end.

Definition for_u32 (bound : Z) (body : Z → M unit) : M unit :=
  for_loop (S (Z.to_nat bound)) 0 bound body.

(** ** The kernel the module is built for and loaded into *)

(** Modelled from the spec: what the module takes from kernel headers and
    from the running kernel, none of it under samples/ftrace. The three flag
    constants are given by their bit number ([FTRACE_OPS_FL_x = BIT(n)]);
    [kcalloc_ok] says whether the allocator satisfies the n-th request that
    reaches it; [ktime_at] is the clock value the n-th [ktime_get] reads. *)
Record kernel := mk_kernel {
  CONFIG_DYNAMIC_FTRACE_WITH_REGS : bool;
  SAVE_REGS_BIT : Z;
  RECURSION_BIT : Z;
  RCU_BIT : Z;
  EINVAL : Z;
  EBUSY : Z;
  sizeof_sample_ops : Z;
  kcalloc_ok : nat → bool;
  ktime_at : nat → Z
}.

(** The constants are distinct bits of an [unsigned long], the errno values
    are positive, and a [struct sample_ops] holds at least its counter and is
    smaller than 4GiB. *)
Record kernel_wf (K : kernel) : Prop := mk_kernel_wf {
  wf_save_regs_bit : 0 ≤ SAVE_REGS_BIT K < 64;
  wf_recursion_bit : 0 ≤ RECURSION_BIT K < 64;
  wf_rcu_bit : 0 ≤ RCU_BIT K < 64;
  wf_save_regs_recursion : SAVE_REGS_BIT K ≠ RECURSION_BIT K;
  wf_save_regs_rcu : SAVE_REGS_BIT K ≠ RCU_BIT K;
  wf_recursion_rcu : RECURSION_BIT K ≠ RCU_BIT K;
  wf_einval : 0 < EINVAL K;
  wf_ebusy : 0 < EBUSY K;
  wf_sizeof : 4 ≤ sizeof_sample_ops K < 2 ^ 32
}.

(** The module parameters are [unsigned int]s. *)
Record params_wf (p : module_params) : Prop := mk_params_wf {
  wf_nr_function_calls : 0 ≤ nr_function_calls p < 2 ^ 32;
  wf_nr_ops_relevant : 0 ≤ nr_ops_relevant p < 2 ^ 32;
  wf_nr_ops_irrelevant : 0 ≤ nr_ops_irrelevant p < 2 ^ 32
}.

Definition BIT (n : Z) : Z := Z.shiftl 1 n.

(** [word & BIT(bit)] is not zero. *)
Definition flag_set (bit word : Z) : bool := Z.testbit word bit.

(** Memory as [kcalloc] returns it. *)
Definition zeroed_ops : sample_ops := mk_sample_ops (mk_ftrace_ops None 0 []) 0.

(** Reading and writing [p[i]]; the index is an [unsigned int] in every use.
    An access through [NULL] or [ZERO_SIZE_PTR], to a freed block or beyond
    the end of a block is a fault. *)
Definition load (op : opref) : M sample_ops := λ s,
  match op.1 with
  | Block b =>
      match heap (kern s) !! b with
      | Some (Some l) =>
          match l !! Z.to_nat op.2 with
          | Some e => Ok e s
          | None => Fault BadPointer s
          end
      | _ => Fault BadPointer s
      end
  | _ => Fault BadPointer s
  end.

Definition store (op : opref) (e : sample_ops) : M unit := λ s,
  match op.1 with
  | Block b =>
      match heap (kern s) !! b with
      | Some (Some l) =>
          if bool_decide (Z.to_nat op.2 < length l)%nat
          then Ok tt (with_kern (λ k,
                 set_heap (<[b := Some (<[Z.to_nat op.2 := e]> l)]> (heap k)) k) s)
          else Fault BadPointer s
      | _ => Fault BadPointer s
      end
  | _ => Fault BadPointer s
  end.

Definition set_func (f : ftrace_func_t) (e : sample_ops) : sample_ops :=
  mk_sample_ops (mk_ftrace_ops (Some f) (flags (ops e)) (filter_hash (ops e))) (count e).
Definition set_flags (fl : Z) (e : sample_ops) : sample_ops :=
  mk_sample_ops (mk_ftrace_ops (func (ops e)) fl (filter_hash (ops e))) (count e).
Definition set_filter_hash (h : list func_addr) (e : sample_ops) : sample_ops :=
  mk_sample_ops (mk_ftrace_ops (func (ops e)) (flags (ops e)) h) (count e).
Definition set_count (c : Z) (e : sample_ops) : sample_ops :=
  mk_sample_ops (ops e) c.

(** ** The module's functions that the kernel calls back *)

(** [barrier()] constrains the compiler and does nothing when run. *)
Definition barrier : M unit := ret tt.

Definition tracee_relevant : M unit := barrier.

Definition tracee_irrelevant : M unit := barrier.

Definition ops_func_nop (ip : func_addr) (parent_ip : Z) (op : opref)
    (fregs : unit) : M unit :=
  ret tt.

Definition ops_func_count (ip : func_addr) (parent_ip : Z) (op : opref)
    (fregs : unit) : M unit :=
  let self := op in
  e ← load self;
  store self (set_count (to_uint (count e + 1)) e).

Definition call_ftrace_func (f : ftrace_func_t) :
    func_addr → Z → opref → unit → M unit :=
  match f with
  | fn_ops_func_nop => ops_func_nop
  | fn_ops_func_count => ops_func_count
  end.

Section Kernel.

Context (K : kernel).

Definition FTRACE_OPS_FL_SAVE_REGS : Z := BIT (SAVE_REGS_BIT K).
Definition FTRACE_OPS_FL_RECURSION : Z := BIT (RECURSION_BIT K).
Definition FTRACE_OPS_FL_RCU : Z := BIT (RCU_BIT K).

(** Modelled from the spec: [WARN_ON_ONCE] of linux/bug.h. It yields its
    condition and reports the first time the condition holds at a site. *)
Definition WARN_ON_ONCE (site : warn_site) (cond : bool) : M bool :=
  if cond then
    w ← gets (λ s, warned (kern s));
    (if bool_decide (site ∈ w) then ret tt
     else log (EvWarn site);;
          modify (with_kern (λ k, set_warned (site :: warned k) k)));;
    ret true
  else ret false.

(** Modelled from the spec: [kcalloc] of linux/slab.h, for arrays of
    [struct sample_ops]. A product that does not fit [size_t] yields [NULL],
    a request of zero bytes yields [ZERO_SIZE_PTR], any other request is up
    to the allocator and yields zeroed memory when it succeeds. *)
Definition kcalloc (n size : Z) : M ptr := λ s,
  if 2 ^ 64 <=? n * size then Ok NULL s
  else if n * size =? 0 then Ok ZERO_SIZE_PTR s
  else
    let k := kern s in
    let s' := with_kern (set_nr_allocs (S (nr_allocs k))) s in
    if kcalloc_ok K (nr_allocs k)
    then Ok (Block (length (heap k)))
            (with_kern (λ k', set_heap (heap k' ++ [Some (replicate (Z.to_nat n) zeroed_ops)]) k') s')
    else Ok NULL s'.

(** Modelled from the spec: [kfree] of linux/slab.h. *)
Definition kfree (p : ptr) : M unit :=
  log (EvKfree p);;
  match p with
  | Block b =>
      h ← gets (λ s, heap (kern s));
      match h !! b with
      | Some (Some _) => modify (with_kern (λ k, set_heap (<[b := None]> (heap k)) k))
      | _ => throw BadFree
      end
  | _ => ret tt
  end.

(** Modelled from the spec: the ftrace registration interface of
    linux/ftrace.h, as the core behaves when it accepts what this module
    asks for. [ftrace_set_filter_ip] with [remove = 0] and [reset = 0] adds
    one address to the filter of the ops. *)
Definition ftrace_set_filter_ip (op : opref) (ip : func_addr)
    (remove reset : Z) : M Z :=
  e ← load op;
  store op (set_filter_hash (filter_hash (ops e) ++ [ip]) e);;
  log (EvSetFilterIp op ip);;
  ret 0.

(** Registering puts the ops on the list of the core; ops that are on the list
    are refused with [-EBUSY]. *)
Definition register_ftrace_function (op : opref) : M Z :=
  e ← load op;
  l ← gets (λ s, ftrace_ops_list (kern s));
  if bool_decide (op ∈ l) then ret (- EBUSY K)
  else
    log (EvRegister op (ops e));;
    modify (with_kern (λ k, set_ftrace_ops_list (ftrace_ops_list k ++ [op]) k));;
    ret 0.

(** Unregistering takes the ops off the list; ops that are not on it are
    refused with [-EBUSY]. *)
Definition unregister_ftrace_function (op : opref) : M Z :=
  _ ← load op;
  l ← gets (λ s, ftrace_ops_list (kern s));
  if bool_decide (op ∈ l) then
    log (EvUnregister op);;
    modify (with_kern (λ k,
      set_ftrace_ops_list (filter (λ o, o ≠ op) (ftrace_ops_list k)) k));;
    ret 0
  else ret (- EBUSY K).

Definition ftrace_free_filter (op : opref) : M unit :=
  e ← load op;
  store op (set_filter_hash [] e);;
  log (EvFreeFilter op).

(** Modelled from the spec: the dispatch of the ftrace core at the entry of a
    traced function. Every ops on the list whose filter holds the function
    (an empty filter holds every function) has its callback called. *)
Definition filter_match (h : list func_addr) (ip : func_addr) : bool :=
  match h with
  | [] => true
  | _ => bool_decide (ip ∈ h)
  end.

Fixpoint ftrace_ops_list_func (l : list opref) (ip : func_addr) : M unit :=
  match l with
  | [] => ret tt
  | op :: l' =>
      e ← load op;
      (if filter_match (filter_hash (ops e)) ip then
         match func (ops e) with
         | Some f => call_ftrace_func f ip 0 op tt
         | None => throw BadPointer
         end
       else ret tt);;
      ftrace_ops_list_func l' ip
  end.

(** A call of a traceable function from the module's code: the call is
    observed, the tracers attached to the function run, then its body. *)
Definition call_traced (f : func_addr) : M unit :=
  log (EvCall f);;
  l ← gets (λ s, ftrace_ops_list (kern s));
  ftrace_ops_list_func l f;;
  match f with
  | addr_tracee_relevant => tracee_relevant
  | addr_tracee_irrelevant => tracee_irrelevant
  end.

(** Modelled from the spec: [ktime_get], [ktime_sub] and [ktime_to_ns] of
    linux/ktime.h ([ktime_t] holds nanoseconds) and [div_u64] of
    linux/math64.h, a 64-bit by 32-bit unsigned division. *)
Definition ktime_get : M Z :=
  n ← gets (λ s, nr_clock_reads (kern s));
  modify (with_kern (set_nr_clock_reads (S n)));;
  log (EvKtimeGet (ktime_at K n));;
  ret (ktime_at K n).

Definition ktime_sub (lhs rhs : Z) : Z := lhs - rhs.
Definition ktime_to_ns (kt : Z) : Z := kt.

Definition div_u64 (dividend divisor : Z) : M Z :=
  if divisor =? 0 then throw DivideError else ret (dividend / divisor).

(** ** The module *)

Definition ops_alloc_init (tracee : func_addr) (fn : ftrace_func_t)
    (fl : Z) (nr : Z) : M ptr :=
  p ← kcalloc (to_size_t nr) (sizeof_sample_ops K);
  w ← WARN_ON_ONCE WARN_ALLOC (bool_decide (p = NULL));
  if w then ret NULL
  else
    for_u32 (to_uint nr) (λ i,
      e ← load (p, i); store (p, i) (set_func fn e);;
      e ← load (p, i); store (p, i) (set_flags fl e);;
      r ← ftrace_set_filter_ip (p, i) tracee 0 0;
      _ ← WARN_ON_ONCE WARN_FILTER (negb (r =? 0));
      r ← register_ftrace_function (p, i);
      _ ← WARN_ON_ONCE WARN_REGISTER (negb (r =? 0));
      ret tt);;
    ret p.

Definition ops_destroy (p : ptr) (nr : Z) : M unit :=
  if bool_decide (p = NULL) then ret tt
  else
    for_u32 (to_uint nr) (λ i,
      r ← unregister_ftrace_function (p, i);
      _ ← WARN_ON_ONCE WARN_UNREGISTER (negb (r =? 0));
      ftrace_free_filter (p, i));;
    kfree p.

Definition ops_check (p : ptr) (nr : Z) (expected_count : Z) : M unit :=
  cc ← gets (λ s, check_count (params s));
  if bool_decide (p = NULL) || negb cc then ret tt
  else
    for_u32 (to_uint nr) (λ i,
      e ← load (p, 0);
      if count e =? expected_count then ret tt
      else
        e ← load (p, 0);
        log (EvPrWarnCount (count e) expected_count)).

(** The first part of [ftrace_ops_sample_init], up to and including the two
    calls of [ops_alloc_init]. *)
Definition init_register : M unit :=
  let fl := 0 in
  sr ← gets (λ s, save_regs (params s));
  fl ← (if negb (CONFIG_DYNAMIC_FTRACE_WITH_REGS K) && sr then
          log EvPrInfoNoRegs;;
          modify (with_params (set_save_regs false));;
          ret fl
        else if sr then ret (Z.lor fl FTRACE_OPS_FL_SAVE_REGS)
        else ret fl);
  ar ← gets (λ s, assist_recursion (params s));
  let fl := if ar then Z.lor fl FTRACE_OPS_FL_RECURSION else fl in
  arcu ← gets (λ s, assist_rcu (params s));
  let fl := if arcu then Z.lor fl FTRACE_OPS_FL_RCU else fl in
  cc ← gets (λ s, check_count (params s));
  (if cc then
     modify (set_tracer_relevant fn_ops_func_count);;
     modify (set_tracer_irrelevant fn_ops_func_count)
   else ret tt);;
  s ← gets id;
  log (EvPrInfoRegistering
         (nr_ops_relevant (params s)) (tracer_relevant s)
         (nr_ops_irrelevant (params s)) (tracer_irrelevant s)
         (save_regs (params s)) (assist_recursion (params s))
         (assist_rcu (params s)));;
  p ← ops_alloc_init addr_tracee_relevant (tracer_relevant s) fl
        (to_int (nr_ops_relevant (params s)));
  modify (set_ops_relevant p);;
  p ← ops_alloc_init addr_tracee_irrelevant (tracer_irrelevant s) fl
        (to_int (nr_ops_irrelevant (params s)));
  modify (set_ops_irrelevant p).

(** The timing loop of [ftrace_ops_sample_init]. *)
Definition timing_loop (nr : Z) : M unit :=
  for_u32 nr (λ i, call_traced addr_tracee_relevant).

Definition ftrace_ops_sample_init : M Z :=
  init_register;;
  start ← ktime_get;
  nr ← gets (λ s, nr_function_calls (params s));
  timing_loop nr;;
  end_ ← ktime_get;
  s ← gets id;
  ops_check (ops_relevant s) (to_int (nr_ops_relevant (params s)))
            (nr_function_calls (params s));;
  ops_check (ops_irrelevant s) (to_int (nr_ops_irrelevant (params s))) 0;;
  let period := to_u64 (ktime_to_ns (ktime_sub end_ start)) in
  per_call ← div_u64 period (nr_function_calls (params s));
  log (EvPrInfoResult (nr_function_calls (params s)) period per_call);;
  if persist (params s) then ret 0
  else
    ops_destroy (ops_relevant s) (to_int (nr_ops_relevant (params s)));;
    ops_destroy (ops_irrelevant s) (to_int (nr_ops_irrelevant (params s)));;
    ret (- EINVAL K).

Definition ftrace_ops_sample_exit : M unit :=
  s ← gets id;
  ops_destroy (ops_relevant s) (to_int (nr_ops_relevant (params s)));;
  ops_destroy (ops_irrelevant s) (to_int (nr_ops_irrelevant (params s))).

End Kernel.

(** The state in which the module loader calls the init function: the
    parameters are set, the static pointers are [NULL], both tracers are
    [ops_func_nop], and nothing has been allocated or registered. *)
Definition initial_state (p : module_params) : state :=
  mk_state p NULL NULL fn_ops_func_nop fn_ops_func_nop
           (mk_kern [] [] 0 0 [] []).

(** A kernel to run the module on: the flag bits of linux/ftrace.h, the
    errno values of the generic errno headers, a clock that advances by 7ns
    per read, and an allocator that satisfies every request. *)
Definition sample_kernel (with_regs : bool) (alloc : nat → bool) : kernel :=
  mk_kernel with_regs 2 4 14 22 16 200 alloc (λ n, 1000 + 7 * Z.of_nat n).

(** ** Notions used to state the properties *)

(** The state [s] after the events [evs] are logged. *)
Definition append_log (evs : list event) (s : state) : state :=
  with_kern (λ k, set_klog (klog k ++ evs) k) s.

(** The parameters and the globals are the same in both states. *)
Definition same_module (s s' : state) : Prop :=
  params s' = params s ∧
  ops_relevant s' = ops_relevant s ∧
  ops_irrelevant s' = ops_irrelevant s ∧
  tracer_relevant s' = tracer_relevant s ∧
  tracer_irrelevant s' = tracer_irrelevant s.

(** An element of an array once the loop of [ops_alloc_init] is done with it. *)
Definition ready_ops (fn : ftrace_func_t) (fl : Z) (tracee : func_addr) : sample_ops :=
  mk_sample_ops (mk_ftrace_ops (Some fn) fl [tracee]) 0.

(** [&p[start]], ..., [&p[start + len - 1]]. *)
Definition refs_from (p : ptr) (start len : nat) : list opref :=
  map (λ j, (p, Z.of_nat j)) (seq start len).

(** The elements of the array behind [p]; none when [p] is no block. *)
Definition refs_of (p : ptr) (n : Z) : list opref :=
  match p with
  | Block _ => refs_from p 0 (Z.to_nat n)
  | _ => []
  end.

(** What the loop of [ops_alloc_init] logs for [n] elements. *)
Definition alloc_events (p : ptr) (tracee : func_addr) (fn : ftrace_func_t)
    (fl : Z) (n : nat) : list event :=
  flat_map (λ j, [EvSetFilterIp (p, Z.of_nat j) tracee;
                  EvRegister (p, Z.of_nat j) (mk_ftrace_ops (Some fn) fl [tracee])])
           (seq 0 n).

(** Unfolds the state updates. *)
Ltac fields :=
  unfold append_log, with_kern, with_params, set_heap, set_ftrace_ops_list,
    set_nr_allocs, set_nr_clock_reads, set_warned, set_klog, set_ops_relevant,
    set_ops_irrelevant, set_tracer_relevant, set_tracer_irrelevant in *;
  simpl in *.

(** Runs a computation on a state given by its fields, using the heap
    lookups among the hypotheses. *)
Ltac mrun :=
  unfold ftrace_set_filter_ip, register_ftrace_function,
    unregister_ftrace_function, ftrace_free_filter, WARN_ON_ONCE, log, modify,
    gets, ret, throw, bind, load, store;
  simpl;
  repeat (first
    [ match goal with
      | H : ?h !! ?b = Some _ |- context [?h !! ?b] => rewrite H
      end
    | rewrite list_lookup_insert_eq by (rewrite ?length_insert; done)
    | rewrite bool_decide_eq_true_2 by (rewrite ?length_insert; done)
    | rewrite bool_decide_eq_false_2 by done
    | progress fields ]; simpl).

(** The pointer [ops_alloc_init] returns for a count [n] when the allocator
    has seen [allocs] requests and handed out [blocks] blocks. *)
Definition alloc_result_at (K : kernel) (n : Z) (allocs blocks : nat) : ptr :=
  if 2 ^ 31 <=? n then NULL
  else if n =? 0 then ZERO_SIZE_PTR
  else if kcalloc_ok K allocs then Block blocks
  else NULL.

(** The same, with the number of requests and of blocks taken from [s]. *)
Definition alloc_result (K : kernel) (n : Z) (s : state) : ptr :=
  alloc_result_at K n (nr_allocs (kern s)) (length (heap (kern s))).

(** Whether a request for [n] elements reaches the allocator. *)
Definition reaches_allocator (n : Z) : bool := (0 <? n) && (n <? 2 ^ 31).

(** Whether [p] points to an array with elements. *)
Definition is_block (p : ptr) : bool :=
  match p with Block _ => true | _ => false end.

(** No registered ops lies in the block the allocator hands out next. *)
Definition fresh_block (s : state) : Prop :=
  ∀ op, op ∈ ftrace_ops_list (kern s) → op.1 ≠ Block (length (heap (kern s))).

(** The warning of [ops_alloc_init] for a failed allocation. *)
Definition is_alloc_warning (e : event) : Prop := e = EvWarn WARN_ALLOC.

(** The array behind [p] holds [n] elements whose [ftrace_ops] are [o]. *)
Definition array_ok (h : list (option (list sample_ops))) (p : ptr) (n : Z)
    (o : ftrace_ops) : Prop :=
  match p with
  | NULL => True
  | ZERO_SIZE_PTR => n = 0
  | Block b =>
      ∃ blk, h !! b = Some (Some blk) ∧ length blk = Z.to_nat n ∧
             Forall (λ e, ops e = o) blk
  end.

(** The kernel state between registration and teardown: the two arrays are
    set up and registered, and no irrelevant ops has counted a call. *)
Record layout (prel pirr : ptr) (nrel nirr : Z) (fnrel fnirr : ftrace_func_t)
    (fl : Z) (k : kernel_state) : Prop := mk_layout {
  lay_rel : array_ok (heap k) prel nrel
              (mk_ftrace_ops (Some fnrel) fl [addr_tracee_relevant]);
  lay_irr : array_ok (heap k) pirr nirr
              (mk_ftrace_ops (Some fnirr) fl [addr_tracee_irrelevant]);
  lay_list : ftrace_ops_list k = refs_of prel nrel ++ refs_of pirr nirr;
  lay_distinct : is_block prel = true → prel ≠ pirr;
  lay_irr_zero : ∀ b blk, pirr = Block b → heap k !! b = Some (Some blk) →
                 Forall (λ e, count e = 0) blk;
  lay_owned : ∀ b, (b < length (heap k))%nat → prel = Block b ∨ pirr = Block b
}.

(** Everything but the heap is the same in both states. *)
Definition same_but_heap (s s' : state) : Prop :=
  same_module s s' ∧
  ftrace_ops_list (kern s') = ftrace_ops_list (kern s) ∧
  nr_allocs (kern s') = nr_allocs (kern s) ∧
  nr_clock_reads (kern s') = nr_clock_reads (kern s) ∧
  warned (kern s') = warned (kern s) ∧
  klog (kern s') = klog (kern s).

(** The warnings of [ops_check]. *)
Definition is_count_warning (e : event) : Prop :=
  ∃ called expected, e = EvPrWarnCount called expected.

(** What [ops_destroy] logs when nothing goes wrong. *)
Definition is_teardown_event (e : event) : Prop :=
  match e with
  | EvUnregister _ | EvFreeFilter _ | EvKfree _ => True
  | _ => False
  end.

(** The value of [save_regs] after the first test of the init function. *)
Definition init_save_regs (K : kernel) (p : module_params) : bool :=
  if negb (CONFIG_DYNAMIC_FTRACE_WITH_REGS K) && save_regs p then false
  else save_regs p.

(** The flags word the init function passes to [ops_alloc_init]. *)
Definition init_flags (K : kernel) (p : module_params) : Z :=
  let fl := 0 in
  let fl := if negb (CONFIG_DYNAMIC_FTRACE_WITH_REGS K) && save_regs p then fl
            else if save_regs p then Z.lor fl (FTRACE_OPS_FL_SAVE_REGS K)
            else fl in
  let fl := if assist_recursion p then Z.lor fl (FTRACE_OPS_FL_RECURSION K) else fl in
  if assist_rcu p then Z.lor fl (FTRACE_OPS_FL_RCU K) else fl.

(** The tracer the init function passes to [ops_alloc_init]. *)
Definition init_tracer (p : module_params) : ftrace_func_t :=
  if check_count p then fn_ops_func_count else fn_ops_func_nop.

(** The pointers the two calls of [ops_alloc_init] return. *)
Definition init_ptr_relevant (K : kernel) (p : module_params) : ptr :=
  alloc_result_at K (nr_ops_relevant p) 0 0.

Definition init_ptr_irrelevant (K : kernel) (p : module_params) : ptr :=
  alloc_result_at K (nr_ops_irrelevant p)
    (if reaches_allocator (nr_ops_relevant p) then 1 else 0)
    (if is_block (init_ptr_relevant K p) then 1 else 0).

(** What the init function prints before it registers anything. *)
Definition init_banner (K : kernel) (p : module_params) : list event :=
  (if negb (CONFIG_DYNAMIC_FTRACE_WITH_REGS K) && save_regs p
   then [EvPrInfoNoRegs] else []) ++
  [EvPrInfoRegistering (nr_ops_relevant p) (init_tracer p)
     (nr_ops_irrelevant p) (init_tracer p)
     (init_save_regs K p) (assist_recursion p) (assist_rcu p)].

(** The state in which the first call of [ops_alloc_init] starts. *)
Definition state_before_alloc (K : kernel) (p : module_params) : state :=
  mk_state (set_save_regs (init_save_regs K p) p) NULL NULL
           (init_tracer p) (init_tracer p)
           (mk_kern [] [] 0 0 [] (init_banner K p)).

(** The period the init function computes from its two clock readings. *)
Definition init_period (K : kernel) : Z :=
  to_u64 (ktime_to_ns (ktime_sub (ktime_at K 1) (ktime_at K 0))).

(** What the init function logs after the division. *)
Definition is_finish_event (e : event) : Prop :=
  match e with
  | EvPrInfoResult _ _ _ | EvUnregister _ | EvFreeFilter _ | EvKfree _ => True
  | _ => False
  end.

(** Everything but calls of a traceable function and clock readings. *)
Definition is_quiet (e : event) : Prop :=
  match e with
  | EvCall _ | EvKtimeGet _ => False
  | _ => True
  end.

(** The registrations. *)
Definition is_register_event (e : event) : Prop :=
  match e with
  | EvRegister _ _ => True
  | _ => False
  end.

(** The ops registered with a filter on [tracee], in the order of their
    registration, as [register_ftrace_function] received them. *)
Definition registrations (tracee : func_addr) (l : list event) :
    list (opref * ftrace_ops) :=
  flat_map (λ e,
    match e with
    | EvRegister op o =>
        if bool_decide (filter_hash o = [tracee]) then [(op, o)] else []
    | _ => []
    end) l.

(** The elements of the irrelevant array. *)
Definition irrelevant_ops (s : state) : list sample_ops :=
  match ops_irrelevant s with
  | Block b =>
      match heap (kern s) !! b with
      | Some (Some blk) => blk
      | _ => []
      end
  | _ => []
  end.

(** The module's own data: parameters, globals and the arrays. *)
Definition module_state (s : state) :=
  (params s, ops_relevant s, ops_irrelevant s, tracer_relevant s,
   tracer_irrelevant s, heap (kern s)).

(** Every registered ops is in memory, and those attached to [ip] have the
    callback [ops_func_nop]. *)
Definition nop_attached (ip : func_addr) (s : state) : Prop :=
  ∀ op, op ∈ ftrace_ops_list (kern s) →
    ∃ b blk e, op.1 = Block b ∧ heap (kern s) !! b = Some (Some blk) ∧
               blk !! Z.to_nat op.2 = Some e ∧
               (filter_match (filter_hash (ops e)) ip = true →
                func (ops e) = Some fn_ops_func_nop).

(** The events of a run of the init function: it never calls
    [tracee_irrelevant], and the only warning it can raise is the one for a
    failed allocation. *)
Definition is_init_event (e : event) : Prop :=
  match e with
  | EvCall f => f = addr_tracee_relevant
  | EvWarn site => site = WARN_ALLOC
  | _ => True
  end.

(** Two ops on [tracee_relevant] and one on [tracee_irrelevant], three calls,
    all flags but RCU, counting tracers, no [persist]. *)
Definition sample_params : module_params :=
  mk_params 3 2 1 true true false true false.

(** The same with [persist]. *)
Definition sample_params_persist : module_params :=
  mk_params 3 2 1 true true false true true.

(** The same without a single call. *)
Definition sample_params_no_calls : module_params :=
  mk_params 0 2 1 true true false true false.

(** A state with one array of two elements, the first of which has counted
    five calls. *)
Definition sample_check_state : state :=
  mk_state sample_params (Block 0) NULL fn_ops_func_count fn_ops_func_count
    (mk_kern
       [Some [mk_sample_ops
                (mk_ftrace_ops (Some fn_ops_func_count) 0 [addr_tracee_relevant]) 5;
              mk_sample_ops
                (mk_ftrace_ops (Some fn_ops_func_count) 0 [addr_tracee_relevant]) 3]]
       [(Block 0, 0); (Block 0, 1)] 1 0 [] []).

(** An element whose ops are set up and which has counted [c] calls. *)
Definition counted_ops (fn : ftrace_func_t) (fl : Z) (tracee : func_addr)
    (c : Z) : sample_ops :=
  mk_sample_ops (mk_ftrace_ops (Some fn) fl [tracee]) c.

(** The count of an ops with the callback [fn] after [i] calls of its tracee. *)
Definition count_after (fn : ftrace_func_t) (i : Z) : Z :=
  match fn with
  | fn_ops_func_count => i
  | fn_ops_func_nop => 0
  end.

(** The elements of the relevant array. *)
Definition relevant_ops (s : state) : list sample_ops :=
  match ops_relevant s with
  | Block b =>
      match heap (kern s) !! b with
      | Some (Some blk) => blk
      | _ => []
      end
  | _ => []
  end.

(** What the loop of [ops_destroy] logs for [n] elements. *)
Definition destroy_loop_events (p : ptr) (n : nat) : list event :=
  flat_map (λ j, [EvUnregister (p, Z.of_nat j); EvFreeFilter (p, Z.of_nat j)])
           (seq 0 n).

(** What [ops_destroy] logs for the array behind [p]. *)
Definition destroy_events (p : ptr) (n : Z) : list event :=
  match p with
  | NULL => []
  | ZERO_SIZE_PTR => [EvKfree p]
  | Block _ => destroy_loop_events p (Z.to_nat n) ++ [EvKfree p]
  end.

(** The ops handed to [unregister_ftrace_function], in order. *)
Definition unregistrations (l : list event) : list opref :=
  flat_map (λ e, match e with EvUnregister op => [op] | _ => [] end) l.

(** The elements of each array are all alike: every relevant ops has counted
    [c] calls and every irrelevant ops none. *)
Record counted (prel pirr : ptr) (nrel nirr : Z) (fn : ftrace_func_t)
    (fl c : Z) (k : kernel_state) : Prop := mk_counted {
  cnt_rel : ∀ b, prel = Block b →
            heap k !! b =
              Some (Some (replicate (Z.to_nat nrel)
                            (counted_ops fn fl addr_tracee_relevant c)));
  cnt_irr : ∀ b, pirr = Block b →
            heap k !! b =
              Some (Some (replicate (Z.to_nat nirr)
                            (counted_ops fn fl addr_tracee_irrelevant 0)))
}.

(** No ops at all, three calls, no [persist]. *)
Definition sample_params_no_ops : module_params :=
  mk_params 3 0 0 false false false true false.

(** ** Integer conversions *)

Lemma to_uint_small z : 0 ≤ z < 2 ^ 32 → to_uint z = z.
Proof. intros H. unfold to_uint. apply Z.mod_small. lia. Qed.

Lemma to_uint_to_int n : 0 ≤ n < 2 ^ 32 → to_uint (to_int n) = n.
Proof.
  intros H. unfold to_uint, to_int.
  destruct (Z.ltb_spec n (2 ^ 31)).
  - apply Z.mod_small. lia.
  - replace (n - 2 ^ 32) with (n + (-1) * 2 ^ 32) by lia.
    rewrite Z.mod_add by lia. apply Z.mod_small. lia.
Qed.

Lemma to_size_t_to_int_small n :
  0 ≤ n < 2 ^ 31 → to_size_t (to_int n) = n.
Proof.
  intros H. unfold to_size_t, to_int.
  destruct (Z.ltb_spec n (2 ^ 31)); [|lia].
  apply Z.mod_small. lia.
Qed.

Lemma to_size_t_to_int_large n :
  2 ^ 31 ≤ n < 2 ^ 32 → to_size_t (to_int n) = 2 ^ 64 - 2 ^ 32 + n.
Proof.
  intros H. unfold to_size_t, to_int.
  destruct (Z.ltb_spec n (2 ^ 31)); [lia|].
  replace (n - 2 ^ 32) with ((2 ^ 64 - 2 ^ 32 + n) + (-1) * 2 ^ 64) by lia.
  rewrite Z.mod_add by lia. apply Z.mod_small. lia.
Qed.

(** ** Running computations *)

Lemma bind_ok {A B} (m : M A) (f : A → M B) s a s' :
  m s = Ok a s' → bind m f s = f a s'.
Proof. intros H. unfold bind. by rewrite H. Qed.

Lemma bind_fault {A B} (m : M A) (f : A → M B) s e s' :
  m s = Fault e s' → bind m f s = Fault e s'.
Proof. intros H. unfold bind. by rewrite H. Qed.

(** The loop rule: an invariant kept by every iteration whose counter is
    below the bound holds at the bound when the loop returns, and the loop
    does return. *)
Lemma for_loop_inv (I : Z → state → Prop) (body : Z → M unit) (bound : Z) :
  0 ≤ bound < 2 ^ 32 →
  (∀ i s, 0 ≤ i < bound → I i s → ∃ s', body i s = Ok tt s' ∧ I (i + 1) s') →
  ∀ fuel i s, 0 ≤ i ≤ bound → (Z.to_nat (bound - i) < fuel)%nat → I i s →
  ∃ s', for_loop fuel i bound body s = Ok tt s' ∧ I bound s'.
Proof.
  intros Hb Hbody. induction fuel as [|fuel IH]; intros i s Hi Hfuel HI; [lia|].
  simpl. destruct (Z.ltb_spec i bound) as [Hlt|Hge].
  - destruct (Hbody i s) as (s1 & E1 & HI1); [lia|done|].
    rewrite (bind_ok _ _ _ _ _ E1).
    rewrite to_uint_small by lia.
    apply IH; [lia|lia|done].
  - exists s. split; [done|]. by replace bound with i by lia.
Qed.

Lemma for_u32_inv (I : Z → state → Prop) (body : Z → M unit) (bound : Z) s :
  0 ≤ bound < 2 ^ 32 →
  (∀ i s, 0 ≤ i < bound → I i s → ∃ s', body i s = Ok tt s' ∧ I (i + 1) s') →
  I 0 s →
  ∃ s', for_u32 bound body s = Ok tt s' ∧ I bound s'.
Proof.
  intros Hb Hbody HI. unfold for_u32.
  eapply for_loop_inv; eauto; lia.
Qed.

Lemma for_u32_zero body s : for_u32 0 body s = Ok tt s.
Proof. reflexivity. Qed.

(** ** Memory *)

Lemma load_ok s b i l e :
  heap (kern s) !! b = Some (Some l) → l !! Z.to_nat i = Some e →
  load (Block b, i) s = Ok e s.
Proof. intros Hb Hl. unfold load. simpl. by rewrite Hb, Hl. Qed.

Lemma store_ok s b i l e :
  heap (kern s) !! b = Some (Some l) → (Z.to_nat i < length l)%nat →
  store (Block b, i) e s =
    Ok tt (with_kern (λ k,
      set_heap (<[b := Some (<[Z.to_nat i := e]> l)]> (heap k)) k) s).
Proof.
  intros Hb Hl. unfold store. simpl. rewrite Hb.
  by rewrite bool_decide_eq_true_2.
Qed.

Lemma append_log_nil s : append_log [] s = s.
Proof.
  destruct s as [p r i tr ti [h l na nc w lg]].
  unfold append_log, with_kern, set_klog. simpl. by rewrite app_nil_r.
Qed.

Lemma append_log_app evs evs' s :
  append_log evs' (append_log evs s) = append_log (evs ++ evs') s.
Proof.
  unfold append_log, with_kern, set_klog. simpl. by rewrite app_assoc.
Qed.

Lemma log_append e s : log e s = Ok tt (append_log [e] s).
Proof. reflexivity. Qed.

(** ** ops_check *)

Lemma repeat_snoc {A} (x : A) n : repeat x n ++ [x] = repeat x (S n).
Proof. induction n as [|n IH]; simpl; [done|]. by rewrite IH. Qed.

(** [ops_check] compares the count of the first element at every iteration. *)
Lemma ops_check_block s b l e nr expected :
  check_count (params s) = true →
  heap (kern s) !! b = Some (Some l) →
  l !! 0%nat = Some e →
  ops_check (Block b) nr expected s =
    Ok tt (if count e =? expected then s
           else append_log
                  (repeat (EvPrWarnCount (count e) expected)
                          (Z.to_nat (to_uint nr))) s).
Proof.
  intros Hcc Hb He. unfold ops_check.
  rewrite (bind_ok _ _ s true s) by (unfold gets; by rewrite Hcc).
  simpl.
  assert (Hm : 0 ≤ to_uint nr < 2 ^ 32) by (apply Z.mod_pos_bound; lia).
  set (m := to_uint nr) in *.
  destruct (Z.eqb_spec (count e) expected) as [Heq|Hne].
  - destruct (for_u32_inv (λ _ s', s' = s)
      (λ i, e0 ← load (Block b, 0);
            if count e0 =? expected then ret tt
            else e1 ← load (Block b, 0);
                 log (EvPrWarnCount (count e1) expected)) m s)
      as (s' & E & ->); [lia| |done|done].
    intros i s0 Hi ->. exists s. split; [|done].
    rewrite (bind_ok _ _ _ _ _ (load_ok s b 0 l e Hb He)).
    by rewrite (proj2 (Z.eqb_eq _ _) Heq).
  - set (w := EvPrWarnCount (count e) expected).
    destruct (for_u32_inv (λ i s', s' = append_log (repeat w (Z.to_nat i)) s)
      (λ i, e0 ← load (Block b, 0);
            if count e0 =? expected then ret tt
            else e1 ← load (Block b, 0);
                 log (EvPrWarnCount (count e1) expected)) m s)
      as (s' & E & ->); [lia| |by rewrite append_log_nil|done].
    intros i s0 Hi ->. eexists. split.
    + rewrite (bind_ok _ _ _ e (append_log (repeat w (Z.to_nat i)) s))
        by (by apply (load_ok _ b 0 l e)).
      rewrite (proj2 (Z.eqb_neq _ _) Hne).
      rewrite (bind_ok _ _ _ e (append_log (repeat w (Z.to_nat i)) s))
        by (by apply (load_ok _ b 0 l e)).
      apply log_append.
    + rewrite append_log_app. fold w. rewrite repeat_snoc.
      f_equal. f_equal. lia.
Qed.


(** ** Registration *)

Lemma same_module_refl s : same_module s s.
Proof. by repeat split. Qed.

Lemma same_module_trans s1 s2 s3 :
  same_module s1 s2 → same_module s2 s3 → same_module s1 s3.
Proof. unfold same_module. intros H1 H2. intuition congruence. Qed.

Lemma same_module_with_kern f s : same_module s (with_kern f s).
Proof. by repeat split. Qed.

Lemma refs_from_snoc p n : refs_from p 0 (S n) = refs_from p 0 n ++ [(p, Z.of_nat n)].
Proof. unfold refs_from. by rewrite seq_S, map_app. Qed.

Lemma alloc_events_snoc p tracee fn fl n :
  alloc_events p tracee fn fl (S n) =
    alloc_events p tracee fn fl n ++
      [EvSetFilterIp (p, Z.of_nat n) tracee;
       EvRegister (p, Z.of_nat n) (mk_ftrace_ops (Some fn) fl [tracee])].
Proof.
  unfold alloc_events. by rewrite seq_S, flat_map_app.
Qed.

Lemma elem_of_refs_from p start len op :
  op ∈ refs_from p start len ↔
  op.1 = p ∧ Z.of_nat start ≤ op.2 < Z.of_nat (start + len).
Proof.
  unfold refs_from. rewrite list_elem_of_fmap. split.
  - intros (j & -> & Hj). apply list_elem_of_In, in_seq in Hj. simpl. split; [done|lia].
  - destruct op as [q z]. simpl. intros (-> & Hz).
    exists (Z.to_nat z). split; [f_equal; lia|].
    apply list_elem_of_In, in_seq. lia.
Qed.

(** One iteration of the loop of [ops_alloc_init] on a zeroed element. *)
Lemma ops_alloc_init_body K tracee fn fl b i blk s :
  0 ≤ i →
  heap (kern s) !! b = Some (Some blk) →
  blk !! Z.to_nat i = Some zeroed_ops →
  (Block b, i) ∉ ftrace_ops_list (kern s) →
  ∃ s',
    (e ← load (Block b, i); store (Block b, i) (set_func fn e);;
     e ← load (Block b, i); store (Block b, i) (set_flags fl e);;
     r ← ftrace_set_filter_ip (Block b, i) tracee 0 0;
     _ ← WARN_ON_ONCE WARN_FILTER (negb (r =? 0));
     r ← register_ftrace_function K (Block b, i);
     _ ← WARN_ON_ONCE WARN_REGISTER (negb (r =? 0));
     ret tt) s = Ok tt s' ∧
    heap (kern s') =
      <[b := Some (<[Z.to_nat i := ready_ops fn fl tracee]> blk)]> (heap (kern s)) ∧
    ftrace_ops_list (kern s') = ftrace_ops_list (kern s) ++ [(Block b, i)] ∧
    klog (kern s') = klog (kern s) ++
      [EvSetFilterIp (Block b, i) tracee;
       EvRegister (Block b, i) (mk_ftrace_ops (Some fn) fl [tracee])] ∧
    nr_allocs (kern s') = nr_allocs (kern s) ∧
    nr_clock_reads (kern s') = nr_clock_reads (kern s) ∧
    warned (kern s') = warned (kern s) ∧
    same_module s s'.
Proof.
  intros Hi Hb He Hnotin.
  assert (Hlen : (Z.to_nat i < length blk)%nat) by (by eapply lookup_lt_Some).
  assert (Hbl : (b < length (heap (kern s)))%nat) by (by eapply lookup_lt_Some).
  destruct s as [pa pr pi tr ti [h l na nc w lg]]; simpl in *.
  mrun. eexists. split; [reflexivity|]. simpl.
  rewrite !list_insert_insert_eq, <- app_assoc. by repeat split.
Qed.

Lemma insert_replicate_boundary {A} (x z : A) (i m : nat) :
  <[i := x]> (replicate i x ++ replicate (S m) z) =
    replicate (S i) x ++ replicate m z.
Proof.
  induction i as [|i IH]; simpl in *; [done|]. by rewrite IH.
Qed.

Lemma insert_last {A} (l : list A) (x y : A) :
  <[length l := x]> (l ++ [y]) = l ++ [x].
Proof. rewrite insert_app_r_alt by lia. by rewrite Nat.sub_diag. Qed.

Lemma ops_alloc_init_block K tracee fn fl n s :
  kernel_wf K → 0 < n < 2 ^ 31 →
  kcalloc_ok K (nr_allocs (kern s)) = true →
  fresh_block s →
  let p := Block (length (heap (kern s))) in
  ∃ s',
    ops_alloc_init K tracee fn fl (to_int n) s = Ok p s' ∧
    heap (kern s') =
      heap (kern s) ++ [Some (replicate (Z.to_nat n) (ready_ops fn fl tracee))] ∧
    ftrace_ops_list (kern s') = ftrace_ops_list (kern s) ++ refs_of p n ∧
    klog (kern s') = klog (kern s) ++ alloc_events p tracee fn fl (Z.to_nat n) ∧
    nr_allocs (kern s') = S (nr_allocs (kern s)) ∧
    nr_clock_reads (kern s') = nr_clock_reads (kern s) ∧
    same_module s s'.
Proof.
  intros HK Hn Hok Hfresh p.
  unfold ops_alloc_init.
  set (s1 := with_kern
    (λ k', set_heap (heap k' ++ [Some (replicate (Z.to_nat n) zeroed_ops)]) k')
    (with_kern (set_nr_allocs (S (nr_allocs (kern s)))) s)).
  assert (E1 : kcalloc K (to_size_t (to_int n)) (sizeof_sample_ops K) s = Ok p s1).
  { unfold kcalloc. rewrite to_size_t_to_int_small by lia.
    pose proof (wf_sizeof K HK) as Hsz.
    assert (0 < n * sizeof_sample_ops K < 2 ^ 31 * 2 ^ 32) by nia.
    rewrite (proj2 (Z.leb_gt _ _)) by lia.
    rewrite (proj2 (Z.eqb_neq _ _)) by lia.
    by rewrite Hok. }
  rewrite (bind_ok _ _ _ _ _ E1).
  rewrite (bind_ok _ _ _ false s1) by reflexivity.
  rewrite to_uint_to_int by lia.
  set (b := length (heap (kern s))) in *.
  destruct (for_u32_inv
    (λ i s', heap (kern s') = heap (kern s) ++
               [Some (replicate (Z.to_nat i) (ready_ops fn fl tracee) ++
                      replicate (Z.to_nat (n - i)) zeroed_ops)] ∧
             ftrace_ops_list (kern s') =
               ftrace_ops_list (kern s) ++ refs_from p 0 (Z.to_nat i) ∧
             klog (kern s') =
               klog (kern s) ++ alloc_events p tracee fn fl (Z.to_nat i) ∧
             nr_allocs (kern s') = S (nr_allocs (kern s)) ∧
             nr_clock_reads (kern s') = nr_clock_reads (kern s) ∧
             same_module s s')
    (λ i,
      e ← load (p, i); store (p, i) (set_func fn e);;
      e ← load (p, i); store (p, i) (set_flags fl e);;
      r ← ftrace_set_filter_ip (p, i) tracee 0 0;
      _ ← WARN_ON_ONCE WARN_FILTER (negb (r =? 0));
      r ← register_ftrace_function K (p, i);
      _ ← WARN_ON_ONCE WARN_REGISTER (negb (r =? 0));
      ret tt) n s1) as (s' & E & Hh & Hl & Hlog & Hna & Hclk & Hmod).
  - lia.
  - intros i s0 Hi (Hh & Hl & Hlog & Hna & Hclk & Hmod).
    destruct (ops_alloc_init_body K tracee fn fl b i
      (replicate (Z.to_nat i) (ready_ops fn fl tracee) ++
       replicate (Z.to_nat (n - i)) zeroed_ops) s0)
      as (s' & E & Hh' & Hl' & Hlog' & Hna' & Hclk' & _ & Hmod').
    + lia.
    + rewrite Hh. by apply list_lookup_middle.
    + rewrite lookup_app_r by (rewrite length_replicate; lia).
      rewrite length_replicate, Nat.sub_diag.
      apply lookup_replicate_2. lia.
    + rewrite Hl. intros Hin. apply elem_of_app in Hin as [Hin|Hin].
      * by apply Hfresh in Hin.
      * apply elem_of_refs_from in Hin. simpl in Hin. lia.
    + exists s'. split; [exact E|].
      rewrite Hh', Hl', Hlog', Hna', Hclk', Hh, Hl, Hlog.
      replace (Z.to_nat (i + 1)) with (S (Z.to_nat i)) by lia.
      replace (Z.to_nat (n - i)) with (S (Z.to_nat (n - (i + 1)))) by lia.
      rewrite insert_replicate_boundary.
      rewrite refs_from_snoc, alloc_events_snoc, <- !app_assoc.
      rewrite Z2Nat.id by lia.
      split_and!; try done.
      * unfold b. by rewrite insert_last.
      * by eapply same_module_trans.
  - subst s1. simpl. rewrite Z.sub_0_r. split_and!; try done.
    + by rewrite !app_nil_r.
    + by rewrite !app_nil_r.
  - rewrite (bind_ok _ _ _ _ _ E). exists s'. split; [done|].
    rewrite Hh, Hl, Hlog, Z.sub_diag. simpl. rewrite app_nil_r. done.
Qed.

Lemma WARN_ON_ONCE_true site s :
  ∃ s' evs,
    WARN_ON_ONCE site true s = Ok true s' ∧
    klog (kern s') = klog (kern s) ++ evs ∧
    Forall (λ e, e = EvWarn site) evs ∧
    heap (kern s') = heap (kern s) ∧
    ftrace_ops_list (kern s') = ftrace_ops_list (kern s) ∧
    nr_allocs (kern s') = nr_allocs (kern s) ∧
    nr_clock_reads (kern s') = nr_clock_reads (kern s) ∧
    same_module s s'.
Proof.
  destruct s as [pa pr pi tr ti [h l na nc w lg]].
  unfold WARN_ON_ONCE, bind, gets, log, modify, ret. simpl.
  destruct (bool_decide (site ∈ w)); simpl.
  - eexists _, []. split; [reflexivity|]. simpl. rewrite app_nil_r.
    split_and!; try done; by repeat split.
  - eexists _, [EvWarn site]. split; [reflexivity|]. simpl.
    split_and!; try done; first [by repeat constructor|by repeat split].
Qed.

Lemma ops_alloc_init_null K tracee fn fl n s :
  kernel_wf K → 0 ≤ n < 2 ^ 32 →
  alloc_result K n s = NULL →
  ∃ s' evs,
    ops_alloc_init K tracee fn fl (to_int n) s = Ok NULL s' ∧
    heap (kern s') = heap (kern s) ∧
    ftrace_ops_list (kern s') = ftrace_ops_list (kern s) ∧
    klog (kern s') = klog (kern s) ++ evs ∧
    Forall is_alloc_warning evs ∧
    nr_allocs (kern s') =
      (nr_allocs (kern s) + if reaches_allocator n then 1 else 0)%nat ∧
    nr_clock_reads (kern s') = nr_clock_reads (kern s) ∧
    same_module s s'.
Proof.
  intros HK Hn Hres. unfold ops_alloc_init.
  pose proof (wf_sizeof K HK) as Hsz.
  assert (∃ s1, kcalloc K (to_size_t (to_int n)) (sizeof_sample_ops K) s = Ok NULL s1 ∧
                heap (kern s1) = heap (kern s) ∧
                ftrace_ops_list (kern s1) = ftrace_ops_list (kern s) ∧
                klog (kern s1) = klog (kern s) ∧
                nr_allocs (kern s1) =
                  (nr_allocs (kern s) + if reaches_allocator n then 1 else 0)%nat ∧
                nr_clock_reads (kern s1) = nr_clock_reads (kern s) ∧
                same_module s s1) as (s1 & E1 & Hh1 & Hl1 & Hlog1 & Hna1 & Hclk1 & Hmod1).
  { unfold alloc_result, alloc_result_at in Hres. unfold kcalloc, reaches_allocator.
    destruct (Z.leb_spec (2 ^ 31) n) as [Hbig|Hsmall].
    - rewrite to_size_t_to_int_large by lia.
      rewrite (proj2 (Z.leb_le _ _)) by nia.
      rewrite (proj2 (Z.ltb_ge n _)), andb_false_r by lia.
      exists s. split_and!; try done; first [lia|apply same_module_refl].
    - rewrite to_size_t_to_int_small by lia.
      destruct (Z.eqb_spec n 0) as [Hz|Hnz]; [done|].
      assert (0 < n * sizeof_sample_ops K < 2 ^ 31 * 2 ^ 32) by nia.
      rewrite (proj2 (Z.leb_gt _ _)) by lia.
      rewrite (proj2 (Z.eqb_neq _ _)) by lia.
      destruct (kcalloc_ok K (nr_allocs (kern s))); [done|].
      rewrite (proj2 (Z.ltb_lt 0 n)), (proj2 (Z.ltb_lt n _)) by lia.
      eexists. split; [reflexivity|]. simpl. split_and!; try done;
      first [lia|apply same_module_with_kern]. }
  rewrite (bind_ok _ _ _ _ _ E1). simpl.
  destruct (WARN_ON_ONCE_true WARN_ALLOC s1)
    as (s' & evs & E & Hlog & Hevs & Hh & Hl & Hna & Hclk & Hmod).
  rewrite (bind_ok _ _ _ _ _ E).
  exists s', evs. split; [done|].
  rewrite Hh, Hl, Hlog, Hna, Hclk, Hh1, Hl1, Hlog1, Hna1, Hclk1.
  split_and!; try done; by eapply same_module_trans.
Qed.

Lemma ops_alloc_init_zero K tracee fn fl s :
  ops_alloc_init K tracee fn fl (to_int 0) s = Ok ZERO_SIZE_PTR s.
Proof. reflexivity. Qed.

(** What [ops_alloc_init] does, whatever the allocator answers. *)
Lemma ops_alloc_init_spec K tracee fn fl n s :
  kernel_wf K → 0 ≤ n < 2 ^ 32 → fresh_block s →
  let p := alloc_result K n s in
  ∃ s' evs,
    ops_alloc_init K tracee fn fl (to_int n) s = Ok p s' ∧
    heap (kern s') = heap (kern s) ++
      (if is_block p
       then [Some (replicate (Z.to_nat n) (ready_ops fn fl tracee))] else []) ∧
    ftrace_ops_list (kern s') = ftrace_ops_list (kern s) ++ refs_of p n ∧
    klog (kern s') = klog (kern s) ++ evs ∧
    (if is_block p then evs = alloc_events p tracee fn fl (Z.to_nat n)
     else Forall is_alloc_warning evs) ∧
    nr_allocs (kern s') =
      (nr_allocs (kern s) + if reaches_allocator n then 1 else 0)%nat ∧
    nr_clock_reads (kern s') = nr_clock_reads (kern s) ∧
    same_module s s'.
Proof.
  intros HK Hn Hfresh p.
  destruct p eqn:Hp; subst p.
  - destruct (ops_alloc_init_null K tracee fn fl n s HK Hn Hp)
      as (s' & evs & E & Hh & Hl & Hlog & Hevs & Hna & Hclk & Hmod).
    exists s', evs. simpl. rewrite !app_nil_r. by split_and!.
  - assert (n = 0) as ->.
    { unfold alloc_result, alloc_result_at in Hp.
      destruct (2 ^ 31 <=? n); [done|].
      destruct (Z.eqb_spec n 0); [done|].
      by destruct (kcalloc_ok K _). }
    exists s, []. rewrite ops_alloc_init_zero. simpl. rewrite !app_nil_r.
    split_and!; try done; first [by constructor|lia|apply same_module_refl].
  - assert (0 < n < 2 ^ 31 ∧ kcalloc_ok K (nr_allocs (kern s)) = true ∧
            b = length (heap (kern s))) as (Hn' & Hok & ->).
    { unfold alloc_result, alloc_result_at in Hp.
      destruct (Z.leb_spec (2 ^ 31) n); [done|].
      destruct (Z.eqb_spec n 0); [done|].
      destruct (kcalloc_ok K _); [|done].
      split_and!; [lia|lia|done|congruence]. }
    destruct (ops_alloc_init_block K tracee fn fl n s HK Hn' Hok Hfresh)
      as (s' & E & Hh & Hl & Hlog & Hna & Hclk & Hmod).
    exists s', (alloc_events (Block (length (heap (kern s)))) tracee fn fl (Z.to_nat n)).
    unfold reaches_allocator.
    rewrite (proj2 (Z.ltb_lt 0 n)), (proj2 (Z.ltb_lt n _)) by lia.
    simpl. split_and!; try done. lia.
Qed.

(** ** Dispatch *)

Lemma same_but_heap_refl s : same_but_heap s s.
Proof. split; [apply same_module_refl|done]. Qed.

Lemma same_but_heap_trans s1 s2 s3 :
  same_but_heap s1 s2 → same_but_heap s2 s3 → same_but_heap s1 s3.
Proof.
  intros (Hm & Hl & Ha & Hc & Hw & Hg) (Hm' & Hl' & Ha' & Hc' & Hw' & Hg').
  split; [by eapply same_module_trans|].
  split_and!; congruence.
Qed.

Lemma elem_of_refs_of p n op :
  op ∈ refs_of p n → ∃ b, p = Block b ∧ op.1 = p ∧ 0 ≤ op.2 < Z.of_nat (Z.to_nat n).
Proof.
  destruct p as [| |b]; simpl; [by intros ?%elem_of_nil..|].
  intros [H1 H2]%elem_of_refs_from. exists b. simpl in H2.
  split_and!; [done|done|lia|lia].
Qed.

Lemma ops_func_count_ok ip parent_ip fregs s b j blk e :
  heap (kern s) !! b = Some (Some blk) → blk !! Z.to_nat j = Some e →
  ops_func_count ip parent_ip (Block b, j) fregs s =
    Ok tt (with_kern (λ k, set_heap
      (<[b := Some (<[Z.to_nat j := set_count (to_uint (count e + 1)) e]> blk)]>
         (heap k)) k) s).
Proof.
  intros Hb He. unfold ops_func_count.
  rewrite (bind_ok _ _ _ _ _ (load_ok _ _ _ _ _ Hb He)).
  apply store_ok; [done|]. by eapply lookup_lt_Some.
Qed.

(** The dispatch for a call of [tracee_relevant] keeps the layout and
    changes nothing but the heap. *)
Lemma ftrace_ops_list_func_layout prel pirr nrel nirr fnrel fnirr fl l :
  (∀ op, op ∈ l → op ∈ refs_of prel nrel ++ refs_of pirr nirr) →
  ∀ s, layout prel pirr nrel nirr fnrel fnirr fl (kern s) →
  ∃ s', ftrace_ops_list_func l addr_tracee_relevant s = Ok tt s' ∧
        layout prel pirr nrel nirr fnrel fnirr fl (kern s') ∧
        same_but_heap s s'.
Proof.
  induction l as [|op l IH]; intros Hl s Hlay.
  - exists s. split; [done|]. split; [done|apply same_but_heap_refl].
  - assert (Hop : op ∈ refs_of prel nrel ++ refs_of pirr nirr)
      by (apply Hl; constructor).
    assert (Hl' : ∀ op', op' ∈ l → op' ∈ refs_of prel nrel ++ refs_of pirr nirr)
      by (intros op' Hin; apply Hl; by constructor).
    simpl. apply elem_of_app in Hop as [Hop|Hop].
    + (* an ops attached to tracee_relevant: its callback runs *)
      apply elem_of_refs_of in Hop as (b & Hp & Hbase & Hidx).
      destruct op as [q j]. simpl in *. subst q. subst.
      pose proof (lay_rel _ _ _ _ _ _ _ _ Hlay) as Harr.
      destruct Harr as (blk & Hb & Hlen & Hops).
      destruct (lookup_lt_is_Some_2 blk (Z.to_nat j)) as [e He]; [lia|].
      pose proof (proj1 (Forall_lookup _ _) Hops _ _ He) as Hoe. simpl in Hoe.
      rewrite (bind_ok _ _ _ _ _ (load_ok _ _ _ _ _ Hb He)).
      rewrite Hoe. simpl.
      destruct fnrel; simpl.
      * unfold ops_func_nop. rewrite (bind_ok _ _ _ tt s) by reflexivity.
        by apply IH.
      * rewrite (bind_ok _ _ _ _ _
          (ops_func_count_ok addr_tracee_relevant 0 tt _ _ _ _ _ Hb He)).
        set (e' := set_count (to_uint (count e + 1)) e).
        set (s1 := with_kern _ s).
        assert (Hb1 : (b < length (heap (kern s)))%nat) by (by eapply lookup_lt_Some).
        destruct (IH Hl' s1) as (s' & E & Hlay' & Hsame).
        { destruct Hlay as [_ Hirr Hlist Hdist Hzero Hown].
          constructor.
          - exists (<[Z.to_nat j := e']> blk). subst s1. simpl.
            split_and!.
            + by apply list_lookup_insert_eq.
            + by rewrite length_insert.
            + apply Forall_insert; [done|]. subst e'. by simpl.
          - destruct pirr as [| |b']; try done.
            destruct Hirr as (blk' & Hb' & Hlen' & Hops').
            exists blk'. subst s1. simpl. split_and!; try done.
            rewrite list_lookup_insert_ne; [done|].
            intros ->. by apply Hdist.
          - done.
          - done.
          - intros b' blk' Hpi Hb'. subst s1. simpl in Hb'.
            rewrite list_lookup_insert_ne in Hb'; [by eapply Hzero|].
            intros ->. apply Hdist; [done|congruence].
          - intros b'. subst s1. simpl. rewrite length_insert. apply Hown. }
        exists s'. split; [done|]. split; [done|].
        eapply same_but_heap_trans; [|done].
        subst s1. split; [apply same_module_with_kern|done].
    + (* an ops attached to tracee_irrelevant: it is skipped *)
      apply elem_of_refs_of in Hop as (b & Hp & Hbase & Hidx).
      destruct op as [q j]. simpl in *. subst q. subst.
      pose proof (lay_irr _ _ _ _ _ _ _ _ Hlay) as Harr.
      destruct Harr as (blk & Hb & Hlen & Hops).
      destruct (lookup_lt_is_Some_2 blk (Z.to_nat j)) as [e He]; [lia|].
      pose proof (proj1 (Forall_lookup _ _) Hops _ _ He) as Hoe. simpl in Hoe.
      rewrite (bind_ok _ _ _ _ _ (load_ok _ _ _ _ _ Hb He)).
      rewrite Hoe. simpl.
      rewrite (bind_ok _ _ _ tt s) by reflexivity.
      by apply IH.
Qed.

(** ** The timing loop *)

Lemma call_traced_layout prel pirr nrel nirr fnrel fnirr fl s :
  layout prel pirr nrel nirr fnrel fnirr fl (kern s) →
  ∃ s', call_traced addr_tracee_relevant s = Ok tt s' ∧
        layout prel pirr nrel nirr fnrel fnirr fl (kern s') ∧
        same_module s s' ∧
        ftrace_ops_list (kern s') = ftrace_ops_list (kern s) ∧
        nr_clock_reads (kern s') = nr_clock_reads (kern s) ∧
        klog (kern s') = klog (kern s) ++ [EvCall addr_tracee_relevant].
Proof.
  intros Hlay. unfold call_traced.
  rewrite (bind_ok _ _ _ _ _ (log_append _ _)).
  set (s1 := append_log [EvCall addr_tracee_relevant] s).
  rewrite (bind_ok _ _ s1 (ftrace_ops_list (kern s1)) s1) by reflexivity.
  destruct (ftrace_ops_list_func_layout prel pirr nrel nirr fnrel fnirr fl
              (ftrace_ops_list (kern s1))) with (s := s1)
    as (s' & E & Hlay' & Hmod & Hl & _ & Hclk & _ & Hlog).
  - intros op Hin. subst s1. simpl in Hin.
    by rewrite (lay_list _ _ _ _ _ _ _ _ Hlay) in Hin.
  - subst s1. by destruct Hlay.
  - rewrite (bind_ok _ _ _ _ _ E). exists s'. split; [done|].
    split_and!; try done.
Qed.

Lemma timing_loop_layout prel pirr nrel nirr fnrel fnirr fl n s :
  0 ≤ n < 2 ^ 32 →
  layout prel pirr nrel nirr fnrel fnirr fl (kern s) →
  ∃ s', timing_loop n s = Ok tt s' ∧
        layout prel pirr nrel nirr fnrel fnirr fl (kern s') ∧
        same_module s s' ∧
        ftrace_ops_list (kern s') = ftrace_ops_list (kern s) ∧
        nr_clock_reads (kern s') = nr_clock_reads (kern s) ∧
        klog (kern s') =
          klog (kern s) ++ repeat (EvCall addr_tracee_relevant) (Z.to_nat n).
Proof.
  intros Hn Hlay. unfold timing_loop.
  apply (for_u32_inv (λ i s',
    layout prel pirr nrel nirr fnrel fnirr fl (kern s') ∧
    same_module s s' ∧
    ftrace_ops_list (kern s') = ftrace_ops_list (kern s) ∧
    nr_clock_reads (kern s') = nr_clock_reads (kern s) ∧
    klog (kern s') =
      klog (kern s) ++ repeat (EvCall addr_tracee_relevant) (Z.to_nat i))).
  - done.
  - intros i s0 Hi (Hlay0 & Hmod0 & Hl0 & Hclk0 & Hlog0).
    destruct (call_traced_layout _ _ _ _ _ _ _ _ Hlay0)
      as (s' & E & Hlay' & Hmod' & Hl' & Hclk' & Hlog').
    exists s'. split; [done|].
    split_and!; [done|by eapply same_module_trans|congruence|congruence|].
    rewrite Hlog', Hlog0, <- app_assoc, repeat_snoc.
    do 2 f_equal. lia.
  - simpl. rewrite app_nil_r. split_and!; try done; apply same_module_refl.
Qed.

(** ** Checking and teardown *)

Lemma Forall_repeat {A} (P : A → Prop) x n : P x → Forall P (repeat x n).
Proof. intros H. induction n; simpl; by constructor. Qed.

Lemma ops_check_spec p n o expected s :
  0 ≤ n < 2 ^ 32 →
  array_ok (heap (kern s)) p n o →
  ∃ evs, ops_check p (to_int n) expected s = Ok tt (append_log evs s) ∧
         Forall is_count_warning evs.
Proof.
  intros Hn Harr.
  destruct (check_count (params s)) eqn:Hcc.
  2:{ exists []. rewrite append_log_nil. split; [|by constructor].
      unfold ops_check. rewrite (bind_ok _ _ s false s) by (unfold gets; by rewrite Hcc).
      by rewrite orb_true_r. }
  destruct p as [| |b]; simpl in Harr.
  - exists []. rewrite append_log_nil. split; [|by constructor].
    unfold ops_check. by rewrite (bind_ok _ _ s true s) by (unfold gets; by rewrite Hcc).
  - subst n. exists []. rewrite append_log_nil. split; [|by constructor].
    unfold ops_check. by rewrite (bind_ok _ _ s true s) by (unfold gets; by rewrite Hcc).
  - destruct Harr as (blk & Hb & Hlen & _).
    destruct (Z.eq_dec n 0) as [->|Hnz].
    + exists []. rewrite append_log_nil. split; [|by constructor].
      unfold ops_check. by rewrite (bind_ok _ _ s true s) by (unfold gets; by rewrite Hcc).
    + destruct (lookup_lt_is_Some_2 blk 0) as [e He]; [lia|].
      rewrite (ops_check_block s b blk e _ expected Hcc Hb He).
      destruct (count e =? expected).
      * exists []. rewrite append_log_nil. split; [done|by constructor].
      * eexists. split; [done|]. apply Forall_repeat. by eexists _, _.
Qed.

Lemma filter_id_Forall {A} (P : A → Prop) `{∀ x, Decision (P x)} (l : list A) :
  Forall P l → filter P l = l.
Proof.
  induction 1 as [|x l Hx Hl IH]; [done|].
  rewrite filter_cons_True by done. by rewrite IH.
Qed.

Lemma refs_from_cons p i m :
  refs_from p i (S m) = (p, Z.of_nat i) :: refs_from p (S i) m.
Proof. reflexivity. Qed.

(** One iteration of the loop of [ops_destroy] on a registered element. *)
Lemma ops_destroy_body K b i blk e s :
  heap (kern s) !! b = Some (Some blk) →
  blk !! Z.to_nat i = Some e →
  (Block b, i) ∈ ftrace_ops_list (kern s) →
  ∃ s',
    (r ← unregister_ftrace_function K (Block b, i);
     _ ← WARN_ON_ONCE WARN_UNREGISTER (negb (r =? 0));
     ftrace_free_filter (Block b, i)) s = Ok tt s' ∧
    heap (kern s') =
      <[b := Some (<[Z.to_nat i := set_filter_hash [] e]> blk)]> (heap (kern s)) ∧
    ftrace_ops_list (kern s') =
      filter (λ o, o ≠ (Block b, i)) (ftrace_ops_list (kern s)) ∧
    klog (kern s') =
      klog (kern s) ++ [EvUnregister (Block b, i); EvFreeFilter (Block b, i)] ∧
    nr_clock_reads (kern s') = nr_clock_reads (kern s) ∧
    warned (kern s') = warned (kern s) ∧
    same_module s s'.
Proof.
  intros Hb He Hin.
  assert (Hlen : (Z.to_nat i < length blk)%nat) by (by eapply lookup_lt_Some).
  destruct s as [pa pr pi tr ti [h l na nc w lg]]; simpl in *.
  mrun. eexists. split; [reflexivity|]. simpl.
  rewrite <- app_assoc. by repeat split.
Qed.

Lemma ops_destroy_block K b n blk rest s :
  0 ≤ n < 2 ^ 32 →
  heap (kern s) !! b = Some (Some blk) →
  length blk = Z.to_nat n →
  ftrace_ops_list (kern s) = refs_from (Block b) 0 (Z.to_nat n) ++ rest →
  (∀ op, op ∈ rest → op.1 ≠ Block b) →
  ∃ s' evs,
    ops_destroy K (Block b) (to_int n) s = Ok tt s' ∧
    heap (kern s') = <[b := None]> (heap (kern s)) ∧
    ftrace_ops_list (kern s') = rest ∧
    klog (kern s') = klog (kern s) ++ evs ∧
    Forall is_teardown_event evs ∧
    nr_clock_reads (kern s') = nr_clock_reads (kern s) ∧
    warned (kern s') = warned (kern s) ∧
    same_module s s'.
Proof.
  intros Hn Hb Hlen Hl Hrest. unfold ops_destroy. simpl.
  rewrite to_uint_to_int by lia.
  assert (Hbl : (b < length (heap (kern s)))%nat) by (by eapply lookup_lt_Some).
  destruct (for_u32_inv
    (λ i s', ∃ blk' evs,
       heap (kern s') = <[b := Some blk']> (heap (kern s)) ∧
       length blk' = Z.to_nat n ∧
       ftrace_ops_list (kern s') =
         refs_from (Block b) (Z.to_nat i) (Z.to_nat (n - i)) ++ rest ∧
       klog (kern s') = klog (kern s) ++ evs ∧
       Forall is_teardown_event evs ∧
       nr_clock_reads (kern s') = nr_clock_reads (kern s) ∧
       warned (kern s') = warned (kern s) ∧
       same_module s s')
    (λ i,
      r ← unregister_ftrace_function K (Block b, i);
      _ ← WARN_ON_ONCE WARN_UNREGISTER (negb (r =? 0));
      ftrace_free_filter (Block b, i)) n s)
    as (s1 & E & blk1 & evs1 & Hh1 & Hlen1 & Hl1 & Hlog1 & Hevs1 & Hclk1 & Hw1 & Hmod1).
  - lia.
  - intros i s0 Hi (blk0 & evs0 & Hh0 & Hlen0 & Hl0 & Hlog0 & Hevs0 & Hclk0 & Hw0 & Hmod0).
    destruct (lookup_lt_is_Some_2 blk0 (Z.to_nat i)) as [e He]; [lia|].
    replace (Z.to_nat (n - i)) with (S (Z.to_nat (n - (i + 1)))) in Hl0 by lia.
    rewrite refs_from_cons, Z2Nat.id in Hl0 by lia.
    destruct (ops_destroy_body K b i blk0 e s0)
      as (s' & E & Hh' & Hl' & Hlog' & Hclk' & Hw' & Hmod').
    + rewrite Hh0. by apply list_lookup_insert_eq.
    + done.
    + rewrite Hl0. constructor.
    + exists s'. split; [exact E|].
      exists (<[Z.to_nat i := set_filter_hash [] e]> blk0),
             (evs0 ++ [EvUnregister (Block b, i); EvFreeFilter (Block b, i)]).
      rewrite Hh', Hl', Hlog', Hclk', Hw', Hh0, Hl0, Hlog0.
      split_and!; try done.
      * by rewrite list_insert_insert_eq.
      * by rewrite length_insert.
      * rewrite <- app_comm_cons, filter_cons_False by (intros H; by apply H).
        replace (Z.to_nat (i + 1)) with (S (Z.to_nat i)) by lia.
        apply filter_id_Forall, Forall_forall. intros op Hin.
        apply elem_of_app in Hin as [Hin|Hin].
        -- apply elem_of_refs_from in Hin. intros ->. simpl in Hin. lia.
        -- intros ->. by apply (Hrest _ Hin).
      * by rewrite app_assoc.
      * apply Forall_app. split; [done|]. by repeat constructor.
      * by eapply same_module_trans.
  - exists blk, []. rewrite Z.sub_0_r, app_nil_r. simpl.
    split_and!; try done; first [by rewrite list_insert_id|by constructor|apply same_module_refl].
  - rewrite (bind_ok _ _ _ _ _ E).
    rewrite Z.sub_diag in Hl1. simpl in Hl1.
    destruct s1 as [pa pr pi tr ti [h1 l1 na nc w lg]]; simpl in *. subst h1.
    unfold kfree. mrun.
    eexists _, (evs1 ++ [EvKfree (Block b)]). split; [reflexivity|]. simpl.
    rewrite list_insert_insert_eq, Hlog1, app_assoc.
    split_and!; try done.
    apply Forall_app. split; [done|]. by repeat constructor.
Qed.

(** What [ops_destroy] does to an array of the layout. *)
Lemma ops_destroy_spec K p n o rest s :
  0 ≤ n < 2 ^ 32 →
  array_ok (heap (kern s)) p n o →
  ftrace_ops_list (kern s) = refs_of p n ++ rest →
  (∀ op, op ∈ rest → is_block p = true → op.1 ≠ p) →
  ∃ s' evs,
    ops_destroy K p (to_int n) s = Ok tt s' ∧
    heap (kern s') =
      match p with Block b => <[b := None]> (heap (kern s)) | _ => heap (kern s) end ∧
    ftrace_ops_list (kern s') = rest ∧
    klog (kern s') = klog (kern s) ++ evs ∧
    Forall is_teardown_event evs ∧
    nr_clock_reads (kern s') = nr_clock_reads (kern s) ∧
    warned (kern s') = warned (kern s) ∧
    same_module s s'.
Proof.
  intros Hn Harr Hl Hrest. destruct p as [| |b]; simpl in *.
  - exists s, []. rewrite app_nil_r.
    split_and!; try done; first [by constructor|apply same_module_refl].
  - subst n. exists (append_log [EvKfree ZERO_SIZE_PTR] s), [EvKfree ZERO_SIZE_PTR].
    split_and!; try done; first [by repeat constructor|apply same_module_with_kern].
  - destruct Harr as (blk & Hb & Hlen & _).
    apply (ops_destroy_block K b n blk rest s); try done.
    intros op Hin. by apply Hrest.
Qed.

(** ** Initialisation *)

Lemma init_register_unfold K p :
  init_register K (initial_state p) =
    (q ← ops_alloc_init K addr_tracee_relevant (init_tracer p) (init_flags K p)
           (to_int (nr_ops_relevant p));
     modify (set_ops_relevant q);;
     q ← ops_alloc_init K addr_tracee_irrelevant (init_tracer p) (init_flags K p)
           (to_int (nr_ops_irrelevant p));
     modify (set_ops_irrelevant q)) (state_before_alloc K p).
Proof.
  destruct p as [nfc nrel nirr sr ar arcu cc pe].
  destruct K as [cfg b1 b2 b3 e1 e2 sz ok clk].
  destruct cfg, sr, ar, arcu, cc; reflexivity.
Qed.

Lemma alloc_result_at_cases K n a b :
  0 ≤ n →
  match alloc_result_at K n a b with
  | NULL => True
  | ZERO_SIZE_PTR => n = 0
  | Block b' => b' = b ∧ 0 < n < 2 ^ 31
  end.
Proof.
  intros Hn. unfold alloc_result_at.
  destruct (Z.leb_spec (2 ^ 31) n); [done|].
  destruct (Z.eqb_spec n 0); [done|].
  destruct (kcalloc_ok K a); [|done]. split; [done|lia].
Qed.

Lemma Forall_replicate_ops {A} (P : A → Prop) x n : P x → Forall P (replicate n x).
Proof. intros H. induction n; simpl; by constructor. Qed.

(** The state the registration part of the init function ends in. *)
Lemma init_register_spec K p :
  kernel_wf K → params_wf p →
  let prel := init_ptr_relevant K p in
  let pirr := init_ptr_irrelevant K p in
  let fn := init_tracer p in
  let fl := init_flags K p in
  ∃ s evs_rel evs_irr,
    init_register K (initial_state p) = Ok tt s ∧
    params s = set_save_regs (init_save_regs K p) p ∧
    ops_relevant s = prel ∧ ops_irrelevant s = pirr ∧
    tracer_relevant s = fn ∧ tracer_irrelevant s = fn ∧
    layout prel pirr (nr_ops_relevant p) (nr_ops_irrelevant p) fn fn fl (kern s) ∧
    klog (kern s) = init_banner K p ++ evs_rel ++ evs_irr ∧
    (if is_block prel
     then evs_rel = alloc_events prel addr_tracee_relevant fn fl
                      (Z.to_nat (nr_ops_relevant p))
     else Forall is_alloc_warning evs_rel) ∧
    (if is_block pirr
     then evs_irr = alloc_events pirr addr_tracee_irrelevant fn fl
                      (Z.to_nat (nr_ops_irrelevant p))
     else Forall is_alloc_warning evs_irr) ∧
    nr_clock_reads (kern s) = 0%nat.
Proof.
  intros HK [Hnfc Hnrel Hnirr] prel pirr fn fl.
  rewrite init_register_unfold.
  set (s0 := state_before_alloc K p).
  destruct (ops_alloc_init_spec K addr_tracee_relevant fn fl (nr_ops_relevant p) s0 HK Hnrel)
    as (s1 & evs_rel & E1 & Hh1 & Hl1 & Hlog1 & Hevs1 & Hna1 & Hclk1 & Hmod1).
  { intros op Hin. by apply elem_of_nil in Hin. }
  change (alloc_result K (nr_ops_relevant p) s0) with prel in *.
  rewrite (bind_ok _ _ _ _ _ E1).
  rewrite (bind_ok _ _ _ tt (set_ops_relevant prel s1)) by reflexivity.
  set (s1' := set_ops_relevant prel s1).
  pose proof (alloc_result_at_cases K (nr_ops_relevant p) 0 0 (proj1 Hnrel)) as Hcrel.
  fold (init_ptr_relevant K p) in Hcrel. fold prel in Hcrel.
  assert (Hpirr : alloc_result K (nr_ops_irrelevant p) s1' = pirr).
  { unfold alloc_result, pirr, init_ptr_irrelevant. subst s1'. simpl.
    rewrite Hna1, Hh1. simpl. fold prel. by destruct (is_block prel). }
  destruct (ops_alloc_init_spec K addr_tracee_irrelevant fn fl (nr_ops_irrelevant p) s1' HK Hnirr)
    as (s2 & evs_irr & E2 & Hh2 & Hl2 & Hlog2 & Hevs2 & Hna2 & Hclk2 & Hmod2).
  { intros op Hin. subst s1'. simpl in *. rewrite Hl1 in Hin. rewrite Hh1. simpl in *.
    apply elem_of_refs_of in Hin as (b & Hb & Hbase & _).
    rewrite Hbase, Hb. rewrite Hb in Hcrel. destruct Hcrel as [-> _].
    simpl. intros [=]. }
  rewrite Hpirr in *.
  rewrite (bind_ok _ _ _ _ _ E2).
  pose proof (alloc_result_at_cases K (nr_ops_irrelevant p)
    (if reaches_allocator (nr_ops_relevant p) then 1 else 0)
    (if is_block prel then 1 else 0) (proj1 Hnirr)) as Hcirr.
  change (alloc_result_at _ _ _ _) with pirr in Hcirr.
  destruct Hmod1 as (Hp1 & _ & Hoi1 & Htr1 & Hti1).
  destruct Hmod2 as (Hp2 & Hor2 & _ & Htr2 & Hti2).
  exists (set_ops_irrelevant pirr s2), evs_rel, evs_irr.
  subst s1'. simpl in *. subst fn fl. clearbody prel pirr.
  rewrite Hh1 in Hh2. simpl in Hh2.
  split_and!.
  - done.
  - congruence.
  - done.
  - done.
  - congruence.
  - congruence.
  - constructor; rewrite ?Hh2, ?Hl2, ?Hl1; simpl.
    + destruct prel as [| |b]; simpl in *; try done.
      destruct Hcrel as [-> Hn]. eexists. split_and!; [done| |].
      * by rewrite length_replicate.
      * by apply Forall_replicate_ops.
    + destruct pirr as [| |b]; simpl in *; try done.
      destruct Hcirr as [-> Hn]. eexists. split_and!.
      * destruct (is_block prel); simpl; done.
      * by rewrite length_replicate.
      * by apply Forall_replicate_ops.
    + done.
    + intros Hblk Heq. rewrite <- Heq in Hcirr.
      destruct prel as [| |b]; try done. simpl in *.
      destruct Hcrel as [-> _]. by destruct Hcirr as [[=] _].
    + intros b blk -> Hb. simpl in *. destruct Hcirr as [-> Hn].
      destruct (is_block prel); simpl in Hb; injection Hb as <-;
        by apply Forall_replicate_ops.
    + intros b Hb.
      destruct prel as [| |b1]; destruct pirr as [| |b2]; simpl in *;
        try lia; repeat match goal with H : _ ∧ _ |- _ => destruct H end; subst;
        destruct b as [|[|b]]; simpl in *; try lia; try (by left); try (by right).
  - rewrite Hlog2, Hlog1. simpl. by rewrite <- app_assoc.
  - done.
  - done.
  - congruence.
Qed.

Lemma layout_same_heap prel pirr nrel nirr fnrel fnirr fl k k' :
  heap k' = heap k → ftrace_ops_list k' = ftrace_ops_list k →
  layout prel pirr nrel nirr fnrel fnirr fl k →
  layout prel pirr nrel nirr fnrel fnirr fl k'.
Proof.
  intros Hh Hl [H1 H2 H3 H4 H5 H6].
  constructor; rewrite ?Hh, ?Hl; done.
Qed.

(** Destroying both arrays of the layout unregisters every ops and frees
    every block, without a warning. *)
Lemma teardown_spec K prel pirr nrel nirr fnrel fnirr fl s :
  0 ≤ nrel < 2 ^ 32 → 0 ≤ nirr < 2 ^ 32 →
  layout prel pirr nrel nirr fnrel fnirr fl (kern s) →
  ∃ s' evs,
    (ops_destroy K prel (to_int nrel);; ops_destroy K pirr (to_int nirr)) s =
      Ok tt s' ∧
    ftrace_ops_list (kern s') = [] ∧
    Forall (λ blk, blk = None) (heap (kern s')) ∧
    klog (kern s') = klog (kern s) ++ evs ∧
    Forall is_teardown_event evs ∧
    warned (kern s') = warned (kern s) ∧
    same_module s s'.
Proof.
  intros Hnrel Hnirr [Hrel Hirr Hlist Hdist Hzero Hown].
  destruct (ops_destroy_spec K prel nrel _ (refs_of pirr nirr) s Hnrel Hrel Hlist)
    as (s1 & evs1 & E1 & Hh1 & Hl1 & Hlog1 & Hevs1 & _ & Hw1 & Hmod1).
  { intros op Hin Hblk Heq. apply elem_of_refs_of in Hin as (b & Hb & Hbase & _).
    apply Hdist; [done|congruence]. }
  rewrite (bind_ok _ _ _ _ _ E1).
  assert (Hirr1 : array_ok (heap (kern s1)) pirr nirr
            (mk_ftrace_ops (Some fnirr) fl [addr_tracee_irrelevant])).
  { destruct pirr as [| |b']; simpl in *; try done.
    destruct Hirr as (blk & Hb & Hlen & Hops). exists blk. split; [|done].
    rewrite Hh1. destruct prel as [| |b]; try done.
    rewrite list_lookup_insert_ne; [done|]. intros ->. by apply Hdist. }
  destruct (ops_destroy_spec K pirr nirr _ [] s1 Hnirr Hirr1)
    as (s2 & evs2 & E2 & Hh2 & Hl2 & Hlog2 & Hevs2 & _ & Hw2 & Hmod2).
  { by rewrite Hl1, app_nil_r. }
  { intros op Hin. by apply elem_of_nil in Hin. }
  exists s2, (evs1 ++ evs2). split; [done|].
  split_and!.
  - done.
  - apply Forall_lookup. intros i x Hx.
    assert (Hi : (i < length (heap (kern s)))%nat).
    { apply lookup_lt_Some in Hx. rewrite Hh2 in Hx.
      destruct pirr; rewrite ?length_insert, Hh1 in Hx;
        destruct prel; by rewrite ?length_insert in Hx. }
    rewrite Hh2 in Hx.
    destruct (decide (pirr = Block i)) as [->|Hne].
    + rewrite list_lookup_insert_eq in Hx; [congruence|].
      rewrite Hh1. destruct prel; by rewrite ?length_insert.
    + destruct (Hown i Hi) as [->|?]; [|done].
      assert (heap (kern s1) !! i = Some x) as Hx1.
      { destruct pirr as [| |b']; try done.
        rewrite list_lookup_insert_ne in Hx; [done|congruence]. }
      rewrite Hh1, list_lookup_insert_eq in Hx1; [congruence|done].
  - by rewrite Hlog2, Hlog1, app_assoc.
  - by apply Forall_app.
  - congruence.
  - by eapply same_module_trans.
Qed.

Lemma ktime_get_ok K s :
  ktime_get K s =
    Ok (ktime_at K (nr_clock_reads (kern s)))
       (append_log [EvKtimeGet (ktime_at K (nr_clock_reads (kern s)))]
          (with_kern (set_nr_clock_reads (S (nr_clock_reads (kern s)))) s)).
Proof. reflexivity. Qed.

(** The init function, from the loader's call to the division: [s_chk] is
    the state in which [div_u64] is called. What follows depends on
    [nr_function_calls] and [persist]. *)
Lemma init_spec K p :
  kernel_wf K → params_wf p →
  let prel := init_ptr_relevant K p in
  let pirr := init_ptr_irrelevant K p in
  let fn := init_tracer p in
  let fl := init_flags K p in
  let n := nr_function_calls p in
  let r := ftrace_ops_sample_init K (initial_state p) in
  ∃ s_chk evs_rel evs_irr evs_chk,
    params s_chk = set_save_regs (init_save_regs K p) p ∧
    ops_relevant s_chk = prel ∧ ops_irrelevant s_chk = pirr ∧
    tracer_relevant s_chk = fn ∧ tracer_irrelevant s_chk = fn ∧
    layout prel pirr (nr_ops_relevant p) (nr_ops_irrelevant p) fn fn fl (kern s_chk) ∧
    klog (kern s_chk) =
      init_banner K p ++ evs_rel ++ evs_irr ++
      [EvKtimeGet (ktime_at K 0)] ++
      repeat (EvCall addr_tracee_relevant) (Z.to_nat n) ++
      [EvKtimeGet (ktime_at K 1)] ++ evs_chk ∧
    (if is_block prel
     then evs_rel = alloc_events prel addr_tracee_relevant fn fl
                      (Z.to_nat (nr_ops_relevant p))
     else Forall is_alloc_warning evs_rel) ∧
    (if is_block pirr
     then evs_irr = alloc_events pirr addr_tracee_irrelevant fn fl
                      (Z.to_nat (nr_ops_irrelevant p))
     else Forall is_alloc_warning evs_irr) ∧
    Forall is_count_warning evs_chk ∧
    (n = 0 → r = Fault DivideError s_chk) ∧
    (n ≠ 0 → persist p = true →
       r = Ok 0 (append_log
                   [EvPrInfoResult n (init_period K) (init_period K / n)] s_chk)) ∧
    (n ≠ 0 → persist p = false →
       ∃ s_end evs_td,
         r = Ok (- EINVAL K) s_end ∧
         ftrace_ops_list (kern s_end) = [] ∧
         Forall (λ blk, blk = None) (heap (kern s_end)) ∧
         klog (kern s_end) =
           klog (kern s_chk) ++
           [EvPrInfoResult n (init_period K) (init_period K / n)] ++ evs_td ∧
         Forall is_teardown_event evs_td ∧
         same_module s_chk s_end).
Proof.
  intros HK Hp prel pirr fn fl n r.
  destruct (init_register_spec K p HK Hp)
    as (s1 & evs_rel & evs_irr & E1 & Hpar1 & Hor1 & Hoi1 & Htr1 & Hti1 &
        Hlay1 & Hlog1 & Hevs_rel & Hevs_irr & Hclk1).
  fold prel pirr fn fl in Hor1, Hoi1, Htr1, Hti1, Hlay1, Hevs_rel, Hevs_irr.
  destruct Hp as [Hn Hnrel Hnirr]. fold n in Hn.
  subst r. unfold ftrace_ops_sample_init.
  rewrite (bind_ok _ _ _ _ _ E1).
  rewrite (bind_ok _ _ _ _ _ (ktime_get_ok K s1)). rewrite Hclk1.
  set (s2 := append_log _ _).
  rewrite (bind_ok _ _ s2 n s2) by (unfold gets; subst s2; simpl; by rewrite Hpar1).
  destruct (timing_loop_layout prel pirr (nr_ops_relevant p) (nr_ops_irrelevant p)
              fn fn fl n s2 Hn)
    as (s3 & E3 & Hlay3 & Hmod3 & Hl3 & Hclk3 & Hlog3).
  { eapply layout_same_heap; [| |exact Hlay1]; done. }
  rewrite (bind_ok _ _ _ _ _ E3).
  rewrite (bind_ok _ _ _ _ _ (ktime_get_ok K s3)). rewrite Hclk3.
  change (nr_clock_reads (kern s2)) with 1%nat.
  set (s4 := append_log _ _).
  rewrite (bind_ok _ _ s4 s4 s4) by reflexivity.
  destruct Hmod3 as (Hpar3 & Hor3 & Hoi3 & Htr3 & Hti3).
  assert (Hpar4 : params s4 = set_save_regs (init_save_regs K p) p)
    by (subst s4 s2; simpl in *; congruence).
  assert (Hor4 : ops_relevant s4 = prel) by (subst s4 s2; simpl in *; congruence).
  assert (Hoi4 : ops_irrelevant s4 = pirr) by (subst s4 s2; simpl in *; congruence).
  assert (Hlay4 : layout prel pirr (nr_ops_relevant p) (nr_ops_irrelevant p)
                    fn fn fl (kern s4))
    by (eapply layout_same_heap; [| |exact Hlay3]; done).
  rewrite Hpar4, Hor4, Hoi4. simpl.
  destruct (ops_check_spec prel (nr_ops_relevant p) _ n s4 Hnrel (lay_rel _ _ _ _ _ _ _ _ Hlay4))
    as (evs5 & E5 & Hevs5).
  rewrite (bind_ok _ _ _ _ _ E5).
  set (s5 := append_log evs5 s4).
  destruct (ops_check_spec pirr (nr_ops_irrelevant p) _ 0 s5 Hnirr (lay_irr _ _ _ _ _ _ _ _ Hlay4))
    as (evs6 & E6 & Hevs6).
  rewrite (bind_ok _ _ _ _ _ E6).
  set (s6 := append_log evs6 s5).
  exists s6, evs_rel, evs_irr, (evs5 ++ evs6).
  assert (Hlay6 : layout prel pirr (nr_ops_relevant p) (nr_ops_irrelevant p)
                    fn fn fl (kern s6))
    by (eapply layout_same_heap; [| |exact Hlay4]; done).
  subst n. split_and!.
  - done.
  - done.
  - done.
  - subst s6 s5 s4 s2; simpl in *; congruence.
  - subst s6 s5 s4 s2; simpl in *; congruence.
  - done.
  - subst s6 s5 s4. simpl. rewrite Hlog3. subst s2. simpl. rewrite Hlog1.
    by rewrite <- !app_assoc.
  - done.
  - done.
  - by apply Forall_app.
  - intros Hz. unfold div_u64. by rewrite Hz.
  - intros Hnz Hpe. unfold div_u64.
    rewrite (proj2 (Z.eqb_neq _ _) Hnz).
    rewrite (bind_ok _ _ s6 (init_period K / nr_function_calls p) s6) by reflexivity.
    rewrite (bind_ok _ _ _ _ _ (log_append _ _)). by rewrite Hpe.
  - intros Hnz Hpe. unfold div_u64.
    rewrite (proj2 (Z.eqb_neq _ _) Hnz).
    rewrite (bind_ok _ _ s6 (init_period K / nr_function_calls p) s6) by reflexivity.
    rewrite (bind_ok _ _ _ _ _ (log_append _ _)). rewrite Hpe.
    set (s7 := append_log _ s6).
    destruct (teardown_spec K prel pirr (nr_ops_relevant p) (nr_ops_irrelevant p)
                fn fn fl s7 Hnrel Hnirr)
      as (s8 & evs_td & E8 & Hl8 & Hh8 & Hlog8 & Hevs8 & _ & Hmod8).
    { eapply layout_same_heap; [| |exact Hlay6]; done. }
    exists s8, evs_td.
    split_and!; try done.
    + unfold bind in E8 |- *.
      destruct (ops_destroy K prel _ s7) as [[] s7'|]; [|done].
      destruct (ops_destroy K pirr _ s7') as [[] s7''|]; [|done].
      by injection E8 as ->.
    + rewrite Hlog8. subst s7. simpl. by rewrite <- app_assoc.
Qed.

(** ** The run as a whole *)

Lemma init_final K p :
  kernel_wf K → params_wf p →
  let prel := init_ptr_relevant K p in
  let pirr := init_ptr_irrelevant K p in
  let fn := init_tracer p in
  let fl := init_flags K p in
  let n := nr_function_calls p in
  let r := ftrace_ops_sample_init K (initial_state p) in
  ∃ evs_rel evs_irr evs_chk post,
    klog (kern (final_state r)) =
      init_banner K p ++ evs_rel ++ evs_irr ++
      [EvKtimeGet (ktime_at K 0)] ++
      repeat (EvCall addr_tracee_relevant) (Z.to_nat n) ++
      [EvKtimeGet (ktime_at K 1)] ++ evs_chk ++ post ∧
    (if is_block prel
     then evs_rel = alloc_events prel addr_tracee_relevant fn fl
                      (Z.to_nat (nr_ops_relevant p))
     else Forall is_alloc_warning evs_rel) ∧
    (if is_block pirr
     then evs_irr = alloc_events pirr addr_tracee_irrelevant fn fl
                      (Z.to_nat (nr_ops_irrelevant p))
     else Forall is_alloc_warning evs_irr) ∧
    Forall is_count_warning evs_chk ∧
    Forall is_finish_event post ∧
    (∀ nr period per_call, EvPrInfoResult nr period per_call ∈ post →
       nr = n ∧ period = init_period K ∧ per_call = init_period K / n) ∧
    (n ≠ 0 → EvPrInfoResult n (init_period K) (init_period K / n) ∈ post) ∧
    params (final_state r) = set_save_regs (init_save_regs K p) p.
Proof.
  intros HK Hp prel pirr fn fl n r.
  destruct (init_spec K p HK Hp)
    as (s_chk & evs_rel & evs_irr & evs_chk & Hpar & _ & _ & _ & _ & _ & Hlog &
        Hevs_rel & Hevs_irr & Hevs_chk & Hzero & Hpersist & Hteardown).
  fold prel pirr fn fl n r in Hlog, Hevs_rel, Hevs_irr, Hzero, Hpersist, Hteardown.
  destruct (Z.eq_dec n 0) as [Hz|Hnz].
  - exists evs_rel, evs_irr, evs_chk, [].
    rewrite (Hzero Hz). simpl. rewrite app_nil_r.
    split_and!; try done.
    intros ??? Hin. by apply elem_of_nil in Hin.
  - destruct (persist p) eqn:Hpe.
    + exists evs_rel, evs_irr, evs_chk,
        [EvPrInfoResult n (init_period K) (init_period K / n)].
      rewrite (Hpersist Hnz eq_refl). simpl. rewrite Hlog, <- !app_assoc.
      split_and!; try done.
      * by repeat constructor.
      * intros ??? Hin%list_elem_of_singleton. by injection Hin as -> -> ->.
      * intros _. by apply list_elem_of_singleton.
    + destruct (Hteardown Hnz eq_refl)
        as (s_end & evs_td & -> & _ & _ & Hlog_end & Hevs_td & Hmod).
      exists evs_rel, evs_irr, evs_chk,
        (EvPrInfoResult n (init_period K) (init_period K / n) :: evs_td).
      simpl. rewrite Hlog_end, Hlog, <- !app_assoc.
      split_and!; try done.
      * constructor; [done|]. eapply Forall_impl; [exact Hevs_td|].
        by intros [].
      * intros nr pd pc Hin. apply elem_of_cons in Hin as [Hin|Hin].
        -- by injection Hin as -> -> ->.
        -- pose proof (proj1 (Forall_forall _ _) Hevs_td _ Hin) as Hbad.
           by destruct Hbad.
      * intros _. by left.
      * destruct Hmod as (-> & _). done.
Qed.

Lemma alloc_events_Forall (P : event → Prop) p tracee fn fl n :
  (∀ op ip, P (EvSetFilterIp op ip)) → (∀ op o, P (EvRegister op o)) →
  Forall P (alloc_events p tracee fn fl n).
Proof.
  intros H1 H2. unfold alloc_events.
  induction (seq 0 n) as [|j l IH]; simpl; by repeat constructor.
Qed.

Lemma registration_events_Forall (P : event → Prop) (b : bool) evs p tracee fn fl n :
  (if b then evs = alloc_events p tracee fn fl n else Forall is_alloc_warning evs) →
  (∀ op ip, P (EvSetFilterIp op ip)) → (∀ op o, P (EvRegister op o)) →
  P (EvWarn WARN_ALLOC) →
  Forall P evs.
Proof.
  destruct b.
  - intros -> H1 H2 _. by apply alloc_events_Forall.
  - intros H _ _ Hw. eapply Forall_impl; [exact H|]. by intros ? ->.
Qed.

Lemma init_banner_quiet K p : Forall is_quiet (init_banner K p).
Proof.
  unfold init_banner.
  destruct (negb _ && _); by repeat constructor.
Qed.

(** * The properties of the module *)

(** C1. The init function reads the clock, calls [tracee_relevant] exactly
    [nr_function_calls] times, and reads the clock again; it makes no other
    call of a traceable function and reads the clock at no other time. The
    period it reports is the second reading minus the first, as a [u64]. *)
Theorem init_times_nr_function_calls K p :
  kernel_wf K → params_wf p →
  let r := ftrace_ops_sample_init K (initial_state p) in
  let start := ktime_at K 0 in
  let end_ := ktime_at K 1 in
  ∃ pre post,
    klog (kern (final_state r)) =
      pre ++ [EvKtimeGet start] ++
      repeat (EvCall addr_tracee_relevant) (Z.to_nat (nr_function_calls p)) ++
      [EvKtimeGet end_] ++ post ∧
    Forall is_quiet pre ∧ Forall is_quiet post ∧
    (∀ nr period per_call, EvPrInfoResult nr period per_call ∈ post →
       nr = nr_function_calls p ∧ period = to_u64 (end_ - start)) ∧
    (nr_function_calls p ≠ 0 →
       ∃ per_call,
         EvPrInfoResult (nr_function_calls p) (to_u64 (end_ - start)) per_call ∈ post) ∧
    (start ≤ end_ < start + 2 ^ 64 → to_u64 (end_ - start) = end_ - start).
Proof.
  intros HK Hp r start end_.
  destruct (init_final K p HK Hp)
    as (evs_rel & evs_irr & evs_chk & post & Hlog & Hevs_rel & Hevs_irr &
        Hevs_chk & Hpost & Hres & Hrep & _).
  exists (init_banner K p ++ evs_rel ++ evs_irr), (evs_chk ++ post).
  split_and!.
  - subst r. rewrite Hlog. by rewrite <- !app_assoc.
  - apply Forall_app_2; [apply init_banner_quiet|]. apply Forall_app_2.
    + by eapply registration_events_Forall; [exact Hevs_rel|..].
    + by eapply registration_events_Forall; [exact Hevs_irr|..].
  - apply Forall_app_2.
    + eapply Forall_impl; [exact Hevs_chk|]. by intros ? (? & ? & ->).
    + eapply Forall_impl; [exact Hpost|]. by intros [].
  - intros nr pd pc Hin. apply elem_of_app in Hin as [Hin|Hin].
    + pose proof (proj1 (Forall_forall _ _) Hevs_chk _ Hin) as (? & ? & [=]).
    + by destruct (Hres _ _ _ Hin) as (-> & -> & _).
  - intros Hnz. eexists. apply elem_of_app. right. by apply Hrep.
  - intros Hrange. unfold to_u64. apply Z.mod_small. lia.
Qed.

(** C2. The per-call latency is [div_u64 (period, nr_function_calls)]: the
    quotient of the unsigned division when [nr_function_calls] is not zero.
    With [nr_function_calls = 0] the division is by zero: the init function
    stops there with a divide error, before it reports anything and before
    it returns. *)
Theorem init_per_call_latency K p :
  kernel_wf K → params_wf p →
  let r := ftrace_ops_sample_init K (initial_state p) in
  let period := init_period K in
  (nr_function_calls p ≠ 0 →
     (∃ v s, r = Ok v s) ∧
     ∃ pre post,
       klog (kern (final_state r)) =
         pre ++ [EvPrInfoResult (nr_function_calls p) period
                   (period / nr_function_calls p)] ++ post) ∧
  (nr_function_calls p = 0 →
     (∃ s, r = Fault DivideError s) ∧
     ∀ nr pd per_call, EvPrInfoResult nr pd per_call ∉ klog (kern (final_state r))).
Proof.
  intros HK Hp r period.
  destruct (init_spec K p HK Hp)
    as (s_chk & evs_rel & evs_irr & evs_chk & _ & _ & _ & _ & _ & _ & Hlog &
        Hevs_rel & Hevs_irr & Hevs_chk & Hzero & Hpersist & Hteardown).
  fold r in Hzero, Hpersist, Hteardown. subst period.
  split.
  - intros Hnz. destruct (persist p) eqn:Hpe.
    + rewrite (Hpersist Hnz eq_refl). split; [by eexists _, _|].
      exists (klog (kern s_chk)), []. by rewrite app_nil_r.
    + destruct (Hteardown Hnz eq_refl) as (s_end & evs_td & -> & _ & _ & Hl & _).
      split; [by eexists _, _|].
      exists (klog (kern s_chk)), evs_td. simpl. by rewrite Hl.
  - intros Hz. rewrite (Hzero Hz). split; [by eexists|].
    intros nr pd pc Hin. simpl in Hin.
    assert (Hall : Forall (λ e, e ≠ EvPrInfoResult nr pd pc) (klog (kern s_chk))).
    { rewrite Hlog.
      apply Forall_app_2; [|apply Forall_app_2; [|apply Forall_app_2;
        [|apply Forall_app_2; [|apply Forall_app_2; [|apply Forall_app_2]]]]].
      - unfold init_banner. destruct (negb _ && _); by repeat constructor.
      - by eapply registration_events_Forall; [exact Hevs_rel|..].
      - by eapply registration_events_Forall; [exact Hevs_irr|..].
      - by repeat constructor.
      - apply Forall_repeat. done.
      - by repeat constructor.
      - eapply Forall_impl; [exact Hevs_chk|]. by intros ? (? & ? & ->). }
    by apply (proj1 (Forall_forall _ _) Hall _ Hin).
Qed.

(** ** Registrations and flags *)

Lemma registrations_app tracee l1 l2 :
  registrations tracee (l1 ++ l2) = registrations tracee l1 ++ registrations tracee l2.
Proof. apply flat_map_app. Qed.

Lemma registrations_none tracee l :
  Forall (λ e, ¬ is_register_event e) l → registrations tracee l = [].
Proof.
  induction 1 as [|e l He Hl IH]; [done|].
  unfold registrations in *. simpl. rewrite IH.
  destruct e; simpl in *; done.
Qed.

Lemma registrations_alloc_events tracee p tracee' fn fl n :
  registrations tracee (alloc_events p tracee' fn fl n) =
    if bool_decide (tracee' = tracee)
    then map (λ j, ((p, Z.of_nat j), mk_ftrace_ops (Some fn) fl [tracee'])) (seq 0 n)
    else [].
Proof.
  unfold registrations, alloc_events.
  induction (seq 0 n) as [|j l IH]; simpl.
  - by destruct (bool_decide _).
  - rewrite IH.
    destruct tracee, tracee'; simpl; done.
Qed.

Lemma registrations_registration_events tracee (b : bool) evs p tracee' fn fl n :
  (if b then evs = alloc_events p tracee' fn fl n else Forall is_alloc_warning evs) →
  registrations tracee evs =
    if b && bool_decide (tracee' = tracee)
    then map (λ j, ((p, Z.of_nat j), mk_ftrace_ops (Some fn) fl [tracee'])) (seq 0 n)
    else [].
Proof.
  destruct b; simpl.
  - intros ->. apply registrations_alloc_events.
  - intros H. apply registrations_none.
    eapply Forall_impl; [exact H|]. by intros ? -> [].
Qed.

Lemma is_block_alloc_result_at K n a b :
  0 ≤ n →
  is_block (alloc_result_at K n a b) = true ↔ 0 < n < 2 ^ 31 ∧ kcalloc_ok K a = true.
Proof.
  intros Hn. unfold alloc_result_at.
  destruct (Z.leb_spec (2 ^ 31) n); simpl; [split; [done|lia]|].
  destruct (Z.eqb_spec n 0); simpl; [split; [done|lia]|].
  destruct (kcalloc_ok K a); simpl; [split; [lia|done]|split; [done|by intros [_ ?]]].
Qed.

(** C3, as the code has it. For each of the two arrays, if its allocation
    succeeds the init function registers exactly as many ops as the count
    parameter of the array says, in index order, each filtered on the tracee
    of the array, with the callback [ops_func_count] when [check_count] is
    set and [ops_func_nop] otherwise, and with the flags word computed from
    the parameters; if its allocation fails it registers none. The
    allocation succeeds only for a count below 2^31 that the allocator
    satisfies (a zero count needs no allocation). *)
Theorem init_registers_allocated_arrays K p :
  kernel_wf K → params_wf p →
  let log := klog (kern (final_state (ftrace_ops_sample_init K (initial_state p)))) in
  let fn := if check_count p then fn_ops_func_count else fn_ops_func_nop in
  let fl := init_flags K p in
  let prel := init_ptr_relevant K p in
  let pirr := init_ptr_irrelevant K p in
  registrations addr_tracee_relevant log =
    (if is_block prel
     then map (λ j, ((prel, Z.of_nat j),
                     mk_ftrace_ops (Some fn) fl [addr_tracee_relevant]))
              (seq 0 (Z.to_nat (nr_ops_relevant p)))
     else []) ∧
  registrations addr_tracee_irrelevant log =
    (if is_block pirr
     then map (λ j, ((pirr, Z.of_nat j),
                     mk_ftrace_ops (Some fn) fl [addr_tracee_irrelevant]))
              (seq 0 (Z.to_nat (nr_ops_irrelevant p)))
     else []) ∧
  (is_block prel = true ↔
     0 < nr_ops_relevant p < 2 ^ 31 ∧ kcalloc_ok K 0 = true) ∧
  (is_block pirr = true ↔
     0 < nr_ops_irrelevant p < 2 ^ 31 ∧
     kcalloc_ok K (if reaches_allocator (nr_ops_relevant p) then 1 else 0) = true).
Proof.
  intros HK Hp log fn fl prel pirr.
  destruct (init_final K p HK Hp)
    as (evs_rel & evs_irr & evs_chk & post & Hlog & Hevs_rel & Hevs_irr &
        Hevs_chk & Hpost & _).
  fold log prel pirr fl in Hlog, Hevs_rel, Hevs_irr.
  change (init_tracer p) with fn in Hevs_rel, Hevs_irr.
  assert (Hbanner : ∀ t, registrations t (init_banner K p) = []).
  { intros t. unfold init_banner. by destruct (negb _ && _). }
  assert (Hrepeat : ∀ t n, registrations t (repeat (EvCall addr_tracee_relevant) n) = []).
  { intros t n. apply registrations_none, Forall_repeat. by intros []. }
  assert (Hchk : ∀ t, registrations t evs_chk = []).
  { intros t. apply registrations_none.
    eapply Forall_impl; [exact Hevs_chk|]. by intros ? (? & ? & ->) []. }
  assert (Hfin : ∀ t, registrations t post = []).
  { intros t. apply registrations_none.
    eapply Forall_impl; [exact Hpost|]. by intros [] ? []. }
  destruct Hp as [_ Hnrel Hnirr].
  split_and!.
  - rewrite Hlog, !registrations_app, Hbanner, Hrepeat, Hchk, Hfin.
    rewrite (registrations_registration_events _ _ _ _ _ _ _ _ Hevs_rel).
    rewrite (registrations_registration_events _ _ _ _ _ _ _ _ Hevs_irr).
    simpl. rewrite andb_true_r, andb_false_r, !app_nil_r. done.
  - rewrite Hlog, !registrations_app, Hbanner, Hrepeat, Hchk, Hfin.
    rewrite (registrations_registration_events _ _ _ _ _ _ _ _ Hevs_rel).
    rewrite (registrations_registration_events _ _ _ _ _ _ _ _ Hevs_irr).
    simpl. rewrite andb_true_r, andb_false_r, !app_nil_r. done.
  - apply is_block_alloc_result_at. lia.
  - apply is_block_alloc_result_at. lia.
Qed.

(** C3 as stated fails: with [nr_ops_relevant = 2^31] the conversion to
    [int] makes the count negative, the allocation fails, and no ops is
    registered on [tracee_relevant], although the allocator of this kernel
    satisfies every request it receives. *)
Lemma init_registers_nothing_for_count_2_31 :
  let K := sample_kernel true (λ _, true) in
  let p := mk_params 1 (2 ^ 31) 0 false false false false true in
  let log := klog (kern (final_state (ftrace_ops_sample_init K (initial_state p)))) in
  ¬ (Z.of_nat (length (registrations addr_tracee_relevant log)) = nr_ops_relevant p).
Proof. vm_compute. discriminate. Qed.

Lemma flag_set_0 b : flag_set b 0 = false.
Proof. apply Z.bits_0. Qed.

Lemma flag_set_lor b x y : flag_set b (Z.lor x y) = flag_set b x || flag_set b y.
Proof. apply Z.lor_spec. Qed.

Lemma flag_set_BIT b b' : 0 ≤ b' → flag_set b (BIT b') = bool_decide (b' = b).
Proof.
  intros H. unfold flag_set, BIT. rewrite Z.shiftl_1_l, Z.pow2_bits_eqb by done.
  destruct (Z.eqb_spec b' b).
  - by rewrite bool_decide_eq_true_2.
  - by rewrite bool_decide_eq_false_2.
Qed.

(** Every ops the init function registers carries the flags word. *)
Lemma init_registered_flags K p :
  kernel_wf K → params_wf p →
  let log := klog (kern (final_state (ftrace_ops_sample_init K (initial_state p)))) in
  ∀ op o, EvRegister op o ∈ log → flags o = init_flags K p.
Proof.
  intros HK Hp log op o Hin.
  destruct (init_final K p HK Hp)
    as (evs_rel & evs_irr & evs_chk & post & Hlog & Hevs_rel & Hevs_irr &
        Hevs_chk & Hpost & _).
  fold log in Hlog.
  assert (Hall : Forall (λ e, ∀ op o, e = EvRegister op o → flags o = init_flags K p) log).
  { assert (Halloc : ∀ q t n,
      Forall (λ e, ∀ op o, e = EvRegister op o → flags o = init_flags K p)
             (alloc_events q t (init_tracer p) (init_flags K p) n)).
    { intros q t n. unfold alloc_events.
      induction (seq 0 n) as [|j l IH]; simpl; [done|].
      constructor; [done|]. constructor; [|done]. by intros ?? [= _ <-]. }
    assert (Hreg : ∀ (b : bool) evs q t n,
      (if b then evs = alloc_events q t (init_tracer p) (init_flags K p) n
       else Forall is_alloc_warning evs) →
      Forall (λ e, ∀ op o, e = EvRegister op o → flags o = init_flags K p) evs).
    { intros [] evs q t n; [by intros ->|].
      intros H. eapply Forall_impl; [exact H|]. by intros ? ->. }
    rewrite Hlog.
    apply Forall_app_2; [|apply Forall_app_2; [|apply Forall_app_2;
      [|apply Forall_app_2; [|apply Forall_app_2; [|apply Forall_app_2;
        [|apply Forall_app_2]]]]]].
    - unfold init_banner. destruct (negb _ && _); by repeat constructor.
    - by eapply Hreg.
    - by eapply Hreg.
    - by repeat constructor.
    - by apply Forall_repeat.
    - by repeat constructor.
    - eapply Forall_impl; [exact Hevs_chk|]. by intros ? (? & ? & ->).
    - eapply Forall_impl; [exact Hpost|]. by intros []. }
  by apply (proj1 (Forall_forall _ _) Hall _ Hin op o).
Qed.

Lemma init_flags_bits K p :
  kernel_wf K →
  flag_set (SAVE_REGS_BIT K) (init_flags K p) = init_save_regs K p ∧
  flag_set (RECURSION_BIT K) (init_flags K p) = assist_recursion p ∧
  flag_set (RCU_BIT K) (init_flags K p) = assist_rcu p.
Proof.
  intros [H1 H2 H3 H12 H13 H23 _ _ _].
  unfold init_flags, init_save_regs, FTRACE_OPS_FL_SAVE_REGS,
    FTRACE_OPS_FL_RECURSION, FTRACE_OPS_FL_RCU.
  destruct (CONFIG_DYNAMIC_FTRACE_WITH_REGS K), (save_regs p),
    (assist_recursion p), (assist_rcu p); simpl;
    rewrite ?flag_set_lor, ?flag_set_BIT, ?flag_set_0 by lia;
    repeat case_bool_decide; simpl; first [done|congruence].
Qed.

(** C4. On a kernel without [CONFIG_DYNAMIC_FTRACE_WITH_REGS], a requested
    [save_regs] is switched off and the flags word has
    [FTRACE_OPS_FL_SAVE_REGS] clear; in every other case [save_regs] keeps
    its value and the bit is set exactly when [save_regs] is. Every ops the
    init function registers carries that flags word. *)
Theorem init_save_regs_flag K p :
  kernel_wf K → params_wf p →
  let s := final_state (ftrace_ops_sample_init K (initial_state p)) in
  let fl := init_flags K p in
  (∀ op o, EvRegister op o ∈ klog (kern s) → flags o = fl) ∧
  (CONFIG_DYNAMIC_FTRACE_WITH_REGS K = false → save_regs p = true →
     save_regs (params s) = false ∧ flag_set (SAVE_REGS_BIT K) fl = false) ∧
  (CONFIG_DYNAMIC_FTRACE_WITH_REGS K = true ∨ save_regs p = false →
     save_regs (params s) = save_regs p ∧
     flag_set (SAVE_REGS_BIT K) fl = save_regs p).
Proof.
  intros HK Hp s fl.
  destruct (init_final K p HK Hp) as (? & ? & ? & ? & _ & _ & _ & _ & _ & _ & _ & Hpar).
  fold s in Hpar.
  destruct (init_flags_bits K p HK) as (Hsave & _ & _). fold fl in Hsave.
  split_and!.
  - by apply init_registered_flags.
  - intros Hcfg Hsr. rewrite Hpar, Hsave. unfold init_save_regs.
    by rewrite Hcfg, Hsr.
  - intros Hor. rewrite Hpar, Hsave. unfold init_save_regs. simpl.
    destruct Hor as [->| ->]; simpl; [done|]. by rewrite andb_false_r.
Qed.

(** The ops the init function registers on each tracee, as
    [register_ftrace_function] received them: those of an array whose
    allocation succeeded, in index order. *)
Lemma init_registrations K p :
  kernel_wf K → params_wf p →
  let log := klog (kern (final_state (ftrace_ops_sample_init K (initial_state p)))) in
  let fn := init_tracer p in
  let fl := init_flags K p in
  let prel := init_ptr_relevant K p in
  let pirr := init_ptr_irrelevant K p in
  registrations addr_tracee_relevant log =
    (if is_block prel
     then map (λ j, ((prel, Z.of_nat j),
                     mk_ftrace_ops (Some fn) fl [addr_tracee_relevant]))
              (seq 0 (Z.to_nat (nr_ops_relevant p)))
     else []) ∧
  registrations addr_tracee_irrelevant log =
    (if is_block pirr
     then map (λ j, ((pirr, Z.of_nat j),
                     mk_ftrace_ops (Some fn) fl [addr_tracee_irrelevant]))
              (seq 0 (Z.to_nat (nr_ops_irrelevant p)))
     else []).
Proof.
  intros HK Hp log fn fl prel pirr.
  destruct (init_final K p HK Hp)
    as (evs_rel & evs_irr & evs_chk & post & Hlog & Hevs_rel & Hevs_irr &
        Hevs_chk & Hpost & _).
  fold log prel pirr fl fn in Hlog, Hevs_rel, Hevs_irr.
  assert (Hbanner : ∀ t, registrations t (init_banner K p) = []).
  { intros t. unfold init_banner. by destruct (negb _ && _). }
  assert (Hrepeat : ∀ t n, registrations t (repeat (EvCall addr_tracee_relevant) n) = []).
  { intros t n. apply registrations_none, Forall_repeat. by intros []. }
  assert (Hchk : ∀ t, registrations t evs_chk = []).
  { intros t. apply registrations_none.
    eapply Forall_impl; [exact Hevs_chk|]. by intros ? (? & ? & ->) []. }
  assert (Hfin : ∀ t, registrations t post = []).
  { intros t. apply registrations_none.
    eapply Forall_impl; [exact Hpost|]. by intros [] ? []. }
  split.
  - rewrite Hlog, !registrations_app, Hbanner, Hrepeat, Hchk, Hfin.
    rewrite (registrations_registration_events _ _ _ _ _ _ _ _ Hevs_rel).
    rewrite (registrations_registration_events _ _ _ _ _ _ _ _ Hevs_irr).
    simpl. rewrite andb_true_r, andb_false_r, !app_nil_r. done.
  - rewrite Hlog, !registrations_app, Hbanner, Hrepeat, Hchk, Hfin.
    rewrite (registrations_registration_events _ _ _ _ _ _ _ _ Hevs_rel).
    rewrite (registrations_registration_events _ _ _ _ _ _ _ _ Hevs_irr).
    simpl. rewrite andb_true_r, andb_false_r, !app_nil_r. done.
Qed.

(** C5. The init function registers the ops of both arrays, each with a
    flags word in which [FTRACE_OPS_FL_RECURSION] is set exactly when
    [assist_recursion] is and [FTRACE_OPS_FL_RCU] exactly when [assist_rcu]
    is: the ops registered on either tracee, listed with these two bits of
    their flags, are the elements of the array, each with the values of the
    two parameters. An array has elements when its count is positive and
    below 2^31 and the allocator satisfies the request. Every ops the init
    function registers carries the one flags word. *)
Theorem init_assist_flags K p :
  kernel_wf K → params_wf p →
  let s := final_state (ftrace_ops_sample_init K (initial_state p)) in
  let fl := init_flags K p in
  let prel := init_ptr_relevant K p in
  let pirr := init_ptr_irrelevant K p in
  let assist_bits (ro : opref * ftrace_ops) :=
    (ro.1, flag_set (RECURSION_BIT K) (flags ro.2),
           flag_set (RCU_BIT K) (flags ro.2)) in
  let assisted (op : opref) := (op, assist_recursion p, assist_rcu p) in
  map assist_bits (registrations addr_tracee_relevant (klog (kern s))) =
    map assisted (refs_of prel (nr_ops_relevant p)) ∧
  map assist_bits (registrations addr_tracee_irrelevant (klog (kern s))) =
    map assisted (refs_of pirr (nr_ops_irrelevant p)) ∧
  (is_block prel = true ↔
     0 < nr_ops_relevant p < 2 ^ 31 ∧ kcalloc_ok K 0 = true) ∧
  (is_block pirr = true ↔
     0 < nr_ops_irrelevant p < 2 ^ 31 ∧
     kcalloc_ok K (if reaches_allocator (nr_ops_relevant p) then 1 else 0) = true) ∧
  (∀ op o, EvRegister op o ∈ klog (kern s) → flags o = fl) ∧
  flag_set (RECURSION_BIT K) fl = assist_recursion p ∧
  flag_set (RCU_BIT K) fl = assist_rcu p.
Proof.
  intros HK Hp s fl prel pirr assist_bits assisted.
  destruct (init_flags_bits K p HK) as (_ & Hrec & Hrcu).
  destruct (init_registrations K p HK Hp) as (Hrel & Hirr).
  fold s prel pirr fl in Hrel, Hirr, Hrec, Hrcu.
  pose proof (wf_nr_ops_relevant p Hp) as Hnrel.
  pose proof (wf_nr_ops_irrelevant p Hp) as Hnirr.
  split_and!.
  - rewrite Hrel. destruct prel; simpl; [done|done|].
    unfold refs_from. rewrite !map_map. apply map_ext. intros j.
    subst assist_bits assisted. simpl. by rewrite Hrec, Hrcu.
  - rewrite Hirr. destruct pirr; simpl; [done|done|].
    unfold refs_from. rewrite !map_map. apply map_ext. intros j.
    subst assist_bits assisted. simpl. by rewrite Hrec, Hrcu.
  - apply is_block_alloc_result_at. lia.
  - apply is_block_alloc_result_at. lia.
  - by apply init_registered_flags.
  - done.
  - done.
Qed.

(** ** Counting *)

Lemma init_log_events K p :
  kernel_wf K → params_wf p →
  Forall is_init_event
    (klog (kern (final_state (ftrace_ops_sample_init K (initial_state p))))).
Proof.
  intros HK Hp.
  destruct (init_final K p HK Hp)
    as (evs_rel & evs_irr & evs_chk & post & Hlog & Hevs_rel & Hevs_irr &
        Hevs_chk & Hpost & _).
  rewrite Hlog.
  apply Forall_app_2; [|apply Forall_app_2; [|apply Forall_app_2;
    [|apply Forall_app_2; [|apply Forall_app_2; [|apply Forall_app_2;
      [|apply Forall_app_2]]]]]].
  - unfold init_banner. destruct (negb _ && _); by repeat constructor.
  - by eapply registration_events_Forall; [exact Hevs_rel|..].
  - by eapply registration_events_Forall; [exact Hevs_irr|..].
  - by repeat constructor.
  - by apply Forall_repeat.
  - by repeat constructor.
  - eapply Forall_impl; [exact Hevs_chk|]. by intros ? (? & ? & ->).
  - eapply Forall_impl; [exact Hpost|]. by intros [].
Qed.

(** A check against zero of an irrelevant array that has counted nothing
    prints nothing. *)
Lemma ops_check_zero_silent prel pirr nrel nirr fnrel fnirr fl s :
  0 ≤ nirr < 2 ^ 32 →
  layout prel pirr nrel nirr fnrel fnirr fl (kern s) →
  ops_check pirr (to_int nirr) 0 s = Ok tt s.
Proof.
  intros Hn [_ Hirr _ _ Hzero _].
  destruct (check_count (params s)) eqn:Hcc.
  2:{ unfold ops_check. rewrite (bind_ok _ _ s false s) by (unfold gets; by rewrite Hcc).
      by rewrite orb_true_r. }
  destruct pirr as [| |b]; simpl in Hirr.
  - unfold ops_check. by rewrite (bind_ok _ _ s true s) by (unfold gets; by rewrite Hcc).
  - subst nirr. unfold ops_check.
    by rewrite (bind_ok _ _ s true s) by (unfold gets; by rewrite Hcc).
  - destruct Hirr as (blk & Hb & Hlen & _).
    destruct (Z.eq_dec nirr 0) as [->|Hnz].
    + unfold ops_check. by rewrite (bind_ok _ _ s true s) by (unfold gets; by rewrite Hcc).
    + destruct (lookup_lt_is_Some_2 blk 0) as [e He]; [lia|].
      rewrite (ops_check_block s b blk e _ 0 Hcc Hb He).
      pose proof (proj1 (Forall_lookup _ _) (Hzero b blk eq_refl Hb) _ _ He) as Hc.
      simpl in Hc. by rewrite Hc.
Qed.

(** ** No-ops *)

Lemma ftrace_ops_list_func_nop l ip s :
  (∀ op, op ∈ l →
     ∃ b blk e, op.1 = Block b ∧ heap (kern s) !! b = Some (Some blk) ∧
                blk !! Z.to_nat op.2 = Some e ∧
                (filter_match (filter_hash (ops e)) ip = true →
                 func (ops e) = Some fn_ops_func_nop)) →
  ftrace_ops_list_func l ip s = Ok tt s.
Proof.
  induction l as [|[q j] l IH]; intros Hl; [done|].
  destruct (Hl (q, j)) as (b & blk & e & Hq & Hb & He & Hnop); [constructor|].
  simpl in *. subst q.
  rewrite (bind_ok _ _ _ _ _ (load_ok _ _ _ _ _ Hb He)).
  destruct (filter_match (filter_hash (ops e)) ip).
  - rewrite (Hnop eq_refl). simpl. unfold ops_func_nop.
    rewrite (bind_ok _ _ s tt s) by reflexivity.
    apply IH. intros op Hin. apply Hl. by constructor.
  - rewrite (bind_ok _ _ s tt s) by reflexivity.
    apply IH. intros op Hin. apply Hl. by constructor.
Qed.

Lemma call_traced_nop s :
  nop_attached addr_tracee_relevant s →
  call_traced addr_tracee_relevant s =
    Ok tt (append_log [EvCall addr_tracee_relevant] s).
Proof.
  intros Hnop. unfold call_traced.
  rewrite (bind_ok _ _ _ _ _ (log_append _ _)).
  set (s1 := append_log _ s).
  rewrite (bind_ok _ _ s1 (ftrace_ops_list (kern s1)) s1) by reflexivity.
  rewrite (bind_ok _ _ s1 tt s1); [done|].
  apply ftrace_ops_list_func_nop. intros op Hin. by apply Hnop.
Qed.

Lemma nop_attached_append_log ip evs s :
  nop_attached ip s → nop_attached ip (append_log evs s).
Proof. intros H op Hin. by apply H. Qed.

(** C7, as the code has it. The bodies of [tracee_relevant] and
    [ops_func_nop] do nothing, however often they run. A call of
    [tracee_relevant] also runs the tracers attached to it: any number of
    calls leave the parameters, the globals and the arrays as they are when
    every attached tracer is [ops_func_nop], which is the case after
    registration whenever [check_count] is unset. *)
Theorem no_ops_leave_module_state n :
  0 ≤ n < 2 ^ 32 →
  (∀ s, for_u32 n (λ _, tracee_relevant) s = Ok tt s) ∧
  (∀ ip parent_ip op fregs s,
     for_u32 n (λ _, ops_func_nop ip parent_ip op fregs) s = Ok tt s) ∧
  (∀ s, nop_attached addr_tracee_relevant s →
     ∃ s', timing_loop n s = Ok tt s' ∧ module_state s' = module_state s) ∧
  (∀ K p, kernel_wf K → params_wf p → check_count p = false →
     ∃ s, init_register K (initial_state p) = Ok tt s ∧
          nop_attached addr_tracee_relevant s).
Proof.
  intros Hn. split_and!.
  - intros s.
    destruct (for_u32_inv (λ _ s', s' = s) (λ _, tracee_relevant) n s Hn)
      as (s' & E & ->); [|done|done].
    intros i s0 _ ->. by exists s.
  - intros ip parent_ip op fregs s.
    destruct (for_u32_inv (λ _ s', s' = s)
                (λ _, ops_func_nop ip parent_ip op fregs) n s Hn)
      as (s' & E & ->); [|done|done].
    intros i s0 _ ->. by exists s.
  - intros s Hnop. unfold timing_loop.
    destruct (for_u32_inv
      (λ i s', s' = append_log (repeat (EvCall addr_tracee_relevant) (Z.to_nat i)) s)
      (λ _, call_traced addr_tracee_relevant) n s Hn)
      as (s' & E & ->).
    + intros i s0 Hi ->. eexists. split.
      * apply call_traced_nop. by apply nop_attached_append_log.
      * rewrite append_log_app, repeat_snoc. do 2 f_equal. lia.
    + by rewrite append_log_nil.
    + by eexists.
  - intros K p HK Hp Hcc.
    destruct (init_register_spec K p HK Hp)
      as (s1 & evs_rel & evs_irr & E1 & _ & _ & _ & _ & _ & Hlay & _).
    exists s1. split; [done|].
    unfold init_tracer in Hlay. rewrite Hcc in Hlay.
    destruct Hlay as [Hrel Hirr Hlist _ _ _].
    intros op Hin. rewrite Hlist in Hin.
    apply elem_of_app in Hin as [Hin|Hin];
      apply elem_of_refs_of in Hin as (b & Hb & Hbase & Hidx).
    + rewrite Hb in Hrel. destruct Hrel as (blk & Hblk & Hlen & Hops).
      destruct (lookup_lt_is_Some_2 blk (Z.to_nat op.2)) as [e He]; [lia|].
      exists b, blk, e. split_and!; [congruence|done|done|].
      intros _. by rewrite (proj1 (Forall_lookup _ _) Hops _ _ He).
    + rewrite Hb in Hirr. destruct Hirr as (blk & Hblk & Hlen & Hops).
      destruct (lookup_lt_is_Some_2 blk (Z.to_nat op.2)) as [e He]; [lia|].
      exists b, blk, e. split_and!; [congruence|done|done|].
      intros _. by rewrite (proj1 (Forall_lookup _ _) Hops _ _ He).
Qed.

(** C7 as stated fails: with [check_count] set, one call of
    [tracee_relevant] after registration changes the count of the relevant
    ops from 0 to 1. *)
Lemma traced_call_changes_count :
  let K := sample_kernel true (λ _, true) in
  let p := mk_params 1 1 1 false false false true true in
  ∃ s s',
    init_register K (initial_state p) = Ok tt s ∧
    call_traced addr_tracee_relevant s = Ok tt s' ∧
    module_state s' ≠ module_state s.
Proof.
  eexists _, _. split; [vm_compute; reflexivity|].
  split; [vm_compute; reflexivity|]. vm_compute. discriminate.
Qed.

(** ** Return value and teardown *)

(** C8, as the code has it. When [nr_function_calls] is not zero the
    benchmark completes: the init function returns 0 exactly when [persist]
    is set, and then every ops of both arrays is still registered; with
    [persist] unset it has unregistered every ops and freed both arrays when
    it returns [-EINVAL], a negative value. When [nr_function_calls] is zero
    the init function stops at the division and returns nothing, whatever
    [persist] says, with every ops of both arrays still registered and both
    arrays allocated. *)
Theorem init_return_value K p :
  kernel_wf K → params_wf p →
  let r := ftrace_ops_sample_init K (initial_state p) in
  let prel := init_ptr_relevant K p in
  let pirr := init_ptr_irrelevant K p in
  let left_registered (s : state) :=
    ftrace_ops_list (kern s) =
      refs_of prel (nr_ops_relevant p) ++ refs_of pirr (nr_ops_irrelevant p) ∧
    (∀ b, is_block prel = true → prel = Block b →
          ∃ blk, heap (kern s) !! b = Some (Some blk) ∧
                 length blk = Z.to_nat (nr_ops_relevant p)) ∧
    (∀ b, is_block pirr = true → pirr = Block b →
          ∃ blk, heap (kern s) !! b = Some (Some blk) ∧
                 length blk = Z.to_nat (nr_ops_irrelevant p)) in
  (nr_function_calls p ≠ 0 →
     (persist p = true → ∃ s, r = Ok 0 s ∧ left_registered s) ∧
     (persist p = false →
        ∃ s, r = Ok (- EINVAL K) s ∧ - EINVAL K < 0 ∧
             ftrace_ops_list (kern s) = [] ∧
             Forall (λ blk, blk = None) (heap (kern s))) ∧
     ((∃ s, r = Ok 0 s) ↔ persist p = true)) ∧
  (nr_function_calls p = 0 →
     ∃ s, r = Fault DivideError s ∧ left_registered s ∧
          ∀ op, EvUnregister op ∉ klog (kern s)).
Proof.
  intros HK Hp r prel pirr left_registered.
  destruct (init_spec K p HK Hp)
    as (s_chk & evs_rel & evs_irr & evs_chk & _ & _ & _ & _ & _ & Hlay & Hlog &
        Hevs_rel & Hevs_irr & Hevs_chk & Hzero & Hpersist & Hteardown).
  fold r prel pirr in Hlay, Hzero, Hpersist, Hteardown, Hevs_rel, Hevs_irr.
  pose proof (wf_einval K HK) as Heinval.
  assert (Hleft : ∀ s, heap (kern s) = heap (kern s_chk) →
                       ftrace_ops_list (kern s) = ftrace_ops_list (kern s_chk) →
                       left_registered s).
  { intros s Hh Hl. destruct Hlay as [Hrel Hirr Hlist _ _ _].
    subst left_registered. simpl. rewrite Hh, Hl. split_and!; [done| |].
    - intros b _ Hb. rewrite Hb in Hrel. destruct Hrel as (blk & ? & ? & _). by exists blk.
    - intros b _ Hb. rewrite Hb in Hirr. destruct Hirr as (blk & ? & ? & _). by exists blk. }
  split.
  - intros Hnz. split_and!.
    + intros Hpe. rewrite (Hpersist Hnz Hpe). eexists. split; [done|].
      by apply Hleft.
    + intros Hpe.
      destruct (Hteardown Hnz Hpe) as (s_end & evs_td & -> & Hl & Hh & _).
      exists s_end. split_and!; [done|lia|done|done].
    + split.
      * intros [s Hs]. destruct (persist p) eqn:Hpe; [done|].
        destruct (Hteardown Hnz eq_refl) as (s_end & evs_td & Hr & _).
        rewrite Hr in Hs. injection Hs as Hs _. lia.
      * intros Hpe. rewrite (Hpersist Hnz Hpe). by eexists.
  - intros Hz. rewrite (Hzero Hz). exists s_chk. split; [done|].
    split; [by apply Hleft|].
    intros op Hin.
    assert (Hall : Forall (λ e, e ≠ EvUnregister op) (klog (kern s_chk))).
    { rewrite Hlog.
      apply Forall_app_2; [|apply Forall_app_2; [|apply Forall_app_2;
        [|apply Forall_app_2; [|apply Forall_app_2; [|apply Forall_app_2]]]]].
      - unfold init_banner. destruct (negb _ && _); by repeat constructor.
      - by eapply registration_events_Forall; [exact Hevs_rel|..].
      - by eapply registration_events_Forall; [exact Hevs_irr|..].
      - by repeat constructor.
      - apply Forall_repeat. done.
      - by repeat constructor.
      - eapply Forall_impl; [exact Hevs_chk|]. by intros ? (? & ? & ->). }
    by apply (proj1 (Forall_forall _ _) Hall _ Hin).
Qed.

(** C9. With [check_count] set and [nr >= 1], [ops_check] on an array whose
    first element is [e] prints nothing when [count e] is the expected count
    and prints the same warning [nr] times otherwise, whatever the other
    elements of the array hold. *)
Theorem ops_check_reads_first_element_only s b l e nr expected :
  check_count (params s) = true →
  heap (kern s) !! b = Some (Some l) →
  l !! 0%nat = Some e →
  1 ≤ nr < 2 ^ 31 →
  ops_check (Block b) nr expected s =
    Ok tt (if count e =? expected then s
           else append_log
                  (repeat (EvPrWarnCount (count e) expected) (Z.to_nat nr)) s).
Proof.
  intros Hcc Hb He Hnr.
  rewrite (ops_check_block s b l e nr expected Hcc Hb He).
  by rewrite to_uint_small by lia.
Qed.

Lemma kcalloc_null K n size s s1 :
  kcalloc K n size s = Ok NULL s1 →
  heap (kern s1) = heap (kern s) ∧
  ftrace_ops_list (kern s1) = ftrace_ops_list (kern s) ∧
  klog (kern s1) = klog (kern s).
Proof.
  unfold kcalloc.
  destruct (2 ^ 64 <=? n * size); [by intros [= <-]|].
  destruct (n * size =? 0); [done|].
  destruct (kcalloc_ok K _); [done|]. by intros [= <-].
Qed.

(** C10. When the allocation in [ops_alloc_init] fails, the function
    returns [NULL] and has neither set a filter nor registered an ops;
    [ops_destroy] of [NULL] does nothing. Whatever the allocator answered to
    the two requests, the teardown at the end of a completed init function
    without [persist], and the exit function after one with [persist], run
    to their end without a fault and without a warning, and leave no ops
    registered and no block allocated. *)
Theorem teardown_is_safe K p :
  kernel_wf K → params_wf p → nr_function_calls p ≠ 0 →
  let r := ftrace_ops_sample_init K (initial_state p) in
  (∀ tracee fn fl nr s s1,
     kcalloc K (to_size_t nr) (sizeof_sample_ops K) s = Ok NULL s1 →
     ∃ s' evs,
       ops_alloc_init K tracee fn fl nr s = Ok NULL s' ∧
       ftrace_ops_list (kern s') = ftrace_ops_list (kern s) ∧
       heap (kern s') = heap (kern s) ∧
       klog (kern s') = klog (kern s) ++ evs ∧
       Forall is_alloc_warning evs) ∧
  (∀ nr s, ops_destroy K NULL nr s = Ok tt s) ∧
  (persist p = false →
     ∃ s, r = Ok (- EINVAL K) s ∧
          ftrace_ops_list (kern s) = [] ∧
          Forall (λ blk, blk = None) (heap (kern s)) ∧
          Forall is_init_event (klog (kern s))) ∧
  (persist p = true →
     ∃ s s' evs,
       r = Ok 0 s ∧
       ftrace_ops_sample_exit K s = Ok tt s' ∧
       ftrace_ops_list (kern s') = [] ∧
       Forall (λ blk, blk = None) (heap (kern s')) ∧
       klog (kern s') = klog (kern s) ++ evs ∧
       Forall is_teardown_event evs).
Proof.
  intros HK Hp Hnz r.
  split_and!.
  - intros tracee fn fl nr s s1 E1. unfold ops_alloc_init.
    rewrite (bind_ok _ _ _ _ _ E1). simpl.
    destruct (kcalloc_null _ _ _ _ _ E1) as (Hh1 & Hl1 & Hlog1).
    destruct (WARN_ON_ONCE_true WARN_ALLOC s1)
      as (s' & evs & E & Hlog & Hevs & Hh & Hl & _).
    rewrite (bind_ok _ _ _ _ _ E).
    exists s', evs. split_and!; try done; congruence.
  - done.
  - intros Hpe.
    pose proof (init_log_events K p HK Hp) as Hevents. fold r in Hevents.
    destruct (init_spec K p HK Hp)
      as (s_chk & evs_rel & evs_irr & evs_chk & _ & _ & _ & _ & _ & _ & _ &
          _ & _ & _ & _ & _ & Hteardown).
    fold r in Hteardown.
    destruct (Hteardown Hnz Hpe) as (s_end & evs_td & Hr & Hl & Hh & _).
    rewrite Hr in Hevents |- *. by exists s_end.
  - intros Hpe.
    destruct (init_spec K p HK Hp)
      as (s_chk & evs_rel & evs_irr & evs_chk & Hpar & Hor & Hoi & _ & _ & Hlay & _ &
          _ & _ & _ & _ & Hpersist & _).
    fold r in Hpersist. rewrite (Hpersist Hnz Hpe).
    set (s := append_log _ s_chk).
    destruct Hp as [_ Hnrel Hnirr].
    destruct (teardown_spec K _ _ _ _ _ _ _ s Hnrel Hnirr
                (layout_same_heap _ _ _ _ _ _ _ (kern s_chk) (kern s) eq_refl eq_refl Hlay))
      as (s' & evs & E & Hl & Hh & Hlog & Hevs & _).
    exists s, s', evs. split; [done|]. split; [|done].
    unfold ftrace_ops_sample_exit.
    rewrite (bind_ok _ _ s s s) by reflexivity.
    subst s. simpl. rewrite Hpar, Hor, Hoi. exact E.
Qed.

(** * The arrays and the log in full *)

(** ** Counting tracers *)

(** The dispatch over the ops of an array of counting tracers attached to
    [ip]: the elements from [i] on count the call, one after the other. *)
Lemma ftrace_ops_list_func_counting fl ip c b m :
  ∀ i s,
    heap (kern s) !! b =
      Some (Some (replicate i (counted_ops fn_ops_func_count fl ip (to_uint (c + 1))) ++
                  replicate m (counted_ops fn_ops_func_count fl ip c))) →
    ∃ s',
      (∀ rest, ftrace_ops_list_func (refs_from (Block b) i m ++ rest) ip s =
               ftrace_ops_list_func rest ip s') ∧
      heap (kern s') =
        <[b := Some (replicate (i + m)
                       (counted_ops fn_ops_func_count fl ip (to_uint (c + 1))))]>
          (heap (kern s)) ∧
      same_but_heap s s'.
Proof.
  induction m as [|m IH]; intros i s Hb.
  - exists s. split_and!; [done| |apply same_but_heap_refl].
    rewrite app_nil_r in Hb. rewrite Nat.add_0_r. by rewrite list_insert_id.
  - assert (He : (replicate i (counted_ops fn_ops_func_count fl ip (to_uint (c + 1))) ++
                  replicate (S m) (counted_ops fn_ops_func_count fl ip c))
                   !! Z.to_nat (Z.of_nat i) =
                 Some (counted_ops fn_ops_func_count fl ip c)).
    { rewrite Nat2Z.id, lookup_app_r by (rewrite length_replicate; lia).
      by rewrite length_replicate, Nat.sub_diag. }
    pose proof (ops_func_count_ok ip 0 tt _ _ _ _ _ Hb He) as Ecount.
    set (s1 := with_kern _ s) in Ecount.
    destruct (IH (S i) s1) as (s' & Hrun & Hh & Hsame).
    { subst s1. simpl. rewrite list_lookup_insert_eq by (by eapply lookup_lt_Some).
      rewrite Nat2Z.id.
      exact (f_equal (λ x, Some (Some x))
               (insert_replicate_boundary
                  (counted_ops fn_ops_func_count fl ip (to_uint (c + 1)))
                  (counted_ops fn_ops_func_count fl ip c) i m)). }
    exists s'. split_and!.
    + intros rest. rewrite refs_from_cons. simpl.
      rewrite (bind_ok _ _ _ _ _ (load_ok _ _ _ _ _ Hb He)). simpl.
      rewrite bool_decide_eq_true_2 by constructor.
      rewrite (bind_ok _ _ _ _ _ Ecount). apply Hrun.
    + rewrite Hh. subst s1. simpl. rewrite list_insert_insert_eq.
      by replace (i + S m)%nat with (S i + m)%nat by lia.
    + eapply same_but_heap_trans; [|exact Hsame].
      subst s1. split; [apply same_module_with_kern|done].
Qed.

(** The ops of the irrelevant array are skipped at a call of
    [tracee_relevant]. *)
Lemma ftrace_ops_list_func_skips_irrelevant pirr nirr fn fl s :
  (∀ b, pirr = Block b →
        heap (kern s) !! b =
          Some (Some (replicate (Z.to_nat nirr)
                        (counted_ops fn fl addr_tracee_irrelevant 0)))) →
  ftrace_ops_list_func (refs_of pirr nirr) addr_tracee_relevant s = Ok tt s.
Proof.
  intros Hirr. apply ftrace_ops_list_func_nop. intros op Hin.
  apply elem_of_refs_of in Hin as (b & Hb & Hbase & Hidx).
  exists b, (replicate (Z.to_nat nirr) (counted_ops fn fl addr_tracee_irrelevant 0)),
         (counted_ops fn fl addr_tracee_irrelevant 0).
  split_and!; [congruence|by apply Hirr| |done].
  apply lookup_replicate_2. lia.
Qed.

Lemma layout_nop_attached prel pirr nrel nirr fnirr fl k s :
  kern s = k →
  layout prel pirr nrel nirr fn_ops_func_nop fnirr fl k →
  nop_attached addr_tracee_relevant s.
Proof.
  intros <- [Hrel Hirr Hlist _ _ _] op Hin. rewrite Hlist in Hin.
  apply elem_of_app in Hin as [Hin|Hin];
    apply elem_of_refs_of in Hin as (b & Hb & Hbase & Hidx).
  - rewrite Hb in Hrel. destruct Hrel as (blk & Hblk & Hlen & Hops).
    destruct (lookup_lt_is_Some_2 blk (Z.to_nat op.2)) as [e He]; [lia|].
    exists b, blk, e. split_and!; [congruence|done|done|].
    intros _. by rewrite (proj1 (Forall_lookup _ _) Hops _ _ He).
  - rewrite Hb in Hirr. destruct Hirr as (blk & Hblk & Hlen & Hops).
    destruct (lookup_lt_is_Some_2 blk (Z.to_nat op.2)) as [e He]; [lia|].
    exists b, blk, e. split_and!; [congruence|done|done|].
    by rewrite (proj1 (Forall_lookup _ _) Hops _ _ He).
Qed.

(** One call of [tracee_relevant]: every relevant ops with the callback
    [ops_func_count] counts it, nothing else in the arrays changes. *)
Lemma call_traced_counted prel pirr nrel nirr fn fl c s :
  layout prel pirr nrel nirr fn fn fl (kern s) →
  counted prel pirr nrel nirr fn fl c (kern s) →
  ∃ s', call_traced addr_tracee_relevant s = Ok tt s' ∧
        layout prel pirr nrel nirr fn fn fl (kern s') ∧
        counted prel pirr nrel nirr fn fl
          (match fn with fn_ops_func_count => to_uint (c + 1) | fn_ops_func_nop => c end)
          (kern s') ∧
        same_module s s' ∧
        nr_clock_reads (kern s') = nr_clock_reads (kern s) ∧
        klog (kern s') = klog (kern s) ++ [EvCall addr_tracee_relevant].
Proof.
  intros Hlay [Hcrel Hcirr].
  destruct (call_traced_layout _ _ _ _ _ _ _ _ Hlay)
    as (s' & E & Hlay' & Hmod & _ & Hclk & Hlog).
  exists s'. split_and!; try done.
  destruct fn.
  - rewrite (call_traced_nop s (layout_nop_attached _ _ _ _ _ _ _ s eq_refl Hlay)) in E.
    injection E as <-. by constructor.
  - unfold call_traced in E.
    rewrite (bind_ok _ _ _ _ _ (log_append _ _)) in E.
    set (s1 := append_log _ s) in E.
    rewrite (bind_ok _ _ s1 (ftrace_ops_list (kern s1)) s1) in E by reflexivity.
    change (ftrace_ops_list (kern s1)) with (ftrace_ops_list (kern s)) in E.
    rewrite (lay_list _ _ _ _ _ _ _ _ Hlay) in E.
    destruct prel as [| |b].
    + simpl in E.
      rewrite (bind_ok _ _ s1 tt s1) in E
        by (by apply (ftrace_ops_list_func_skips_irrelevant _ _ fn_ops_func_count fl)).
      injection E as <-. by constructor.
    + simpl in E.
      rewrite (bind_ok _ _ s1 tt s1) in E
        by (by apply (ftrace_ops_list_func_skips_irrelevant _ _ fn_ops_func_count fl)).
      injection E as <-. by constructor.
    + destruct (ftrace_ops_list_func_counting fl addr_tracee_relevant c b
                  (Z.to_nat nrel) 0%nat s1 (Hcrel b eq_refl))
        as (s2 & Hrun & Hh2 & Hsame2).
      change (refs_of (Block b) nrel)
        with (refs_from (Block b) 0 (Z.to_nat nrel)) in E.
      unfold bind at 1 in E. rewrite Hrun in E.
      assert (Hne : ∀ b', pirr = Block b' → b ≠ b').
      { intros b' -> ->. by apply (lay_distinct _ _ _ _ _ _ _ _ Hlay). }
      assert (Hirr2 : ∀ b', pirr = Block b' →
                heap (kern s2) !! b' =
                  Some (Some (replicate (Z.to_nat nirr)
                     (counted_ops fn_ops_func_count fl addr_tracee_irrelevant 0)))).
      { intros b' Hb'. rewrite Hh2, list_lookup_insert_ne by (by apply Hne).
        by apply Hcirr. }
      rewrite (ftrace_ops_list_func_skips_irrelevant _ _ fn_ops_func_count fl _ Hirr2) in E.
      injection E as <-. constructor; [|done].
      intros b' [= <-]. rewrite Hh2. simpl.
      apply list_lookup_insert_eq. eapply lookup_lt_Some. exact (Hcrel b eq_refl).
Qed.

Lemma timing_loop_counted prel pirr nrel nirr fn fl n s :
  0 ≤ n < 2 ^ 32 →
  layout prel pirr nrel nirr fn fn fl (kern s) →
  counted prel pirr nrel nirr fn fl 0 (kern s) →
  ∃ s', timing_loop n s = Ok tt s' ∧
        layout prel pirr nrel nirr fn fn fl (kern s') ∧
        counted prel pirr nrel nirr fn fl (count_after fn n) (kern s') ∧
        same_module s s' ∧
        nr_clock_reads (kern s') = nr_clock_reads (kern s) ∧
        klog (kern s') =
          klog (kern s) ++ repeat (EvCall addr_tracee_relevant) (Z.to_nat n).
Proof.
  intros Hn Hlay Hcnt. unfold timing_loop.
  apply (for_u32_inv (λ i s',
    layout prel pirr nrel nirr fn fn fl (kern s') ∧
    counted prel pirr nrel nirr fn fl (count_after fn i) (kern s') ∧
    same_module s s' ∧
    nr_clock_reads (kern s') = nr_clock_reads (kern s) ∧
    klog (kern s') =
      klog (kern s) ++ repeat (EvCall addr_tracee_relevant) (Z.to_nat i))).
  - done.
  - intros i s0 Hi (Hlay0 & Hcnt0 & Hmod0 & Hclk0 & Hlog0).
    destruct (call_traced_counted _ _ _ _ _ _ _ _ Hlay0 Hcnt0)
      as (s' & E & Hlay' & Hcnt' & Hmod' & Hclk' & Hlog').
    exists s'. split; [done|].
    split_and!; [done| |by eapply same_module_trans|congruence|].
    + destruct fn; simpl in *; [done|]. by rewrite to_uint_small in Hcnt' by lia.
    + rewrite Hlog', Hlog0, <- app_assoc, repeat_snoc. do 2 f_equal. lia.
  - simpl. rewrite app_nil_r. split_and!; try done; try apply same_module_refl.
    by destruct fn.
Qed.

(** ** Teardown, event by event *)

Lemma destroy_loop_events_snoc p n :
  destroy_loop_events p (S n) =
    destroy_loop_events p n ++
      [EvUnregister (p, Z.of_nat n); EvFreeFilter (p, Z.of_nat n)].
Proof. unfold destroy_loop_events. by rewrite seq_S, flat_map_app. Qed.

Lemma destroy_events_Forall (P : event → Prop) q m :
  (∀ op, P (EvUnregister op)) → (∀ op, P (EvFreeFilter op)) →
  (∀ q', P (EvKfree q')) →
  Forall P (destroy_events q m).
Proof.
  intros H1 H2 H3. destruct q; simpl.
  - constructor.
  - by repeat constructor.
  - apply Forall_app_2; [|by repeat constructor].
    unfold destroy_loop_events.
    induction (seq 0 (Z.to_nat m)) as [|j l IH]; simpl; by repeat constructor.
Qed.

Lemma ops_destroy_body_allocs K b i blk e s :
  heap (kern s) !! b = Some (Some blk) →
  blk !! Z.to_nat i = Some e →
  (Block b, i) ∈ ftrace_ops_list (kern s) →
  ∃ s',
    (r ← unregister_ftrace_function K (Block b, i);
     _ ← WARN_ON_ONCE WARN_UNREGISTER (negb (r =? 0));
     ftrace_free_filter (Block b, i)) s = Ok tt s' ∧
    nr_allocs (kern s') = nr_allocs (kern s).
Proof.
  intros Hb He Hin.
  assert (Hlen : (Z.to_nat i < length blk)%nat) by (by eapply lookup_lt_Some).
  destruct s as [pa pr pi tr ti [h l na nc w lg]]; simpl in *.
  mrun. eexists. split; reflexivity.
Qed.

Lemma ops_destroy_block_events K b n blk pre rest s :
  0 ≤ n < 2 ^ 32 →
  heap (kern s) !! b = Some (Some blk) →
  length blk = Z.to_nat n →
  ftrace_ops_list (kern s) = pre ++ refs_from (Block b) 0 (Z.to_nat n) ++ rest →
  (∀ op, op ∈ pre ++ rest → op.1 ≠ Block b) →
  ∃ s',
    ops_destroy K (Block b) (to_int n) s = Ok tt s' ∧
    heap (kern s') = <[b := None]> (heap (kern s)) ∧
    ftrace_ops_list (kern s') = pre ++ rest ∧
    klog (kern s') = klog (kern s) ++ destroy_events (Block b) n ∧
    nr_allocs (kern s') = nr_allocs (kern s) ∧
    nr_clock_reads (kern s') = nr_clock_reads (kern s) ∧
    warned (kern s') = warned (kern s) ∧
    same_module s s'.
Proof.
  intros Hn Hb Hlen Hl Hrest. unfold ops_destroy. simpl.
  rewrite to_uint_to_int by lia.
  assert (Hbl : (b < length (heap (kern s)))%nat) by (by eapply lookup_lt_Some).
  destruct (for_u32_inv
    (λ i s1, ∃ blk1,
       heap (kern s1) = <[b := Some blk1]> (heap (kern s)) ∧
       length blk1 = Z.to_nat n ∧
       ftrace_ops_list (kern s1) =
         pre ++ refs_from (Block b) (Z.to_nat i) (Z.to_nat (n - i)) ++ rest ∧
       klog (kern s1) =
         klog (kern s) ++ destroy_loop_events (Block b) (Z.to_nat i) ∧
       nr_allocs (kern s1) = nr_allocs (kern s) ∧
       nr_clock_reads (kern s1) = nr_clock_reads (kern s) ∧
       warned (kern s1) = warned (kern s) ∧
       same_module s s1)
    (λ i,
      r ← unregister_ftrace_function K (Block b, i);
      _ ← WARN_ON_ONCE WARN_UNREGISTER (negb (r =? 0));
      ftrace_free_filter (Block b, i)) n s)
    as (s1 & E1 & blk1 & Hh1 & Hlen1 & Hl1 & Hlog1 & Hna1 & Hclk1 & Hw1 & Hmod1).
  - lia.
  - intros i s0 Hi (blk0 & Hh0 & Hlen0 & Hl0 & Hlog0 & Hna0 & Hclk0 & Hw0 & Hmod0).
    destruct (lookup_lt_is_Some_2 blk0 (Z.to_nat i)) as [e He]; [lia|].
    replace (Z.to_nat (n - i)) with (S (Z.to_nat (n - (i + 1)))) in Hl0 by lia.
    rewrite refs_from_cons, Z2Nat.id in Hl0 by lia.
    assert (Hb0 : heap (kern s0) !! b = Some (Some blk0))
      by (rewrite Hh0; by apply list_lookup_insert_eq).
    assert (Hin0 : (Block b, i) ∈ ftrace_ops_list (kern s0))
      by (rewrite Hl0; apply elem_of_app; right; constructor).
    destruct (ops_destroy_body K b i blk0 e s0 Hb0 He Hin0)
      as (s2 & E2 & Hh2 & Hl2 & Hlog2 & Hclk2 & Hw2 & Hmod2).
    destruct (ops_destroy_body_allocs K b i blk0 e s0 Hb0 He Hin0)
      as (s2' & E2' & Hna2).
    rewrite E2 in E2'. injection E2' as <-.
    exists s2. split; [exact E2|].
    exists (<[Z.to_nat i := set_filter_hash [] e]> blk0).
    rewrite Hh2, Hl2, Hlog2, Hna2, Hclk2, Hw2, Hh0, Hl0, Hlog0.
    split_and!; try done.
    + by rewrite list_insert_insert_eq.
    + by rewrite length_insert.
    + rewrite filter_app, <- app_comm_cons, filter_cons_False
        by (intros H; by apply H).
      replace (Z.to_nat (i + 1)) with (S (Z.to_nat i)) by lia.
      f_equal.
      * apply filter_id_Forall, Forall_forall. intros op Hin ->.
        apply (Hrest (Block b, i)); [|done]. apply elem_of_app. by left.
      * apply filter_id_Forall, Forall_forall. intros op Hin.
        apply elem_of_app in Hin as [Hin|Hin].
        -- apply elem_of_refs_from in Hin. intros ->. simpl in Hin. lia.
        -- intros ->. apply (Hrest (Block b, i)); [|done]. apply elem_of_app. by right.
    + replace (Z.to_nat (i + 1)) with (S (Z.to_nat i)) by lia.
      rewrite destroy_loop_events_snoc, <- app_assoc, Z2Nat.id by lia. done.
    + by eapply same_module_trans.
  - exists blk. rewrite Z.sub_0_r. simpl. rewrite app_nil_r.
    split_and!; try done; first [by rewrite list_insert_id|apply same_module_refl].
  - rewrite (bind_ok _ _ _ _ _ E1).
    rewrite Z.sub_diag in Hl1. simpl in Hl1.
    destruct s1 as [pa pr pi tr ti [h1 l1 na nc w lg]]; simpl in *. subst h1.
    unfold kfree. mrun.
    eexists. split; [reflexivity|]. simpl.
    rewrite list_insert_insert_eq, Hlog1, <- app_assoc.
    by split_and!.
Qed.

(** ** The run, state by state *)

Lemma ops_alloc_init_spec_heap K tracee fn fl n s :
  kernel_wf K → 0 ≤ n < 2 ^ 32 → fresh_block s →
  let p := alloc_result K n s in
  ∃ s' evs,
    ops_alloc_init K tracee fn fl (to_int n) s = Ok p s' ∧
    heap (kern s') = heap (kern s) ++
      (if is_block p
       then [Some (replicate (Z.to_nat n) (counted_ops fn fl tracee 0))] else []) ∧
    klog (kern s') = klog (kern s) ++ evs ∧
    match p with
    | Block _ => evs = alloc_events p tracee fn fl (Z.to_nat n)
    | ZERO_SIZE_PTR => evs = []
    | NULL => Forall is_alloc_warning evs
    end ∧
    nr_allocs (kern s') =
      (nr_allocs (kern s) + if reaches_allocator n then 1 else 0)%nat.
Proof.
  intros HK Hn Hfresh p.
  destruct (ops_alloc_init_spec K tracee fn fl n s HK Hn Hfresh)
    as (s' & evs & E & Hh & _ & Hlog & Hevs & Hna & _).
  subst p.
  exists s', evs. split_and!; try done.
  destruct (alloc_result K n s) as [| |b] eqn:Hp; simpl in *; try done.
  assert (n = 0) as ->.
  { pose proof (alloc_result_at_cases K n (nr_allocs (kern s))
                  (length (heap (kern s))) (proj1 Hn)) as Hc.
    unfold alloc_result in Hp. by rewrite Hp in Hc. }
  rewrite ops_alloc_init_zero in E. injection E as <-.
  apply (app_inv_head (klog (kern s))). by rewrite app_nil_r.
Qed.

(** The state the registration part ends in, with the contents of the
    arrays and the number of requests the allocator has seen. *)
Lemma init_register_exact K p :
  kernel_wf K → params_wf p →
  let prel := init_ptr_relevant K p in
  let pirr := init_ptr_irrelevant K p in
  let fn := init_tracer p in
  let fl := init_flags K p in
  ∃ s evs_rel evs_irr,
    init_register K (initial_state p) = Ok tt s ∧
    layout prel pirr (nr_ops_relevant p) (nr_ops_irrelevant p) fn fn fl (kern s) ∧
    counted prel pirr (nr_ops_relevant p) (nr_ops_irrelevant p) fn fl 0 (kern s) ∧
    params s = set_save_regs (init_save_regs K p) p ∧
    ops_relevant s = prel ∧ ops_irrelevant s = pirr ∧
    tracer_relevant s = fn ∧ tracer_irrelevant s = fn ∧
    klog (kern s) = init_banner K p ++ evs_rel ++ evs_irr ∧
    match prel with
    | Block _ => evs_rel = alloc_events prel addr_tracee_relevant fn fl
                             (Z.to_nat (nr_ops_relevant p))
    | ZERO_SIZE_PTR => evs_rel = []
    | NULL => Forall is_alloc_warning evs_rel
    end ∧
    match pirr with
    | Block _ => evs_irr = alloc_events pirr addr_tracee_irrelevant fn fl
                             (Z.to_nat (nr_ops_irrelevant p))
    | ZERO_SIZE_PTR => evs_irr = []
    | NULL => Forall is_alloc_warning evs_irr
    end ∧
    nr_clock_reads (kern s) = 0%nat ∧
    nr_allocs (kern s) =
      ((if reaches_allocator (nr_ops_relevant p) then 1 else 0) +
       (if reaches_allocator (nr_ops_irrelevant p) then 1 else 0))%nat.
Proof.
  intros HK Hp prel pirr fn fl.
  destruct (init_register_spec K p HK Hp)
    as (s & _ & _ & E & Hpar & Hor & Hoi & Htr & Hti & Hlay & _ & _ & _ & Hclk).
  fold prel pirr fn fl in Hor, Hoi, Htr, Hti, Hlay.
  destruct Hp as [Hnfc Hnrel Hnirr].
  pose proof E as E'. rewrite init_register_unfold in E'.
  set (s0 := state_before_alloc K p) in E'.
  destruct (ops_alloc_init_spec_heap K addr_tracee_relevant fn fl (nr_ops_relevant p) s0 HK Hnrel)
    as (s1 & evs_rel & E1 & Hh1 & Hlog1 & Hevs1 & Hna1).
  { intros op Hin. by apply elem_of_nil in Hin. }
  change (alloc_result K (nr_ops_relevant p) s0) with prel in *.
  rewrite (bind_ok _ _ _ _ _ E1) in E'.
  rewrite (bind_ok _ _ _ tt (set_ops_relevant prel s1)) in E' by reflexivity.
  set (s1' := set_ops_relevant prel s1) in E'.
  pose proof (alloc_result_at_cases K (nr_ops_relevant p) 0 0 (proj1 Hnrel)) as Hcrel.
  change (alloc_result_at K (nr_ops_relevant p) 0 0) with prel in Hcrel.
  assert (Hpirr : alloc_result K (nr_ops_irrelevant p) s1' = pirr).
  { unfold alloc_result, pirr, init_ptr_irrelevant. subst s1'. simpl.
    rewrite Hna1, Hh1. simpl. fold prel. by destruct (is_block prel). }
  assert (Hfresh : fresh_block s1').
  { intros op Hin.
    destruct (ops_alloc_init_spec K addr_tracee_relevant fn fl (nr_ops_relevant p) s0 HK Hnrel)
      as (s1b & _ & E1b & _ & Hl1 & _).
    { intros op' Hin'. by apply elem_of_nil in Hin'. }
    change (alloc_result K (nr_ops_relevant p) s0) with prel in *.
    rewrite E1 in E1b. injection E1b as <-.
    subst s1'. simpl in *. rewrite Hl1 in Hin. rewrite Hh1. simpl in *.
    apply elem_of_refs_of in Hin as (b & Hb & Hbase & _).
    rewrite Hbase, Hb. rewrite Hb in Hcrel. destruct Hcrel as [-> _].
    simpl. intros [=]. }
  destruct (ops_alloc_init_spec_heap K addr_tracee_irrelevant fn fl (nr_ops_irrelevant p) s1' HK Hnirr Hfresh)
    as (s2 & evs_irr & E2 & Hh2 & Hlog2 & Hevs2 & Hna2).
  rewrite Hpirr in *.
  rewrite (bind_ok _ _ _ _ _ E2) in E'.
  injection E' as <-.
  pose proof (alloc_result_at_cases K (nr_ops_irrelevant p)
    (if reaches_allocator (nr_ops_relevant p) then 1 else 0)
    (if is_block prel then 1 else 0) (proj1 Hnirr)) as Hcirr.
  change (alloc_result_at _ _ _ _) with pirr in Hcirr.
  exists (set_ops_irrelevant pirr s2), evs_rel, evs_irr.
  subst s1'. simpl in *. rewrite Hh1 in Hh2. simpl in Hh2.
  split_and!; try done.
  - subst fn fl. clearbody prel pirr. constructor; rewrite Hh2.
    + intros b ->. simpl in *. destruct Hcrel as [-> _]. done.
    + intros b ->. simpl in *. destruct Hcirr as [-> _].
      by destruct (is_block prel).
  - rewrite Hlog2, Hlog1. simpl. by rewrite <- app_assoc.
  - rewrite Hna2, Hna1. done.
Qed.

Lemma ops_destroy_events K p n o pre rest s :
  0 ≤ n < 2 ^ 32 →
  array_ok (heap (kern s)) p n o →
  ftrace_ops_list (kern s) = pre ++ refs_of p n ++ rest →
  (∀ op, op ∈ pre ++ rest → is_block p = true → op.1 ≠ p) →
  ∃ s',
    ops_destroy K p (to_int n) s = Ok tt s' ∧
    heap (kern s') =
      match p with Block b => <[b := None]> (heap (kern s)) | _ => heap (kern s) end ∧
    ftrace_ops_list (kern s') = pre ++ rest ∧
    klog (kern s') = klog (kern s) ++ destroy_events p n ∧
    same_module s s'.
Proof.
  intros Hn Harr Hl Hrest. destruct p as [| |b]; simpl in *.
  - exists s. rewrite app_nil_r.
    split_and!; try done; apply same_module_refl.
  - subst n. exists (append_log [EvKfree ZERO_SIZE_PTR] s).
    split_and!; try done; apply same_module_with_kern.
  - destruct Harr as (blk & Hb & Hlen & _).
    destruct (ops_destroy_block_events K b n blk pre rest s Hn Hb Hlen Hl)
      as (s' & E & Hh & Hl' & Hlog & _ & _ & _ & Hmod).
    { intros op Hin. by apply Hrest. }
    by exists s'.
Qed.

(** The teardown of both arrays, event by event. *)
Lemma teardown_events K prel pirr nrel nirr fnrel fnirr fl s :
  0 ≤ nrel < 2 ^ 32 → 0 ≤ nirr < 2 ^ 32 →
  layout prel pirr nrel nirr fnrel fnirr fl (kern s) →
  ∃ s',
    (ops_destroy K prel (to_int nrel);; ops_destroy K pirr (to_int nirr)) s =
      Ok tt s' ∧
    ftrace_ops_list (kern s') = [] ∧
    Forall (λ blk, blk = None) (heap (kern s')) ∧
    klog (kern s') =
      klog (kern s) ++ destroy_events prel nrel ++ destroy_events pirr nirr ∧
    same_module s s'.
Proof.
  intros Hnrel Hnirr Hlay.
  destruct (teardown_spec K _ _ _ _ _ _ _ s Hnrel Hnirr Hlay)
    as (s' & evs & E & Hl & Hh & _ & _ & _ & Hmod).
  exists s'. split_and!; try done.
  destruct Hlay as [Hrel Hirr Hlist Hdist Hzero Hown].
  destruct (ops_destroy_events K prel nrel _ [] (refs_of pirr nirr) s Hnrel Hrel Hlist)
    as (s1 & E1 & Hh1 & Hl1 & Hlog1 & _).
  { intros op Hin Hblk Heq. apply elem_of_refs_of in Hin as (b & Hb & Hbase & _).
    apply Hdist; [done|congruence]. }
  rewrite (bind_ok _ _ _ _ _ E1) in E.
  assert (Hirr1 : array_ok (heap (kern s1)) pirr nirr
            (mk_ftrace_ops (Some fnirr) fl [addr_tracee_irrelevant])).
  { destruct pirr as [| |b']; simpl in *; try done.
    destruct Hirr as (blk & Hb & Hlen & Hops). exists blk. split; [|done].
    rewrite Hh1. destruct prel as [| |b]; try done.
    rewrite list_lookup_insert_ne; [done|]. intros ->. by apply Hdist. }
  destruct (ops_destroy_events K pirr nirr _ [] [] s1 Hnirr Hirr1)
    as (s2 & E2 & _ & _ & Hlog2 & _).
  { by rewrite Hl1, app_nil_r. }
  { intros op Hin. by apply elem_of_nil in Hin. }
  rewrite E2 in E. injection E as <-.
  by rewrite Hlog2, Hlog1, <- app_assoc.
Qed.

(** The checks of a run print nothing: a relevant ops that counts has
    counted every call of the timing loop. *)
Lemma ops_check_counted_silent prel pirr nrel nirr fn fl n s :
  0 ≤ nrel < 2 ^ 32 →
  fn = (if check_count (params s) then fn_ops_func_count else fn_ops_func_nop) →
  layout prel pirr nrel nirr fn fn fl (kern s) →
  counted prel pirr nrel nirr fn fl (count_after fn n) (kern s) →
  ops_check prel (to_int nrel) n s = Ok tt s.
Proof.
  intros Hn Hfn Hlay [Hcrel _].
  destruct (check_count (params s)) eqn:Hcc.
  2:{ unfold ops_check. rewrite (bind_ok _ _ s false s) by (unfold gets; by rewrite Hcc).
      by rewrite orb_true_r. }
  pose proof (lay_rel _ _ _ _ _ _ _ _ Hlay) as Harr.
  destruct prel as [| |b]; simpl in Harr.
  - unfold ops_check. by rewrite (bind_ok _ _ s true s) by (unfold gets; by rewrite Hcc).
  - subst nrel. unfold ops_check.
    by rewrite (bind_ok _ _ s true s) by (unfold gets; by rewrite Hcc).
  - destruct (Z.eq_dec nrel 0) as [->|Hnz].
    + unfold ops_check. by rewrite (bind_ok _ _ s true s) by (unfold gets; by rewrite Hcc).
    + assert (He : replicate (Z.to_nat nrel)
                     (counted_ops fn fl addr_tracee_relevant (count_after fn n))
                     !! 0%nat =
                   Some (counted_ops fn fl addr_tracee_relevant (count_after fn n)))
        by (apply lookup_replicate_2; lia).
      rewrite (ops_check_block s b _ _ _ n Hcc (Hcrel b eq_refl) He).
      subst fn. simpl. by rewrite Z.eqb_refl.
Qed.

(** The init function from the loader's call to the division, with the
    contents of the arrays and every event of the log. *)
Lemma init_run_exact K p :
  kernel_wf K → params_wf p →
  let prel := init_ptr_relevant K p in
  let pirr := init_ptr_irrelevant K p in
  let fn := init_tracer p in
  let fl := init_flags K p in
  let n := nr_function_calls p in
  let r := ftrace_ops_sample_init K (initial_state p) in
  let report := EvPrInfoResult n (init_period K) (init_period K / n) in
  ∃ s_chk evs_rel evs_irr,
    layout prel pirr (nr_ops_relevant p) (nr_ops_irrelevant p) fn fn fl (kern s_chk) ∧
    counted prel pirr (nr_ops_relevant p) (nr_ops_irrelevant p) fn fl
      (count_after fn n) (kern s_chk) ∧
    params s_chk = set_save_regs (init_save_regs K p) p ∧
    ops_relevant s_chk = prel ∧ ops_irrelevant s_chk = pirr ∧
    tracer_relevant s_chk = fn ∧ tracer_irrelevant s_chk = fn ∧
    klog (kern s_chk) =
      init_banner K p ++ evs_rel ++ evs_irr ++
      [EvKtimeGet (ktime_at K 0)] ++
      repeat (EvCall addr_tracee_relevant) (Z.to_nat n) ++
      [EvKtimeGet (ktime_at K 1)] ∧
    match prel with
    | Block _ => evs_rel = alloc_events prel addr_tracee_relevant fn fl
                             (Z.to_nat (nr_ops_relevant p))
    | ZERO_SIZE_PTR => evs_rel = []
    | NULL => Forall is_alloc_warning evs_rel
    end ∧
    match pirr with
    | Block _ => evs_irr = alloc_events pirr addr_tracee_irrelevant fn fl
                             (Z.to_nat (nr_ops_irrelevant p))
    | ZERO_SIZE_PTR => evs_irr = []
    | NULL => Forall is_alloc_warning evs_irr
    end ∧
    (n = 0 → r = Fault DivideError s_chk) ∧
    (n ≠ 0 → persist p = true → r = Ok 0 (append_log [report] s_chk)) ∧
    (n ≠ 0 → persist p = false →
       ∃ s_end,
         r = Ok (- EINVAL K) s_end ∧
         ftrace_ops_list (kern s_end) = [] ∧
         Forall (λ blk, blk = None) (heap (kern s_end)) ∧
         klog (kern s_end) =
           klog (kern s_chk) ++ [report] ++
           destroy_events prel (nr_ops_relevant p) ++
           destroy_events pirr (nr_ops_irrelevant p) ∧
         same_module s_chk s_end).
Proof.
  intros HK Hp prel pirr fn fl n r report.
  destruct (init_register_exact K p HK Hp)
    as (s1 & evs_rel & evs_irr & E1 & Hlay1 & Hcnt1 & Hpar1 & Hor1 & Hoi1 &
        Htr1 & Hti1 & Hlog1 & Hevs_rel & Hevs_irr & Hclk1 & _).
  fold prel pirr fn fl in Hlay1, Hcnt1, Hor1, Hoi1, Htr1, Hti1, Hevs_rel, Hevs_irr.
  destruct Hp as [Hn Hnrel Hnirr]. fold n in Hn.
  subst r. unfold ftrace_ops_sample_init.
  rewrite (bind_ok _ _ _ _ _ E1).
  rewrite (bind_ok _ _ _ _ _ (ktime_get_ok K s1)). rewrite Hclk1.
  set (s2 := append_log _ _).
  rewrite (bind_ok _ _ s2 n s2) by (unfold gets; subst s2; simpl; by rewrite Hpar1).
  destruct (timing_loop_counted prel pirr (nr_ops_relevant p) (nr_ops_irrelevant p)
              fn fl n s2 Hn)
    as (s3 & E3 & Hlay3 & Hcnt3 & Hmod3 & Hclk3 & Hlog3).
  { eapply layout_same_heap; [| |exact Hlay1]; done. }
  { by destruct Hcnt1. }
  rewrite (bind_ok _ _ _ _ _ E3).
  rewrite (bind_ok _ _ _ _ _ (ktime_get_ok K s3)). rewrite Hclk3.
  change (nr_clock_reads (kern s2)) with 1%nat.
  set (s4 := append_log _ _).
  rewrite (bind_ok _ _ s4 s4 s4) by reflexivity.
  destruct Hmod3 as (Hpar3 & Hor3 & Hoi3 & Htr3 & Hti3).
  assert (Hpar4 : params s4 = set_save_regs (init_save_regs K p) p)
    by (subst s4 s2; simpl in *; congruence).
  assert (Hor4 : ops_relevant s4 = prel) by (subst s4 s2; simpl in *; congruence).
  assert (Hoi4 : ops_irrelevant s4 = pirr) by (subst s4 s2; simpl in *; congruence).
  assert (Hlay4 : layout prel pirr (nr_ops_relevant p) (nr_ops_irrelevant p)
                    fn fn fl (kern s4))
    by (eapply layout_same_heap; [| |exact Hlay3]; done).
  assert (Hcnt4 : counted prel pirr (nr_ops_relevant p) (nr_ops_irrelevant p)
                    fn fl (count_after fn n) (kern s4))
    by (by destruct Hcnt3).
  rewrite Hpar4, Hor4, Hoi4. simpl.
  rewrite (bind_ok _ _ s4 tt s4).
  2:{ eapply ops_check_counted_silent; [done| |exact Hlay4|exact Hcnt4].
      by rewrite Hpar4. }
  rewrite (bind_ok _ _ s4 tt s4) by (by eapply ops_check_zero_silent).
  exists s4, evs_rel, evs_irr. subst n.
  split_and!; try done.
  - subst s4 s2; simpl in *; congruence.
  - subst s4 s2; simpl in *; congruence.
  - subst s4. simpl. rewrite Hlog3. subst s2. simpl. rewrite Hlog1.
    by rewrite <- !app_assoc.
  - intros Hz. unfold div_u64. by rewrite Hz.
  - intros Hnz Hpe. unfold div_u64.
    rewrite (proj2 (Z.eqb_neq _ _) Hnz).
    rewrite (bind_ok _ _ s4 (init_period K / nr_function_calls p) s4) by reflexivity.
    rewrite (bind_ok _ _ _ _ _ (log_append _ _)). by rewrite Hpe.
  - intros Hnz Hpe. unfold div_u64.
    rewrite (proj2 (Z.eqb_neq _ _) Hnz).
    rewrite (bind_ok _ _ s4 (init_period K / nr_function_calls p) s4) by reflexivity.
    rewrite (bind_ok _ _ _ _ _ (log_append _ _)). rewrite Hpe.
    set (s5 := append_log _ s4).
    destruct (teardown_events K prel pirr (nr_ops_relevant p) (nr_ops_irrelevant p)
                fn fn fl s5 Hnrel Hnirr)
      as (s6 & E6 & Hl6 & Hh6 & Hlog6 & Hmod6).
    { eapply layout_same_heap; [| |exact Hlay4]; done. }
    exists s6. split_and!; try done.
    + unfold bind in E6 |- *.
      destruct (ops_destroy K prel _ s5) as [[] s5'|]; [|done].
      destruct (ops_destroy K pirr _ s5') as [[] s5''|]; [|done].
      by injection E6 as ->.
    + rewrite Hlog6. subst s5. simpl. by rewrite <- app_assoc.
Qed.

(** The init function up to the division, by way of the states it passes:
    [s_reg] after the registration and [s_end] after the second clock
    reading. Both checks leave [s_end] as it is. *)
Lemma init_run_chain K p :
  kernel_wf K → params_wf p →
  let prel := init_ptr_relevant K p in
  let pirr := init_ptr_irrelevant K p in
  let fn := init_tracer p in
  let fl := init_flags K p in
  let n := nr_function_calls p in
  let r := ftrace_ops_sample_init K (initial_state p) in
  let report := EvPrInfoResult n (init_period K) (init_period K / n) in
  ∃ s_reg s_end,
    init_register K (initial_state p) = Ok tt s_reg ∧
    (_ ← ktime_get K; (timing_loop n;; (_ ← ktime_get K; ret tt))) s_reg =
      Ok tt s_end ∧
    layout prel pirr (nr_ops_relevant p) (nr_ops_irrelevant p) fn fn fl (kern s_end) ∧
    counted prel pirr (nr_ops_relevant p) (nr_ops_irrelevant p) fn fl
      (count_after fn n) (kern s_end) ∧
    params s_end = set_save_regs (init_save_regs K p) p ∧
    ops_relevant s_end = prel ∧ ops_irrelevant s_end = pirr ∧
    (n = 0 → r = Fault DivideError s_end) ∧
    (n ≠ 0 → persist p = true → r = Ok 0 (append_log [report] s_end)) ∧
    (n ≠ 0 → persist p = false →
       ∃ s_fin,
         r = Ok (- EINVAL K) s_fin ∧
         klog (kern s_fin) =
           klog (kern s_end) ++ [report] ++
           destroy_events prel (nr_ops_relevant p) ++
           destroy_events pirr (nr_ops_irrelevant p)).
Proof.
  intros HK Hp prel pirr fn fl n r report.
  destruct (init_register_exact K p HK Hp)
    as (s1 & evs_rel & evs_irr & E1 & Hlay1 & Hcnt1 & Hpar1 & Hor1 & Hoi1 &
        Htr1 & Hti1 & Hlog1 & Hevs_rel & Hevs_irr & Hclk1 & _).
  fold prel pirr fn fl in Hlay1, Hcnt1, Hor1, Hoi1, Htr1, Hti1, Hevs_rel, Hevs_irr.
  destruct Hp as [Hn Hnrel Hnirr]. fold n in Hn.
  exists s1.
  subst r. unfold ftrace_ops_sample_init.
  rewrite (bind_ok _ _ _ _ _ E1).
  rewrite !(bind_ok _ _ _ _ _ (ktime_get_ok K s1)). rewrite Hclk1.
  set (s2 := append_log _ _).
  rewrite (bind_ok _ _ s2 n s2) by (unfold gets; subst s2; simpl; by rewrite Hpar1).
  destruct (timing_loop_counted prel pirr (nr_ops_relevant p) (nr_ops_irrelevant p)
              fn fl n s2 Hn)
    as (s3 & E3 & Hlay3 & Hcnt3 & Hmod3 & Hclk3 & Hlog3).
  { eapply layout_same_heap; [| |exact Hlay1]; done. }
  { by destruct Hcnt1. }
  rewrite !(bind_ok _ _ _ _ _ E3).
  rewrite !(bind_ok _ _ _ _ _ (ktime_get_ok K s3)). rewrite Hclk3.
  change (nr_clock_reads (kern s2)) with 1%nat.
  set (s4 := append_log _ _).
  rewrite (bind_ok _ _ s4 s4 s4) by reflexivity.
  destruct Hmod3 as (Hpar3 & Hor3 & Hoi3 & Htr3 & Hti3).
  assert (Hpar4 : params s4 = set_save_regs (init_save_regs K p) p)
    by (subst s4 s2; simpl in *; congruence).
  assert (Hor4 : ops_relevant s4 = prel) by (subst s4 s2; simpl in *; congruence).
  assert (Hoi4 : ops_irrelevant s4 = pirr) by (subst s4 s2; simpl in *; congruence).
  assert (Hlay4 : layout prel pirr (nr_ops_relevant p) (nr_ops_irrelevant p)
                    fn fn fl (kern s4))
    by (eapply layout_same_heap; [| |exact Hlay3]; done).
  assert (Hcnt4 : counted prel pirr (nr_ops_relevant p) (nr_ops_irrelevant p)
                    fn fl (count_after fn n) (kern s4))
    by (by destruct Hcnt3).
  rewrite Hpar4, Hor4, Hoi4. simpl.
  rewrite (bind_ok _ _ s4 tt s4).
  2:{ eapply ops_check_counted_silent; [done| |exact Hlay4|exact Hcnt4].
      by rewrite Hpar4. }
  rewrite (bind_ok _ _ s4 tt s4) by (by eapply ops_check_zero_silent).
  exists s4. subst n.
  split_and!; try done.
  - intros Hz. unfold div_u64. by rewrite Hz.
  - intros Hnz Hpe. unfold div_u64.
    rewrite (proj2 (Z.eqb_neq _ _) Hnz).
    rewrite (bind_ok _ _ s4 (init_period K / nr_function_calls p) s4) by reflexivity.
    rewrite (bind_ok _ _ _ _ _ (log_append _ _)). by rewrite Hpe.
  - intros Hnz Hpe. unfold div_u64.
    rewrite (proj2 (Z.eqb_neq _ _) Hnz).
    rewrite (bind_ok _ _ s4 (init_period K / nr_function_calls p) s4) by reflexivity.
    rewrite (bind_ok _ _ _ _ _ (log_append _ _)). rewrite Hpe.
    set (s5 := append_log _ s4).
    destruct (teardown_events K prel pirr (nr_ops_relevant p) (nr_ops_irrelevant p)
                fn fn fl s5 Hnrel Hnirr)
      as (s6 & E6 & Hl6 & Hh6 & Hlog6 & Hmod6).
    { eapply layout_same_heap; [| |exact Hlay4]; done. }
    exists s6. split.
    + unfold bind in E6 |- *.
      destruct (ops_destroy K prel _ s5) as [[] s5'|]; [|done].
      destruct (ops_destroy K pirr _ s5') as [[] s5''|]; [|done].
      by injection E6 as ->.
    + rewrite Hlog6. subst s5. simpl. by rewrite <- app_assoc.
Qed.

(** [ops_check] of an irrelevant array that has counted nothing, against
    any expected count: it warns once per element when the expected count is
    not zero, and is silent when it is zero, when [check_count] is unset and
    when the array has no element. *)
Lemma ops_check_irrelevant prel pirr nrel nirr fn fl c expected s :
  0 ≤ nirr < 2 ^ 32 →
  layout prel pirr nrel nirr fn fn fl (kern s) →
  counted prel pirr nrel nirr fn fl c (kern s) →
  ops_check pirr (to_int nirr) expected s =
    Ok tt (if check_count (params s) && is_block pirr && negb (expected =? 0)
           then append_log (repeat (EvPrWarnCount 0 expected) (Z.to_nat nirr)) s
           else s).
Proof.
  intros Hn Hlay [_ Hcirr].
  destruct (check_count (params s)) eqn:Hcc; simpl.
  2:{ unfold ops_check. rewrite (bind_ok _ _ s false s) by (unfold gets; by rewrite Hcc).
      by rewrite orb_true_r. }
  pose proof (lay_irr _ _ _ _ _ _ _ _ Hlay) as Harr.
  destruct pirr as [| |b]; simpl in *.
  - unfold ops_check. by rewrite (bind_ok _ _ s true s) by (unfold gets; by rewrite Hcc).
  - subst nirr. unfold ops_check.
    by rewrite (bind_ok _ _ s true s) by (unfold gets; by rewrite Hcc).
  - destruct (Z.eq_dec nirr 0) as [->|Hnz].
    + unfold ops_check.
      rewrite (bind_ok _ _ s true s) by (unfold gets; by rewrite Hcc).
      simpl. destruct (negb _); [by rewrite append_log_nil|done].
    + assert (He : replicate (Z.to_nat nirr) (counted_ops fn fl addr_tracee_irrelevant 0)
                     !! 0%nat =
                   Some (counted_ops fn fl addr_tracee_irrelevant 0))
        by (apply lookup_replicate_2; lia).
      rewrite (ops_check_block s b _ _ _ expected Hcc (Hcirr b eq_refl) He).
      change (count (counted_ops fn fl addr_tracee_irrelevant 0)) with 0.
      rewrite to_uint_to_int by done. rewrite (Z.eqb_sym 0 expected).
      by destruct (expected =? 0).
Qed.

(** ** The irrelevant array *)

(** C6. The ops of the irrelevant array are attached to [tracee_irrelevant]
    alone, the init function never calls [tracee_irrelevant], and after any
    number of iterations of the timing loop every irrelevant ops still has a
    zero count. In the state the timing ends in, a check of the irrelevant
    array warns exactly when it expects another count than 0 (with
    [check_count] set and an array with elements), and the init function
    logs nothing between the second clock reading and the report: its check
    of the irrelevant array expects 0. *)
Theorem irrelevant_ops_count_nothing K p :
  kernel_wf K → params_wf p →
  let r := ftrace_ops_sample_init K (initial_state p) in
  let pirr := init_ptr_irrelevant K p in
  let n := nr_function_calls p in
  (EvCall addr_tracee_irrelevant ∉ klog (kern (final_state r))) ∧
  ∃ s_reg,
    init_register K (initial_state p) = Ok tt s_reg ∧
    (∀ i, 0 ≤ i ≤ n →
      ∃ s_i,
        (_ ← ktime_get K; timing_loop i) s_reg = Ok tt s_i ∧
        ops_irrelevant s_i = pirr ∧
        length (irrelevant_ops s_i) =
          (if is_block pirr then Z.to_nat (nr_ops_irrelevant p) else 0%nat) ∧
        Forall (λ e, filter_hash (ops e) = [addr_tracee_irrelevant] ∧ count e = 0)
               (irrelevant_ops s_i) ∧
        ops_check (ops_irrelevant s_i) (to_int (nr_ops_irrelevant p)) 0 s_i =
          Ok tt s_i) ∧
    ∃ s_end post,
      (_ ← ktime_get K; (timing_loop n;; (_ ← ktime_get K; ret tt))) s_reg =
        Ok tt s_end ∧
      (∀ expected,
         ops_check (ops_irrelevant s_end) (to_int (nr_ops_irrelevant p)) expected s_end =
           Ok tt (if check_count p && is_block pirr && negb (expected =? 0)
                  then append_log
                         (repeat (EvPrWarnCount 0 expected)
                                 (Z.to_nat (nr_ops_irrelevant p))) s_end
                  else s_end)) ∧
      klog (kern (final_state r)) = klog (kern s_end) ++ post ∧
      Forall is_finish_event post.
Proof.
  intros HK Hp r pirr n. split.
  - intros Hin.
    by pose proof (proj1 (Forall_forall _ _) (init_log_events K p HK Hp) _ Hin).
  - destruct (init_run_chain K p HK Hp)
      as (s1 & s_end & E1 & Echain & Hlay_end & Hcnt_end & Hpar_end & _ & Hoi_end &
          Hzero & Hpersist & Hteardown).
    fold r pirr n in Echain, Hlay_end, Hcnt_end, Hoi_end, Hzero, Hpersist, Hteardown.
    destruct (init_register_spec K p HK Hp)
      as (s1' & evs_rel & evs_irr & E1' & Hpar1 & Hor1 & Hoi1 & Htr1 & Hti1 &
          Hlay1 & _).
    rewrite E1 in E1'. injection E1' as <-.
    fold pirr in Hoi1, Hlay1.
    exists s1. split; [done|]. split.
    + intros i Hi.
      rewrite (bind_ok _ _ _ _ _ (ktime_get_ok K s1)).
      set (s2 := append_log _ _).
      destruct Hp as [Hn Hnrel Hnirr].
      destruct (timing_loop_layout _ _ _ _ _ _ _ i s2 ltac:(lia)
                  (layout_same_heap _ _ _ _ _ _ _ (kern s1) (kern s2) eq_refl eq_refl Hlay1))
        as (s3 & E3 & Hlay3 & (_ & _ & Hoi3 & _) & _).
      exists s3. split; [done|].
      assert (Hoi : ops_irrelevant s3 = pirr) by (rewrite Hoi3; subst s2; done).
      split; [done|].
      rewrite Hoi.
      split_and!.
      * unfold irrelevant_ops. rewrite Hoi.
        pose proof (lay_irr _ _ _ _ _ _ _ _ Hlay3) as Hirr.
        destruct pirr as [| |b]; simpl in *; try done.
        destruct Hirr as (blk & -> & Hlen & _). done.
      * unfold irrelevant_ops. rewrite Hoi.
        pose proof (lay_irr _ _ _ _ _ _ _ _ Hlay3) as Hirr.
        pose proof (lay_irr_zero _ _ _ _ _ _ _ _ Hlay3) as Hzero3.
        destruct pirr as [| |b]; simpl in *; try done.
        destruct Hirr as (blk & Hb & Hlen & Hops).
        specialize (Hzero3 b blk eq_refl Hb). rewrite Hb.
        apply Forall_forall. intros e He.
        pose proof (proj1 (Forall_forall _ _) Hops _ He) as ->.
        by pose proof (proj1 (Forall_forall _ _) Hzero3 _ He).
      * by eapply ops_check_zero_silent.
    + assert (Hpost : ∃ post, klog (kern (final_state r)) = klog (kern s_end) ++ post ∧
                              Forall is_finish_event post).
      { destruct (Z.eq_dec n 0) as [Hz|Hnz].
        - exists []. rewrite (Hzero Hz). simpl. by rewrite app_nil_r.
        - destruct (persist p) eqn:Hpe.
          + eexists. rewrite (Hpersist Hnz eq_refl). simpl. split; [done|].
            by repeat constructor.
          + destruct (Hteardown Hnz eq_refl) as (s_fin & -> & Hlog_fin).
            eexists. split; [exact Hlog_fin|].
            constructor; [done|].
            apply Forall_app_2; by apply destroy_events_Forall. }
      destruct Hpost as (post & Hlog & Hpost).
      exists s_end, post. split; [done|]. split; [|done].
      intros expected. rewrite Hoi_end.
      rewrite (ops_check_irrelevant _ _ _ _ _ _ _ expected s_end
                 (wf_nr_ops_irrelevant p Hp) Hlay_end Hcnt_end).
      by rewrite Hpar_end.
Qed.

(** * Further properties *)

(** ** ops_alloc_init and ops_destroy *)

Lemma unregistrations_app l1 l2 :
  unregistrations (l1 ++ l2) = unregistrations l1 ++ unregistrations l2.
Proof. apply flat_map_app. Qed.

Lemma unregistrations_destroy_loop_events p n :
  unregistrations (destroy_loop_events p n) = refs_from p 0 n.
Proof.
  unfold unregistrations, destroy_loop_events, refs_from.
  induction (seq 0 n) as [|j l IH]; simpl; [done|]. by rewrite IH.
Qed.

Lemma unregistrations_destroy_events p n :
  unregistrations (destroy_events p n) = refs_of p n.
Proof.
  destruct p as [| |b]; simpl; try done.
  rewrite unregistrations_app, unregistrations_destroy_loop_events. simpl.
  by rewrite app_nil_r.
Qed.

Lemma registrations_alloc_events_refs p tracee fn fl n :
  map fst (registrations tracee (alloc_events p tracee fn fl n)) = refs_from p 0 n.
Proof.
  rewrite registrations_alloc_events, bool_decide_eq_true_2 by done.
  unfold refs_from. by rewrite map_map.
Qed.

(** X1. When the allocator satisfies the request, [ops_alloc_init] returns a
    new array of [nr] elements, each with the callback, the flags word and a
    filter on the tracee alone, and a zero count; it has registered the
    elements in index order behind the ops registered before, and has
    changed no other block, no parameter and no global. *)
Theorem ops_alloc_init_sets_up_array K tracee fn fl n s :
  kernel_wf K → 0 < n < 2 ^ 31 →
  kcalloc_ok K (nr_allocs (kern s)) = true →
  fresh_block s →
  let p := Block (length (heap (kern s))) in
  ∃ s',
    ops_alloc_init K tracee fn fl (to_int n) s = Ok p s' ∧
    heap (kern s') =
      heap (kern s) ++
      [Some (replicate (Z.to_nat n)
               (mk_sample_ops (mk_ftrace_ops (Some fn) fl [tracee]) 0))] ∧
    ftrace_ops_list (kern s') =
      ftrace_ops_list (kern s) ++ map (λ j, (p, Z.of_nat j)) (seq 0 (Z.to_nat n)) ∧
    klog (kern s') = klog (kern s) ++ alloc_events p tracee fn fl (Z.to_nat n) ∧
    same_module s s'.
Proof.
  intros HK Hn Hok Hfresh p.
  destruct (ops_alloc_init_block K tracee fn fl n s HK Hn Hok Hfresh)
    as (s' & E & Hh & Hl & Hlog & _ & _ & Hmod).
  by exists s'.
Qed.

(** X2. For a count of 2^31 or more, [ops_alloc_init] returns [NULL] in
    every state and whatever the allocator would answer: the count is
    negative as an [int], the size of the request overflows, and the
    allocator is not asked. Nothing is allocated or registered; at most the
    allocation warning is logged. *)
Theorem ops_alloc_init_count_too_large K tracee fn fl n s :
  kernel_wf K → 2 ^ 31 ≤ n < 2 ^ 32 →
  ∃ s' evs,
    ops_alloc_init K tracee fn fl (to_int n) s = Ok NULL s' ∧
    heap (kern s') = heap (kern s) ∧
    ftrace_ops_list (kern s') = ftrace_ops_list (kern s) ∧
    nr_allocs (kern s') = nr_allocs (kern s) ∧
    klog (kern s') = klog (kern s) ++ evs ∧
    Forall is_alloc_warning evs ∧
    same_module s s'.
Proof.
  intros HK Hn.
  destruct (ops_alloc_init_null K tracee fn fl n s HK)
    as (s' & evs & E & Hh & Hl & Hlog & Hevs & Hna & _ & Hmod); [lia| |].
  - unfold alloc_result, alloc_result_at.
    by rewrite (proj2 (Z.leb_le _ _)) by lia.
  - exists s', evs. split_and!; try done.
    rewrite Hna. unfold reaches_allocator.
    rewrite (proj2 (Z.ltb_ge n _)), andb_false_r by lia. lia.
Qed.

(** X3. [ops_destroy] undoes [ops_alloc_init]: after both, the ops
    registered before are registered again and no others, the new block is
    freed, and parameters and globals are as they were. [ops_destroy]
    unregisters exactly the ops [ops_alloc_init] registered, in the same
    order, frees the filter of each and frees the array last. *)
Theorem ops_destroy_undoes_ops_alloc_init K tracee fn fl n s :
  kernel_wf K → 0 < n < 2 ^ 31 →
  kcalloc_ok K (nr_allocs (kern s)) = true →
  fresh_block s →
  let p := Block (length (heap (kern s))) in
  ∃ s1 s2,
    ops_alloc_init K tracee fn fl (to_int n) s = Ok p s1 ∧
    ops_destroy K p (to_int n) s1 = Ok tt s2 ∧
    ftrace_ops_list (kern s2) = ftrace_ops_list (kern s) ∧
    heap (kern s2) = heap (kern s) ++ [None] ∧
    klog (kern s2) =
      klog (kern s) ++ alloc_events p tracee fn fl (Z.to_nat n) ++
      destroy_events p n ∧
    unregistrations (destroy_events p n) =
      map fst (registrations tracee (alloc_events p tracee fn fl (Z.to_nat n))) ∧
    last (destroy_events p n) = Some (EvKfree p) ∧
    same_module s s2.
Proof.
  intros HK Hn Hok Hfresh p.
  destruct (ops_alloc_init_block K tracee fn fl n s HK Hn Hok Hfresh)
    as (s1 & E1 & Hh1 & Hl1 & Hlog1 & _ & _ & Hmod1).
  fold p in E1, Hl1, Hlog1.
  destruct (ops_destroy_block_events K (length (heap (kern s))) n
              (replicate (Z.to_nat n) (ready_ops fn fl tracee))
              (ftrace_ops_list (kern s)) [] s1)
    as (s2 & E2 & Hh2 & Hl2 & Hlog2 & _ & _ & _ & Hmod2).
  - lia.
  - rewrite Hh1. by apply list_lookup_middle.
  - by rewrite length_replicate.
  - rewrite Hl1. simpl. by rewrite app_nil_r.
  - intros op Hin. rewrite app_nil_r in Hin. by apply Hfresh.
  - exists s1, s2. split_and!; try done.
    + by rewrite Hl2, app_nil_r.
    + rewrite Hh2, Hh1. by rewrite insert_last.
    + rewrite Hlog2, Hlog1. by rewrite <- app_assoc.
    + rewrite unregistrations_destroy_events, registrations_alloc_events_refs. done.
    + unfold p. simpl. by rewrite last_snoc.
    + by eapply same_module_trans.
Qed.

(** X4. [ops_destroy] leaves nothing behind that stops a second call: a
    second [ops_destroy] of the same array, with one element or more,
    faults at once on the freed block. *)
Theorem ops_destroy_twice_faults K tracee fn fl n s :
  kernel_wf K → 0 < n < 2 ^ 31 →
  kcalloc_ok K (nr_allocs (kern s)) = true →
  fresh_block s →
  let p := Block (length (heap (kern s))) in
  ∃ s1 s2,
    ops_alloc_init K tracee fn fl (to_int n) s = Ok p s1 ∧
    ops_destroy K p (to_int n) s1 = Ok tt s2 ∧
    ops_destroy K p (to_int n) s2 = Fault BadPointer s2.
Proof.
  intros HK Hn Hok Hfresh p.
  destruct (ops_alloc_init_block K tracee fn fl n s HK Hn Hok Hfresh)
    as (s1 & E1 & Hh1 & Hl1 & Hlog1 & _ & _ & Hmod1).
  fold p in E1, Hl1, Hlog1.
  destruct (ops_destroy_block_events K (length (heap (kern s))) n
              (replicate (Z.to_nat n) (ready_ops fn fl tracee))
              (ftrace_ops_list (kern s)) [] s1)
    as (s2 & E2 & Hh2 & _).
  - lia.
  - rewrite Hh1. by apply list_lookup_middle.
  - by rewrite length_replicate.
  - rewrite Hl1. simpl. by rewrite app_nil_r.
  - intros op Hin. rewrite app_nil_r in Hin. by apply Hfresh.
  - exists s1, s2. split_and!; try done.
    assert (Hfreed : heap (kern s2) !! length (heap (kern s)) = Some None).
    { rewrite Hh2, Hh1, insert_last. by apply list_lookup_middle. }
    unfold ops_destroy, p. simpl. rewrite to_uint_to_int by lia.
    unfold for_u32. simpl. rewrite (proj2 (Z.ltb_lt 0 n)) by lia.
    destruct s2 as [pa pr pi tr ti [h2 l2 na nc w lg]]; simpl in *.
    clear E2. mrun. reflexivity.
Qed.

(** ** The arrays during and after a run *)

(** X5. After any number [i] of iterations of the timing loop, up to
    [nr_function_calls], every ops of the relevant array has counted [i]
    calls when [check_count] is set and none otherwise; its callback, flags
    and filter are those of the registration. *)
Theorem relevant_ops_count_calls K p :
  kernel_wf K → params_wf p →
  let prel := init_ptr_relevant K p in
  let fn := if check_count p then fn_ops_func_count else fn_ops_func_nop in
  ∃ s_reg,
    init_register K (initial_state p) = Ok tt s_reg ∧
    ∀ i, 0 ≤ i ≤ nr_function_calls p →
      ∃ s_i,
        (_ ← ktime_get K; timing_loop i) s_reg = Ok tt s_i ∧
        relevant_ops s_i =
          if is_block prel
          then replicate (Z.to_nat (nr_ops_relevant p))
                 (mk_sample_ops
                    (mk_ftrace_ops (Some fn) (init_flags K p) [addr_tracee_relevant])
                    (if check_count p then i else 0))
          else [].
Proof.
  intros HK Hp prel fn.
  destruct (init_register_exact K p HK Hp)
    as (s1 & evs_rel & evs_irr & E1 & Hlay1 & Hcnt1 & _ & Hor1 & _).
  fold prel in Hlay1, Hcnt1, Hor1. change (init_tracer p) with fn in Hlay1, Hcnt1.
  exists s1. split; [done|]. intros i Hi.
  rewrite (bind_ok _ _ _ _ _ (ktime_get_ok K s1)).
  set (s2 := append_log _ _).
  destruct Hp as [Hn Hnrel Hnirr].
  destruct (timing_loop_counted prel _ _ _ fn _ i s2 ltac:(lia)
              (layout_same_heap _ _ _ _ _ _ _ (kern s1) (kern s2) eq_refl eq_refl Hlay1))
    as (s3 & E3 & Hlay3 & [Hcrel _] & (_ & Hor3 & _) & _).
  { by destruct Hcnt1. }
  exists s3. split; [done|].
  unfold relevant_ops. rewrite Hor3. change (ops_relevant s2) with (ops_relevant s1).
  rewrite Hor1.
  pose proof (lay_rel _ _ _ _ _ _ _ _ Hlay3) as Harr.
  destruct prel as [| |b]; simpl in *; try done.
  rewrite (Hcrel b eq_refl). unfold counted_ops, count_after, fn.
  by destruct (check_count p).
Qed.

Lemma init_final_state_fields K p :
  kernel_wf K → params_wf p →
  let s := final_state (ftrace_ops_sample_init K (initial_state p)) in
  params s = set_save_regs (init_save_regs K p) p ∧
  ops_relevant s = init_ptr_relevant K p ∧
  ops_irrelevant s = init_ptr_irrelevant K p ∧
  tracer_relevant s = init_tracer p ∧
  tracer_irrelevant s = init_tracer p.
Proof.
  intros HK Hp s.
  destruct (init_run_exact K p HK Hp)
    as (s_chk & evs_rel & evs_irr & _ & _ & Hpar & Hor & Hoi & Htr & Hti & _ & _ & _ &
        Hzero & Hpersist & Hteardown).
  subst s.
  destruct (Z.eq_dec (nr_function_calls p) 0) as [Hz|Hnz].
  - by rewrite (Hzero Hz).
  - destruct (persist p) eqn:Hpe.
    + by rewrite (Hpersist Hnz eq_refl).
    + destruct (Hteardown Hnz eq_refl) as (s_end & -> & _ & _ & _ & Hmod).
      destruct Hmod as (H1 & H2 & H3 & H4 & H5). simpl.
      by rewrite H1, H2, H3, H4, H5.
Qed.

(** X6. A run prints no count warning: when [check_count] is set, both
    checks find the counts they expect. *)
Theorem init_prints_no_count_warning K p :
  kernel_wf K → params_wf p →
  let log := klog (kern (final_state (ftrace_ops_sample_init K (initial_state p)))) in
  ∀ called expected, EvPrWarnCount called expected ∉ log.
Proof.
  intros HK Hp log called expected Hin.
  destruct (init_run_exact K p HK Hp)
    as (s_chk & evs_rel & evs_irr & _ & _ & _ & _ & _ & _ & _ & Hlog & Hevs_rel &
        Hevs_irr & Hzero & Hpersist & Hteardown).
  assert (Halloc : ∀ (q : ptr) evs t m,
    match q with
    | Block _ => evs = alloc_events q t (init_tracer p) (init_flags K p) m
    | ZERO_SIZE_PTR => evs = []
    | NULL => Forall is_alloc_warning evs
    end →
    Forall (λ e, e ≠ EvPrWarnCount called expected) evs).
  { intros q evs t m Hq. destruct q.
    - eapply Forall_impl; [exact Hq|]. by intros ? ->.
    - by subst evs.
    - subst evs. by apply alloc_events_Forall. }
  assert (Hdestroy : ∀ q m, Forall (λ e, e ≠ EvPrWarnCount called expected)
                              (destroy_events q m)).
  { intros q m. destruct q; simpl; [done|by repeat constructor|].
    apply Forall_app_2; [|by repeat constructor].
    unfold destroy_loop_events.
    induction (seq 0 (Z.to_nat m)) as [|j l IH]; simpl; by repeat constructor. }
  assert (Hchk : Forall (λ e, e ≠ EvPrWarnCount called expected) (klog (kern s_chk))).
  { rewrite Hlog.
    apply Forall_app_2; [|apply Forall_app_2; [|apply Forall_app_2;
      [|apply Forall_app_2; [|apply Forall_app_2]]]].
    - unfold init_banner. destruct (negb _ && _); by repeat constructor.
    - by eapply Halloc; exact Hevs_rel.
    - by eapply Halloc; exact Hevs_irr.
    - by repeat constructor.
    - by apply Forall_repeat.
    - by repeat constructor. }
  assert (Hall : Forall (λ e, e ≠ EvPrWarnCount called expected) log).
  { subst log.
    destruct (Z.eq_dec (nr_function_calls p) 0) as [Hz|Hnz].
    - by rewrite (Hzero Hz).
    - destruct (persist p) eqn:Hpe.
      + rewrite (Hpersist Hnz eq_refl). simpl.
        apply Forall_app_2; [done|by repeat constructor].
      + destruct (Hteardown Hnz eq_refl) as (s_end & -> & _ & _ & Hlog_end & _).
        simpl. rewrite Hlog_end.
        apply Forall_app_2; [done|]. constructor; [done|].
        by apply Forall_app_2. }
  by apply (proj1 (Forall_forall _ _) Hall _ Hin).
Qed.

(** X7. The flags word has no bit set besides the three the parameters
    ask for, and so has none of the ops the init function registers. *)
Theorem init_flags_has_no_other_bit K p bit :
  kernel_wf K → params_wf p →
  bit ≠ SAVE_REGS_BIT K → bit ≠ RECURSION_BIT K → bit ≠ RCU_BIT K →
  let log := klog (kern (final_state (ftrace_ops_sample_init K (initial_state p)))) in
  flag_set bit (init_flags K p) = false ∧
  ∀ op o, EvRegister op o ∈ log → flag_set bit (flags o) = false.
Proof.
  intros HK Hp H1 H2 H3 log.
  assert (Hfl : flag_set bit (init_flags K p) = false).
  { destruct HK as [B1 B2 B3 _ _ _ _ _ _].
    unfold init_flags, FTRACE_OPS_FL_SAVE_REGS, FTRACE_OPS_FL_RECURSION,
      FTRACE_OPS_FL_RCU.
    destruct (CONFIG_DYNAMIC_FTRACE_WITH_REGS K), (save_regs p),
      (assist_recursion p), (assist_rcu p); simpl;
      rewrite ?flag_set_lor, ?flag_set_BIT, ?flag_set_0 by lia;
      repeat case_bool_decide; simpl; first [done|congruence]. }
  split; [done|].
  intros op o Hin. by rewrite (init_registered_flags K p HK Hp op o Hin).
Qed.

(** X8. The init function changes no parameter but [save_regs], which it
    can only switch off; it leaves both tracers equal, [ops_func_count]
    exactly when [check_count] is set, and leaves in the two pointers what
    the two calls of [ops_alloc_init] returned, also when it has freed the
    arrays. *)
Theorem init_leaves_parameters K p :
  kernel_wf K → params_wf p →
  let s := final_state (ftrace_ops_sample_init K (initial_state p)) in
  nr_function_calls (params s) = nr_function_calls p ∧
  nr_ops_relevant (params s) = nr_ops_relevant p ∧
  nr_ops_irrelevant (params s) = nr_ops_irrelevant p ∧
  assist_recursion (params s) = assist_recursion p ∧
  assist_rcu (params s) = assist_rcu p ∧
  check_count (params s) = check_count p ∧
  persist (params s) = persist p ∧
  (save_regs (params s) = true → save_regs p = true) ∧
  tracer_relevant s = tracer_irrelevant s ∧
  (tracer_relevant s = fn_ops_func_count ↔ check_count p = true) ∧
  ops_relevant s = init_ptr_relevant K p ∧
  ops_irrelevant s = init_ptr_irrelevant K p.
Proof.
  intros HK Hp s.
  destruct (init_final_state_fields K p HK Hp) as (Hpar & Hor & Hoi & Htr & Hti).
  fold s in Hpar, Hor, Hoi, Htr, Hti.
  rewrite Hpar, Htr, Hti. simpl. split_and!; try done.
  - unfold init_save_regs. by destruct (negb _ && _).
  - unfold init_tracer. by destruct (check_count p).
Qed.

Lemma unregistrations_none l :
  Forall (λ e, ∀ op, e ≠ EvUnregister op) l → unregistrations l = [].
Proof.
  induction 1 as [|e l He Hl IH]; [done|].
  unfold unregistrations in *. simpl. rewrite IH.
  destruct e; simpl; try done. by destruct (He op).
Qed.

Lemma registration_refs (q : ptr) evs t t' fn fl (n : Z) :
  match q with
  | Block _ => evs = alloc_events q t' fn fl (Z.to_nat n)
  | ZERO_SIZE_PTR => evs = []
  | NULL => Forall is_alloc_warning evs
  end →
  map fst (registrations t evs) = (if bool_decide (t' = t) then refs_of q n else []) ∧
  unregistrations evs = [].
Proof.
  intros Hq. destruct q as [| |b]; simpl.
  - split.
    + rewrite registrations_none; [by destruct (bool_decide _)|].
      eapply Forall_impl; [exact Hq|]. by intros ? -> [].
    + apply unregistrations_none.
      eapply Forall_impl; [exact Hq|]. by intros ? ->.
  - subst evs. split; [by destruct (bool_decide _)|done].
  - subst evs. split.
    + rewrite registrations_alloc_events.
      destruct (bool_decide (t' = t)); [|done].
      unfold refs_from. by rewrite map_map.
    + apply unregistrations_none. by apply alloc_events_Forall.
Qed.

(** X9. A completed run without [persist] unregisters exactly the ops it
    has registered, those of the relevant array first, each array in index
    order; a run with [persist], or one that stops at the division,
    unregisters none. *)
Theorem init_unregisters_what_it_registered K p :
  kernel_wf K → params_wf p →
  let log := klog (kern (final_state (ftrace_ops_sample_init K (initial_state p)))) in
  let registered :=
    map fst (registrations addr_tracee_relevant log) ++
    map fst (registrations addr_tracee_irrelevant log) in
  registered =
    refs_of (init_ptr_relevant K p) (nr_ops_relevant p) ++
    refs_of (init_ptr_irrelevant K p) (nr_ops_irrelevant p) ∧
  (nr_function_calls p ≠ 0 → persist p = false → unregistrations log = registered) ∧
  (nr_function_calls p = 0 ∨ persist p = true → unregistrations log = []).
Proof.
  intros HK Hp log registered.
  destruct (init_run_exact K p HK Hp)
    as (s_chk & evs_rel & evs_irr & _ & _ & _ & _ & _ & _ & _ & Hlog & Hevs_rel &
        Hevs_irr & Hzero & Hpersist & Hteardown).
  destruct (registration_refs _ _ addr_tracee_relevant _ _ _ _ Hevs_rel) as [Hrr Hur].
  destruct (registration_refs _ _ addr_tracee_irrelevant _ _ _ _ Hevs_rel) as [Hri _].
  destruct (registration_refs _ _ addr_tracee_relevant _ _ _ _ Hevs_irr) as [Hir Hui].
  destruct (registration_refs _ _ addr_tracee_irrelevant _ _ _ _ Hevs_irr) as [Hii _].
  simpl in Hrr, Hri, Hir, Hii.
  assert (Hbanner : ∀ t, registrations t (init_banner K p) = [] ∧
                         unregistrations (init_banner K p) = []).
  { intros t. unfold init_banner. by destruct (negb _ && _). }
  assert (Hrepeat : ∀ t n, registrations t (repeat (EvCall addr_tracee_relevant) n) = [] ∧
                           unregistrations (repeat (EvCall addr_tracee_relevant) n) = []).
  { intros t n. split.
    - apply registrations_none, Forall_repeat. by intros [].
    - by apply unregistrations_none, Forall_repeat. }
  assert (Hdestroy : ∀ t q m, registrations t (destroy_events q m) = []).
  { intros t q m. apply registrations_none.
    apply destroy_events_Forall; by intros ? []. }
  assert (Hreg_chk : ∀ t, map fst (registrations t (klog (kern s_chk))) =
                          map fst (registrations t evs_rel) ++
                          map fst (registrations t evs_irr)).
  { intros t. rewrite Hlog, !registrations_app.
    rewrite (proj1 (Hbanner t)), (proj1 (Hrepeat t _)). simpl.
    by rewrite app_nil_r, map_app. }
  assert (Hun_chk : unregistrations (klog (kern s_chk)) = []).
  { rewrite Hlog, !unregistrations_app.
    rewrite (proj2 (Hbanner addr_tracee_relevant)),
      (proj2 (Hrepeat addr_tracee_relevant _)), Hur, Hui. done. }
  assert (Hcases :
    (∀ t, map fst (registrations t log) = map fst (registrations t (klog (kern s_chk)))) ∧
    (nr_function_calls p ≠ 0 → persist p = false →
       unregistrations log =
         refs_of (init_ptr_relevant K p) (nr_ops_relevant p) ++
         refs_of (init_ptr_irrelevant K p) (nr_ops_irrelevant p)) ∧
    (nr_function_calls p = 0 ∨ persist p = true → unregistrations log = [])).
  { subst log.
    destruct (Z.eq_dec (nr_function_calls p) 0) as [Hz|Hnz].
    - rewrite (Hzero Hz). simpl. split_and!; [done|done|by intros _].
    - destruct (persist p) eqn:Hpe.
      + rewrite (Hpersist Hnz eq_refl). simpl. split_and!.
        * intros t. by rewrite registrations_app, app_nil_r.
        * done.
        * intros _. by rewrite unregistrations_app, Hun_chk.
      + destruct (Hteardown Hnz eq_refl) as (s_end & -> & _ & _ & Hlog_end & _).
        simpl. rewrite Hlog_end. split_and!.
        * intros t. rewrite !registrations_app, !Hdestroy. simpl.
          by rewrite !app_nil_r.
        * intros _ _. rewrite !unregistrations_app, Hun_chk.
          by rewrite !unregistrations_destroy_events.
        * by intros [?|?]. }
  destruct Hcases as (Hreg & Hun1 & Hun2).
  assert (Hregistered : registered =
            refs_of (init_ptr_relevant K p) (nr_ops_relevant p) ++
            refs_of (init_ptr_irrelevant K p) (nr_ops_irrelevant p)).
  { subst registered. rewrite !Hreg, !Hreg_chk, Hrr, Hri, Hir, Hii.
    by rewrite app_nil_r. }
  split_and!; [done| |done].
  intros Hnz Hpe. by rewrite Hregistered, Hun1.
Qed.

(** X10. With both counts zero the run allocates, registers and warns about
    nothing: both pointers are [ZERO_SIZE_PTR], and the log is the banner,
    the first clock reading, the calls, the second clock reading and, when
    the division is defined, the report, followed without [persist] by the
    two calls of [kfree]. *)
Theorem init_without_ops K p :
  kernel_wf K → params_wf p →
  nr_ops_relevant p = 0 → nr_ops_irrelevant p = 0 →
  let r := ftrace_ops_sample_init K (initial_state p) in
  let n := nr_function_calls p in
  let base :=
    init_banner K p ++ [EvKtimeGet (ktime_at K 0)] ++
    repeat (EvCall addr_tracee_relevant) (Z.to_nat n) ++
    [EvKtimeGet (ktime_at K 1)] in
  let report := EvPrInfoResult n (init_period K) (init_period K / n) in
  ops_relevant (final_state r) = ZERO_SIZE_PTR ∧
  ops_irrelevant (final_state r) = ZERO_SIZE_PTR ∧
  ftrace_ops_list (kern (final_state r)) = [] ∧
  klog (kern (final_state r)) =
    base ++
    (if n =? 0 then []
     else if persist p then [report]
     else [report; EvKfree ZERO_SIZE_PTR; EvKfree ZERO_SIZE_PTR]).
Proof.
  intros HK Hp Hrel Hirr r n base report.
  destruct (init_run_exact K p HK Hp)
    as (s_chk & evs_rel & evs_irr & Hlay & _ & _ & Hor & Hoi & _ & _ & Hlog & Hevs_rel &
        Hevs_irr & Hzero & Hpersist & Hteardown).
  fold r n in Hzero, Hpersist, Hteardown.
  assert (Hprel : init_ptr_relevant K p = ZERO_SIZE_PTR)
    by (unfold init_ptr_relevant; by rewrite Hrel).
  assert (Hpirr : init_ptr_irrelevant K p = ZERO_SIZE_PTR)
    by (unfold init_ptr_irrelevant; by rewrite Hirr).
  rewrite Hprel, Hpirr in *. subst evs_rel evs_irr. simpl in Hlog.
  pose proof (lay_list _ _ _ _ _ _ _ _ Hlay) as Hlist. simpl in Hlist.
  fold n in Hlog. fold base in Hlog.
  destruct (Z.eqb_spec n 0) as [Hz|Hnz].
  - rewrite (Hzero Hz). simpl. by rewrite app_nil_r.
  - destruct (persist p) eqn:Hpe.
    + rewrite (Hpersist Hnz eq_refl). simpl. by rewrite Hlog.
    + destruct (Hteardown Hnz eq_refl)
        as (s_end & -> & Hl_end & _ & Hlog_end & (_ & Hor_end & Hoi_end & _)).
      simpl. rewrite Hlog_end, Hlog. split_and!; [congruence|congruence|done|done].
Qed.

(** X11. After a completed run with [persist], the arrays are as the
    registration left them, but for the counts of the relevant array: each
    relevant ops has counted [nr_function_calls] calls when [check_count] is
    set, each irrelevant ops none. *)
Theorem init_persist_leaves_arrays K p :
  kernel_wf K → params_wf p →
  nr_function_calls p ≠ 0 → persist p = true →
  let fn := if check_count p then fn_ops_func_count else fn_ops_func_nop in
  let fl := init_flags K p in
  ∃ s,
    ftrace_ops_sample_init K (initial_state p) = Ok 0 s ∧
    relevant_ops s =
      (if is_block (init_ptr_relevant K p)
       then replicate (Z.to_nat (nr_ops_relevant p))
              (mk_sample_ops (mk_ftrace_ops (Some fn) fl [addr_tracee_relevant])
                 (if check_count p then nr_function_calls p else 0))
       else []) ∧
    irrelevant_ops s =
      (if is_block (init_ptr_irrelevant K p)
       then replicate (Z.to_nat (nr_ops_irrelevant p))
              (mk_sample_ops (mk_ftrace_ops (Some fn) fl [addr_tracee_irrelevant]) 0)
       else []).
Proof.
  intros HK Hp Hnz Hpe fn fl.
  destruct (init_run_exact K p HK Hp)
    as (s_chk & evs_rel & evs_irr & _ & [Hcrel Hcirr] & _ & Hor & Hoi & _ & _ & _ & _ &
        _ & _ & Hpersist & _).
  rewrite (Hpersist Hnz Hpe). eexists. split; [done|].
  unfold relevant_ops, irrelevant_ops. simpl. rewrite Hor, Hoi.
  change (init_tracer p) with fn in Hcrel, Hcirr. fold fl in Hcrel, Hcirr.
  split.
  - destruct (init_ptr_relevant K p) as [| |b]; simpl; try done.
    rewrite (Hcrel b eq_refl). unfold counted_ops, count_after, fn.
    by destruct (check_count p).
  - destruct (init_ptr_irrelevant K p) as [| |b]; simpl; try done.
    by rewrite (Hcirr b eq_refl).
Qed.

(** X12. The exit function, called after a completed run with [persist],
    unregisters exactly the ops that are registered when the init function
    returns, in the order of their registration, frees their filters and
    the arrays, and leaves no ops registered and no block allocated; it
    prints nothing and leaves the two pointers as they are. *)
Theorem exit_unregisters_every_ops K p :
  kernel_wf K → params_wf p →
  nr_function_calls p ≠ 0 → persist p = true →
  ∃ s s',
    ftrace_ops_sample_init K (initial_state p) = Ok 0 s ∧
    ftrace_ops_sample_exit K s = Ok tt s' ∧
    klog (kern s') =
      klog (kern s) ++
      destroy_events (ops_relevant s) (nr_ops_relevant p) ++
      destroy_events (ops_irrelevant s) (nr_ops_irrelevant p) ∧
    unregistrations
      (destroy_events (ops_relevant s) (nr_ops_relevant p) ++
       destroy_events (ops_irrelevant s) (nr_ops_irrelevant p)) =
      ftrace_ops_list (kern s) ∧
    ftrace_ops_list (kern s') = [] ∧
    Forall (λ blk, blk = None) (heap (kern s')) ∧
    ops_relevant s' = ops_relevant s ∧
    ops_irrelevant s' = ops_irrelevant s.
Proof.
  intros HK Hp Hnz Hpe.
  destruct (init_run_exact K p HK Hp)
    as (s_chk & evs_rel & evs_irr & Hlay & _ & Hpar & Hor & Hoi & _ & _ & _ & _ &
        _ & _ & Hpersist & _).
  rewrite (Hpersist Hnz Hpe).
  set (s := append_log _ s_chk).
  destruct Hp as [_ Hnrel Hnirr].
  destruct (teardown_events K _ _ _ _ _ _ _ s Hnrel Hnirr
              (layout_same_heap _ _ _ _ _ _ _ (kern s_chk) (kern s) eq_refl eq_refl Hlay))
    as (s' & E & Hl & Hh & Hlog & (_ & Hor' & Hoi' & _)).
  exists s, s'. split; [done|].
  assert (Hors : ops_relevant s = init_ptr_relevant K p) by (subst s; done).
  assert (Hois : ops_irrelevant s = init_ptr_irrelevant K p) by (subst s; done).
  rewrite Hors, Hois.
  split_and!; try done.
  - unfold ftrace_ops_sample_exit.
    rewrite (bind_ok _ _ s s s) by reflexivity.
    rewrite Hors, Hois. subst s. simpl. rewrite Hpar. exact E.
  - rewrite unregistrations_app, !unregistrations_destroy_events.
    symmetry. exact (lay_list _ _ _ _ _ _ _ _ Hlay).
  - congruence.
  - congruence.
Qed.

(** X13. The report of a completed run gives a period below 2^64 and the
    per-call latency rounded down: the latency times the number of calls
    is at most the period, and one more per call would exceed it. *)
Theorem init_report_rounds_down K p :
  kernel_wf K → params_wf p → nr_function_calls p ≠ 0 →
  let log := klog (kern (final_state (ftrace_ops_sample_init K (initial_state p)))) in
  let n := nr_function_calls p in
  ∃ period per_call,
    EvPrInfoResult n period per_call ∈ log ∧
    period = to_u64 (ktime_at K 1 - ktime_at K 0) ∧
    0 ≤ period < 2 ^ 64 ∧
    0 ≤ per_call ≤ period ∧
    per_call * n ≤ period < (per_call + 1) * n.
Proof.
  intros HK Hp Hnz log n.
  destruct (init_final K p HK Hp)
    as (evs_rel & evs_irr & evs_chk & post & Hlog & _ & _ & _ & _ & _ & Hrep & _).
  fold log n in Hlog, Hrep.
  pose proof (wf_nr_function_calls p Hp) as Hn. fold n in Hn.
  assert (Hperiod : 0 ≤ init_period K < 2 ^ 64)
    by (unfold init_period, to_u64; apply Z.mod_pos_bound; lia).
  assert (H1 : 0 ≤ init_period K / n) by (apply Z.div_pos; lia).
  assert (H2 : init_period K / n * n ≤ init_period K)
    by (rewrite Z.mul_comm; apply Z.mul_div_le; lia).
  assert (H3 : init_period K < (init_period K / n + 1) * n)
    by (rewrite Z.mul_comm; apply Z.mul_succ_div_gt; lia).
  assert (H4 : init_period K / n ≤ init_period K) by nia.
  exists (init_period K), (init_period K / n).
  split; [|split; [done|lia]].
  rewrite Hlog. do 7 (apply elem_of_app; right). by apply Hrep.
Qed.

(** * The properties at concrete inputs *)

(** C1 on the sample kernel with three calls. *)
Lemma init_times_nr_function_calls_witness :
  let K := sample_kernel true (λ _, true) in
  let p := sample_params in
  kernel_wf K ∧ params_wf p ∧
  (let r := ftrace_ops_sample_init K (initial_state p) in
  let start := ktime_at K 0 in
  let end_ := ktime_at K 1 in
  ∃ pre post,
    klog (kern (final_state r)) =
      pre ++ [EvKtimeGet start] ++
      repeat (EvCall addr_tracee_relevant) (Z.to_nat (nr_function_calls p)) ++
      [EvKtimeGet end_] ++ post ∧
    Forall is_quiet pre ∧ Forall is_quiet post ∧
    (∀ nr period per_call, EvPrInfoResult nr period per_call ∈ post →
       nr = nr_function_calls p ∧ period = to_u64 (end_ - start)) ∧
    (nr_function_calls p ≠ 0 →
       ∃ per_call,
         EvPrInfoResult (nr_function_calls p) (to_u64 (end_ - start)) per_call ∈ post) ∧
    (start ≤ end_ < start + 2 ^ 64 → to_u64 (end_ - start) = end_ - start)).
Proof.
  intros K p.
  assert (HK : kernel_wf K) by (constructor; simpl; lia).
  assert (Hp : params_wf p) by (constructor; simpl; lia).
  split; [exact HK|]. split; [exact Hp|].
  exact (init_times_nr_function_calls K p HK Hp).
Defined.

(** C2 on the sample kernel with [nr_function_calls = 0]. *)
Lemma init_per_call_latency_witness :
  let K := sample_kernel true (λ _, true) in
  let p := sample_params_no_calls in
  kernel_wf K ∧ params_wf p ∧
  (let r := ftrace_ops_sample_init K (initial_state p) in
  let period := init_period K in
  (nr_function_calls p ≠ 0 →
     (∃ v s, r = Ok v s) ∧
     ∃ pre post,
       klog (kern (final_state r)) =
         pre ++ [EvPrInfoResult (nr_function_calls p) period
                   (period / nr_function_calls p)] ++ post) ∧
  (nr_function_calls p = 0 →
     (∃ s, r = Fault DivideError s) ∧
     ∀ nr pd per_call, EvPrInfoResult nr pd per_call ∉ klog (kern (final_state r)))).
Proof.
  intros K p.
  assert (HK : kernel_wf K) by (constructor; simpl; lia).
  assert (Hp : params_wf p) by (constructor; simpl; lia).
  split; [exact HK|]. split; [exact Hp|].
  exact (init_per_call_latency K p HK Hp).
Defined.

(** C3 on the sample kernel. *)
Lemma init_registers_allocated_arrays_witness :
  let K := sample_kernel true (λ _, true) in
  let p := sample_params in
  kernel_wf K ∧ params_wf p ∧
  (let log := klog (kern (final_state (ftrace_ops_sample_init K (initial_state p)))) in
  let fn := if check_count p then fn_ops_func_count else fn_ops_func_nop in
  let fl := init_flags K p in
  let prel := init_ptr_relevant K p in
  let pirr := init_ptr_irrelevant K p in
  registrations addr_tracee_relevant log =
    (if is_block prel
     then map (λ j, ((prel, Z.of_nat j),
                     mk_ftrace_ops (Some fn) fl [addr_tracee_relevant]))
              (seq 0 (Z.to_nat (nr_ops_relevant p)))
     else []) ∧
  registrations addr_tracee_irrelevant log =
    (if is_block pirr
     then map (λ j, ((pirr, Z.of_nat j),
                     mk_ftrace_ops (Some fn) fl [addr_tracee_irrelevant]))
              (seq 0 (Z.to_nat (nr_ops_irrelevant p)))
     else []) ∧
  (is_block prel = true ↔
     0 < nr_ops_relevant p < 2 ^ 31 ∧ kcalloc_ok K 0 = true) ∧
  (is_block pirr = true ↔
     0 < nr_ops_irrelevant p < 2 ^ 31 ∧
     kcalloc_ok K (if reaches_allocator (nr_ops_relevant p) then 1 else 0) = true)).
Proof.
  intros K p.
  assert (HK : kernel_wf K) by (constructor; simpl; lia).
  assert (Hp : params_wf p) by (constructor; simpl; lia).
  split; [exact HK|]. split; [exact Hp|].
  exact (init_registers_allocated_arrays K p HK Hp).
Defined.

(** C4 on the sample kernel. *)
Lemma init_save_regs_flag_witness :
  let K := sample_kernel true (λ _, true) in
  let p := sample_params in
  kernel_wf K ∧ params_wf p ∧
  (let s := final_state (ftrace_ops_sample_init K (initial_state p)) in
  let fl := init_flags K p in
  (∀ op o, EvRegister op o ∈ klog (kern s) → flags o = fl) ∧
  (CONFIG_DYNAMIC_FTRACE_WITH_REGS K = false → save_regs p = true →
     save_regs (params s) = false ∧ flag_set (SAVE_REGS_BIT K) fl = false) ∧
  (CONFIG_DYNAMIC_FTRACE_WITH_REGS K = true ∨ save_regs p = false →
     save_regs (params s) = save_regs p ∧
     flag_set (SAVE_REGS_BIT K) fl = save_regs p)).
Proof.
  intros K p.
  assert (HK : kernel_wf K) by (constructor; simpl; lia).
  assert (Hp : params_wf p) by (constructor; simpl; lia).
  split; [exact HK|]. split; [exact Hp|].
  exact (init_save_regs_flag K p HK Hp).
Defined.

(** C10 on the sample kernel, with [persist]. *)
Lemma teardown_is_safe_witness :
  let K := sample_kernel true (λ _, true) in
  let p := sample_params_persist in
  kernel_wf K ∧ params_wf p ∧ nr_function_calls p ≠ 0 ∧
  (let r := ftrace_ops_sample_init K (initial_state p) in
  (∀ tracee fn fl nr s s1,
     kcalloc K (to_size_t nr) (sizeof_sample_ops K) s = Ok NULL s1 →
     ∃ s' evs,
       ops_alloc_init K tracee fn fl nr s = Ok NULL s' ∧
       ftrace_ops_list (kern s') = ftrace_ops_list (kern s) ∧
       heap (kern s') = heap (kern s) ∧
       klog (kern s') = klog (kern s) ++ evs ∧
       Forall is_alloc_warning evs) ∧
  (∀ nr s, ops_destroy K NULL nr s = Ok tt s) ∧
  (persist p = false →
     ∃ s, r = Ok (- EINVAL K) s ∧
          ftrace_ops_list (kern s) = [] ∧
          Forall (λ blk, blk = None) (heap (kern s)) ∧
          Forall is_init_event (klog (kern s))) ∧
  (persist p = true →
     ∃ s s' evs,
       r = Ok 0 s ∧
       ftrace_ops_sample_exit K s = Ok tt s' ∧
       ftrace_ops_list (kern s') = [] ∧
       Forall (λ blk, blk = None) (heap (kern s')) ∧
       klog (kern s') = klog (kern s) ++ evs ∧
       Forall is_teardown_event evs)).
Proof.
  intros K p.
  assert (HK : kernel_wf K) by (constructor; simpl; lia).
  assert (Hp : params_wf p) by (constructor; simpl; lia).
  assert (Hn : nr_function_calls p ≠ 0) by (simpl; lia).
  split; [exact HK|]. split; [exact Hp|]. split; [exact Hn|].
  exact (teardown_is_safe K p HK Hp Hn).
Defined.

(** C7 for three calls. *)
Lemma no_ops_leave_module_state_witness :
  let n := 3 in
  0 ≤ n < 2 ^ 32 ∧
  ((∀ s, for_u32 n (λ _, tracee_relevant) s = Ok tt s) ∧
  (∀ ip parent_ip op fregs s,
     for_u32 n (λ _, ops_func_nop ip parent_ip op fregs) s = Ok tt s) ∧
  (∀ s, nop_attached addr_tracee_relevant s →
     ∃ s', timing_loop n s = Ok tt s' ∧ module_state s' = module_state s) ∧
  (∀ K p, kernel_wf K → params_wf p → check_count p = false →
     ∃ s, init_register K (initial_state p) = Ok tt s ∧
          nop_attached addr_tracee_relevant s)).
Proof.
  intros n.
  assert (Hn : 0 ≤ n < 2 ^ 32) by (unfold n; lia).
  split; [exact Hn|]. exact (no_ops_leave_module_state n Hn).
Defined.

(** C9 on an array of two whose first element has counted 5 and whose second
    has counted 3, checked against 3 with [nr = 2]: two warnings about 5. *)
Lemma ops_check_reads_first_element_only_witness :
  let s := sample_check_state in
  let e := mk_sample_ops
             (mk_ftrace_ops (Some fn_ops_func_count) 0 [addr_tracee_relevant]) 5 in
  let e' := mk_sample_ops
              (mk_ftrace_ops (Some fn_ops_func_count) 0 [addr_tracee_relevant]) 3 in
  check_count (params s) = true ∧
  heap (kern s) !! 0%nat = Some (Some [e; e']) ∧
  [e; e'] !! 0%nat = Some e ∧
  1 ≤ 2 < 2 ^ 31 ∧
  ops_check (Block 0) 2 3 s =
    Ok tt (if count e =? 3 then s
           else append_log (repeat (EvPrWarnCount (count e) 3) (Z.to_nat 2)) s).
Proof.
  intros s e e'.
  assert (H1 : check_count (params s) = true) by reflexivity.
  assert (H2 : heap (kern s) !! 0%nat = Some (Some [e; e'])) by reflexivity.
  assert (H3 : [e; e'] !! 0%nat = Some e) by reflexivity.
  assert (H4 : 1 ≤ 2 < 2 ^ 31) by lia.
  split; [exact H1|]. split; [exact H2|]. split; [exact H3|]. split; [exact H4|].
  exact (ops_check_reads_first_element_only s 0%nat [e; e'] e 2 3 H1 H2 H3 H4).
Defined.

(** C5 on the sample kernel. *)
Lemma init_assist_flags_witness :
  let K := sample_kernel true (λ _, true) in
  let p := sample_params in
  kernel_wf K ∧ params_wf p ∧
  (let s := final_state (ftrace_ops_sample_init K (initial_state p)) in
  let fl := init_flags K p in
  let prel := init_ptr_relevant K p in
  let pirr := init_ptr_irrelevant K p in
  let assist_bits (ro : opref * ftrace_ops) :=
    (ro.1, flag_set (RECURSION_BIT K) (flags ro.2),
           flag_set (RCU_BIT K) (flags ro.2)) in
  let assisted (op : opref) := (op, assist_recursion p, assist_rcu p) in
  map assist_bits (registrations addr_tracee_relevant (klog (kern s))) =
    map assisted (refs_of prel (nr_ops_relevant p)) ∧
  map assist_bits (registrations addr_tracee_irrelevant (klog (kern s))) =
    map assisted (refs_of pirr (nr_ops_irrelevant p)) ∧
  (is_block prel = true ↔
     0 < nr_ops_relevant p < 2 ^ 31 ∧ kcalloc_ok K 0 = true) ∧
  (is_block pirr = true ↔
     0 < nr_ops_irrelevant p < 2 ^ 31 ∧
     kcalloc_ok K (if reaches_allocator (nr_ops_relevant p) then 1 else 0) = true) ∧
  (∀ op o, EvRegister op o ∈ klog (kern s) → flags o = fl) ∧
  flag_set (RECURSION_BIT K) fl = assist_recursion p ∧
  flag_set (RCU_BIT K) fl = assist_rcu p).
Proof.
  intros K p.
  assert (HK : kernel_wf K) by (constructor; simpl; lia).
  assert (Hp : params_wf p) by (constructor; simpl; lia).
  split; [exact HK|]. split; [exact Hp|].
  exact (init_assist_flags K p HK Hp).
Defined.

(** C6 on the sample kernel. *)
Lemma irrelevant_ops_count_nothing_witness :
  let K := sample_kernel true (λ _, true) in
  let p := sample_params in
  kernel_wf K ∧ params_wf p ∧
  (let r := ftrace_ops_sample_init K (initial_state p) in
  let pirr := init_ptr_irrelevant K p in
  let n := nr_function_calls p in
  (EvCall addr_tracee_irrelevant ∉ klog (kern (final_state r))) ∧
  ∃ s_reg,
    init_register K (initial_state p) = Ok tt s_reg ∧
    (∀ i, 0 ≤ i ≤ n →
      ∃ s_i,
        (_ ← ktime_get K; timing_loop i) s_reg = Ok tt s_i ∧
        ops_irrelevant s_i = pirr ∧
        length (irrelevant_ops s_i) =
          (if is_block pirr then Z.to_nat (nr_ops_irrelevant p) else 0%nat) ∧
        Forall (λ e, filter_hash (ops e) = [addr_tracee_irrelevant] ∧ count e = 0)
               (irrelevant_ops s_i) ∧
        ops_check (ops_irrelevant s_i) (to_int (nr_ops_irrelevant p)) 0 s_i =
          Ok tt s_i) ∧
    ∃ s_end post,
      (_ ← ktime_get K; (timing_loop n;; (_ ← ktime_get K; ret tt))) s_reg =
        Ok tt s_end ∧
      (∀ expected,
         ops_check (ops_irrelevant s_end) (to_int (nr_ops_irrelevant p)) expected s_end =
           Ok tt (if check_count p && is_block pirr && negb (expected =? 0)
                  then append_log
                         (repeat (EvPrWarnCount 0 expected)
                                 (Z.to_nat (nr_ops_irrelevant p))) s_end
                  else s_end)) ∧
      klog (kern (final_state r)) = klog (kern s_end) ++ post ∧
      Forall is_finish_event post).
Proof.
  intros K p.
  assert (HK : kernel_wf K) by (constructor; simpl; lia).
  assert (Hp : params_wf p) by (constructor; simpl; lia).
  split; [exact HK|]. split; [exact Hp|].
  exact (irrelevant_ops_count_nothing K p HK Hp).
Defined.

(** C8 on the sample kernel with [nr_function_calls = 0]. *)
Lemma init_return_value_witness :
  let K := sample_kernel true (λ _, true) in
  let p := sample_params_no_calls in
  kernel_wf K ∧ params_wf p ∧
  (let r := ftrace_ops_sample_init K (initial_state p) in
  let prel := init_ptr_relevant K p in
  let pirr := init_ptr_irrelevant K p in
  let left_registered (s : state) :=
    ftrace_ops_list (kern s) =
      refs_of prel (nr_ops_relevant p) ++ refs_of pirr (nr_ops_irrelevant p) ∧
    (∀ b, is_block prel = true → prel = Block b →
          ∃ blk, heap (kern s) !! b = Some (Some blk) ∧
                 length blk = Z.to_nat (nr_ops_relevant p)) ∧
    (∀ b, is_block pirr = true → pirr = Block b →
          ∃ blk, heap (kern s) !! b = Some (Some blk) ∧
                 length blk = Z.to_nat (nr_ops_irrelevant p)) in
  (nr_function_calls p ≠ 0 →
     (persist p = true → ∃ s, r = Ok 0 s ∧ left_registered s) ∧
     (persist p = false →
        ∃ s, r = Ok (- EINVAL K) s ∧ - EINVAL K < 0 ∧
             ftrace_ops_list (kern s) = [] ∧
             Forall (λ blk, blk = None) (heap (kern s))) ∧
     ((∃ s, r = Ok 0 s) ↔ persist p = true)) ∧
  (nr_function_calls p = 0 →
     ∃ s, r = Fault DivideError s ∧ left_registered s ∧
          ∀ op, EvUnregister op ∉ klog (kern s))).
Proof.
  intros K p.
  assert (HK : kernel_wf K) by (constructor; simpl; lia).
  assert (Hp : params_wf p) by (constructor; simpl; lia).
  split; [exact HK|]. split; [exact Hp|].
  exact (init_return_value K p HK Hp).
Defined.

(** ** The further properties at concrete inputs *)

(** X1 for an array of two in the initial state. *)
Lemma ops_alloc_init_sets_up_array_witness :
  let K := sample_kernel true (λ _, true) in
  let tracee := addr_tracee_relevant in
  let fn := fn_ops_func_count in
  let fl := 20 in
  let n := 2 in
  let s := initial_state sample_params in
  (kernel_wf K) ∧
  (0 < n < 2 ^ 31) ∧
  (kcalloc_ok K (nr_allocs (kern s)) = true) ∧
  (fresh_block s) ∧
  (let p := Block (length (heap (kern s))) in
  ∃ s',
    ops_alloc_init K tracee fn fl (to_int n) s = Ok p s' ∧
    heap (kern s') =
      heap (kern s) ++
      [Some (replicate (Z.to_nat n)
               (mk_sample_ops (mk_ftrace_ops (Some fn) fl [tracee]) 0))] ∧
    ftrace_ops_list (kern s') =
      ftrace_ops_list (kern s) ++ map (λ j, (p, Z.of_nat j)) (seq 0 (Z.to_nat n)) ∧
    klog (kern s') = klog (kern s) ++ alloc_events p tracee fn fl (Z.to_nat n) ∧
    same_module s s').
Proof.
  intros K tracee fn fl n s.
  assert (W0 : kernel_wf K) by (constructor; simpl; lia).
  assert (W1 : 0 < n < 2 ^ 31) by (unfold n; lia).
  assert (W2 : kcalloc_ok K (nr_allocs (kern s)) = true) by (reflexivity).
  assert (W3 : fresh_block s) by (intros op Hin; simpl in Hin; by apply elem_of_nil in Hin).
  split; [exact W0|].
  split; [exact W1|].
  split; [exact W2|].
  split; [exact W3|].
  exact (ops_alloc_init_sets_up_array K tracee fn fl n s W0 W1 W2 W3).
Defined.

(** X2 for a count of 2^31. *)
Lemma ops_alloc_init_count_too_large_witness :
  let K := sample_kernel true (λ _, true) in
  let tracee := addr_tracee_relevant in
  let fn := fn_ops_func_count in
  let fl := 20 in
  let n := 2 ^ 31 in
  let s := initial_state sample_params in
  (kernel_wf K) ∧
  (2 ^ 31 ≤ n < 2 ^ 32) ∧
  (∃ s' evs,
    ops_alloc_init K tracee fn fl (to_int n) s = Ok NULL s' ∧
    heap (kern s') = heap (kern s) ∧
    ftrace_ops_list (kern s') = ftrace_ops_list (kern s) ∧
    nr_allocs (kern s') = nr_allocs (kern s) ∧
    klog (kern s') = klog (kern s) ++ evs ∧
    Forall is_alloc_warning evs ∧
    same_module s s').
Proof.
  intros K tracee fn fl n s.
  assert (W0 : kernel_wf K) by (constructor; simpl; lia).
  assert (W1 : 2 ^ 31 ≤ n < 2 ^ 32) by (unfold n; lia).
  split; [exact W0|].
  split; [exact W1|].
  exact (ops_alloc_init_count_too_large K tracee fn fl n s W0 W1).
Defined.

(** X3 for an array of two in the initial state. *)
Lemma ops_destroy_undoes_ops_alloc_init_witness :
  let K := sample_kernel true (λ _, true) in
  let tracee := addr_tracee_relevant in
  let fn := fn_ops_func_count in
  let fl := 20 in
  let n := 2 in
  let s := initial_state sample_params in
  (kernel_wf K) ∧
  (0 < n < 2 ^ 31) ∧
  (kcalloc_ok K (nr_allocs (kern s)) = true) ∧
  (fresh_block s) ∧
  (let p := Block (length (heap (kern s))) in
  ∃ s1 s2,
    ops_alloc_init K tracee fn fl (to_int n) s = Ok p s1 ∧
    ops_destroy K p (to_int n) s1 = Ok tt s2 ∧
    ftrace_ops_list (kern s2) = ftrace_ops_list (kern s) ∧
    heap (kern s2) = heap (kern s) ++ [None] ∧
    klog (kern s2) =
      klog (kern s) ++ alloc_events p tracee fn fl (Z.to_nat n) ++
      destroy_events p n ∧
    unregistrations (destroy_events p n) =
      map fst (registrations tracee (alloc_events p tracee fn fl (Z.to_nat n))) ∧
    last (destroy_events p n) = Some (EvKfree p) ∧
    same_module s s2).
Proof.
  intros K tracee fn fl n s.
  assert (W0 : kernel_wf K) by (constructor; simpl; lia).
  assert (W1 : 0 < n < 2 ^ 31) by (unfold n; lia).
  assert (W2 : kcalloc_ok K (nr_allocs (kern s)) = true) by (reflexivity).
  assert (W3 : fresh_block s) by (intros op Hin; simpl in Hin; by apply elem_of_nil in Hin).
  split; [exact W0|].
  split; [exact W1|].
  split; [exact W2|].
  split; [exact W3|].
  exact (ops_destroy_undoes_ops_alloc_init K tracee fn fl n s W0 W1 W2 W3).
Defined.

(** X4 for an array of two in the initial state. *)
Lemma ops_destroy_twice_faults_witness :
  let K := sample_kernel true (λ _, true) in
  let tracee := addr_tracee_relevant in
  let fn := fn_ops_func_count in
  let fl := 20 in
  let n := 2 in
  let s := initial_state sample_params in
  (kernel_wf K) ∧
  (0 < n < 2 ^ 31) ∧
  (kcalloc_ok K (nr_allocs (kern s)) = true) ∧
  (fresh_block s) ∧
  (let p := Block (length (heap (kern s))) in
  ∃ s1 s2,
    ops_alloc_init K tracee fn fl (to_int n) s = Ok p s1 ∧
    ops_destroy K p (to_int n) s1 = Ok tt s2 ∧
    ops_destroy K p (to_int n) s2 = Fault BadPointer s2).
Proof.
  intros K tracee fn fl n s.
  assert (W0 : kernel_wf K) by (constructor; simpl; lia).
  assert (W1 : 0 < n < 2 ^ 31) by (unfold n; lia).
  assert (W2 : kcalloc_ok K (nr_allocs (kern s)) = true) by (reflexivity).
  assert (W3 : fresh_block s) by (intros op Hin; simpl in Hin; by apply elem_of_nil in Hin).
  split; [exact W0|].
  split; [exact W1|].
  split; [exact W2|].
  split; [exact W3|].
  exact (ops_destroy_twice_faults K tracee fn fl n s W0 W1 W2 W3).
Defined.

(** X5 on the sample kernel. *)
Lemma relevant_ops_count_calls_witness :
  let K := sample_kernel true (λ _, true) in
  let p := sample_params in
  (kernel_wf K) ∧
  (params_wf p) ∧
  (let prel := init_ptr_relevant K p in
  let fn := if check_count p then fn_ops_func_count else fn_ops_func_nop in
  ∃ s_reg,
    init_register K (initial_state p) = Ok tt s_reg ∧
    ∀ i, 0 ≤ i ≤ nr_function_calls p →
      ∃ s_i,
        (_ ← ktime_get K; timing_loop i) s_reg = Ok tt s_i ∧
        relevant_ops s_i =
          if is_block prel
          then replicate (Z.to_nat (nr_ops_relevant p))
                 (mk_sample_ops
                    (mk_ftrace_ops (Some fn) (init_flags K p) [addr_tracee_relevant])
                    (if check_count p then i else 0))
          else []).
Proof.
  intros K p.
  assert (W0 : kernel_wf K) by (constructor; simpl; lia).
  assert (W1 : params_wf p) by (constructor; simpl; lia).
  split; [exact W0|].
  split; [exact W1|].
  exact (relevant_ops_count_calls K p W0 W1).
Defined.

(** X6 on the sample kernel. *)
Lemma init_prints_no_count_warning_witness :
  let K := sample_kernel true (λ _, true) in
  let p := sample_params in
  (kernel_wf K) ∧
  (params_wf p) ∧
  (let log := klog (kern (final_state (ftrace_ops_sample_init K (initial_state p)))) in
  ∀ called expected, EvPrWarnCount called expected ∉ log).
Proof.
  intros K p.
  assert (W0 : kernel_wf K) by (constructor; simpl; lia).
  assert (W1 : params_wf p) by (constructor; simpl; lia).
  split; [exact W0|].
  split; [exact W1|].
  exact (init_prints_no_count_warning K p W0 W1).
Defined.

(** X7 on the sample kernel, for bit 0. *)
Lemma init_flags_has_no_other_bit_witness :
  let K := sample_kernel true (λ _, true) in
  let p := sample_params in
  let bit := 0 in
  (kernel_wf K) ∧
  (params_wf p) ∧
  (bit ≠ SAVE_REGS_BIT K) ∧
  (bit ≠ RECURSION_BIT K) ∧
  (bit ≠ RCU_BIT K) ∧
  (let log := klog (kern (final_state (ftrace_ops_sample_init K (initial_state p)))) in
  flag_set bit (init_flags K p) = false ∧
  ∀ op o, EvRegister op o ∈ log → flag_set bit (flags o) = false).
Proof.
  intros K p bit.
  assert (W0 : kernel_wf K) by (constructor; simpl; lia).
  assert (W1 : params_wf p) by (constructor; simpl; lia).
  assert (W2 : bit ≠ SAVE_REGS_BIT K) by (unfold bit; simpl; lia).
  assert (W3 : bit ≠ RECURSION_BIT K) by (unfold bit; simpl; lia).
  assert (W4 : bit ≠ RCU_BIT K) by (unfold bit; simpl; lia).
  split; [exact W0|].
  split; [exact W1|].
  split; [exact W2|].
  split; [exact W3|].
  split; [exact W4|].
  exact (init_flags_has_no_other_bit K p bit W0 W1 W2 W3 W4).
Defined.

(** X8 on the sample kernel. *)
Lemma init_leaves_parameters_witness :
  let K := sample_kernel true (λ _, true) in
  let p := sample_params in
  (kernel_wf K) ∧
  (params_wf p) ∧
  (let s := final_state (ftrace_ops_sample_init K (initial_state p)) in
  nr_function_calls (params s) = nr_function_calls p ∧
  nr_ops_relevant (params s) = nr_ops_relevant p ∧
  nr_ops_irrelevant (params s) = nr_ops_irrelevant p ∧
  assist_recursion (params s) = assist_recursion p ∧
  assist_rcu (params s) = assist_rcu p ∧
  check_count (params s) = check_count p ∧
  persist (params s) = persist p ∧
  (save_regs (params s) = true → save_regs p = true) ∧
  tracer_relevant s = tracer_irrelevant s ∧
  (tracer_relevant s = fn_ops_func_count ↔ check_count p = true) ∧
  ops_relevant s = init_ptr_relevant K p ∧
  ops_irrelevant s = init_ptr_irrelevant K p).
Proof.
  intros K p.
  assert (W0 : kernel_wf K) by (constructor; simpl; lia).
  assert (W1 : params_wf p) by (constructor; simpl; lia).
  split; [exact W0|].
  split; [exact W1|].
  exact (init_leaves_parameters K p W0 W1).
Defined.

(** X9 on the sample kernel. *)
Lemma init_unregisters_what_it_registered_witness :
  let K := sample_kernel true (λ _, true) in
  let p := sample_params in
  (kernel_wf K) ∧
  (params_wf p) ∧
  (let log := klog (kern (final_state (ftrace_ops_sample_init K (initial_state p)))) in
  let registered :=
    map fst (registrations addr_tracee_relevant log) ++
    map fst (registrations addr_tracee_irrelevant log) in
  registered =
    refs_of (init_ptr_relevant K p) (nr_ops_relevant p) ++
    refs_of (init_ptr_irrelevant K p) (nr_ops_irrelevant p) ∧
  (nr_function_calls p ≠ 0 → persist p = false → unregistrations log = registered) ∧
  (nr_function_calls p = 0 ∨ persist p = true → unregistrations log = [])).
Proof.
  intros K p.
  assert (W0 : kernel_wf K) by (constructor; simpl; lia).
  assert (W1 : params_wf p) by (constructor; simpl; lia).
  split; [exact W0|].
  split; [exact W1|].
  exact (init_unregisters_what_it_registered K p W0 W1).
Defined.

(** X10 on the sample kernel. *)
Lemma init_without_ops_witness :
  let K := sample_kernel true (λ _, true) in
  let p := sample_params_no_ops in
  (kernel_wf K) ∧
  (params_wf p) ∧
  (nr_ops_relevant p = 0) ∧
  (nr_ops_irrelevant p = 0) ∧
  (let r := ftrace_ops_sample_init K (initial_state p) in
  let n := nr_function_calls p in
  let base :=
    init_banner K p ++ [EvKtimeGet (ktime_at K 0)] ++
    repeat (EvCall addr_tracee_relevant) (Z.to_nat n) ++
    [EvKtimeGet (ktime_at K 1)] in
  let report := EvPrInfoResult n (init_period K) (init_period K / n) in
  ops_relevant (final_state r) = ZERO_SIZE_PTR ∧
  ops_irrelevant (final_state r) = ZERO_SIZE_PTR ∧
  ftrace_ops_list (kern (final_state r)) = [] ∧
  klog (kern (final_state r)) =
    base ++
    (if n =? 0 then []
     else if persist p then [report]
     else [report; EvKfree ZERO_SIZE_PTR; EvKfree ZERO_SIZE_PTR])).
Proof.
  intros K p.
  assert (W0 : kernel_wf K) by (constructor; simpl; lia).
  assert (W1 : params_wf p) by (constructor; simpl; lia).
  assert (W2 : nr_ops_relevant p = 0) by (reflexivity).
  assert (W3 : nr_ops_irrelevant p = 0) by (reflexivity).
  split; [exact W0|].
  split; [exact W1|].
  split; [exact W2|].
  split; [exact W3|].
  exact (init_without_ops K p W0 W1 W2 W3).
Defined.

(** X11 on the sample kernel. *)
Lemma init_persist_leaves_arrays_witness :
  let K := sample_kernel true (λ _, true) in
  let p := sample_params_persist in
  (kernel_wf K) ∧
  (params_wf p) ∧
  (nr_function_calls p ≠ 0) ∧
  (persist p = true) ∧
  (let fn := if check_count p then fn_ops_func_count else fn_ops_func_nop in
  let fl := init_flags K p in
  ∃ s,
    ftrace_ops_sample_init K (initial_state p) = Ok 0 s ∧
    relevant_ops s =
      (if is_block (init_ptr_relevant K p)
       then replicate (Z.to_nat (nr_ops_relevant p))
              (mk_sample_ops (mk_ftrace_ops (Some fn) fl [addr_tracee_relevant])
                 (if check_count p then nr_function_calls p else 0))
       else []) ∧
    irrelevant_ops s =
      (if is_block (init_ptr_irrelevant K p)
       then replicate (Z.to_nat (nr_ops_irrelevant p))
              (mk_sample_ops (mk_ftrace_ops (Some fn) fl [addr_tracee_irrelevant]) 0)
       else [])).
Proof.
  intros K p.
  assert (W0 : kernel_wf K) by (constructor; simpl; lia).
  assert (W1 : params_wf p) by (constructor; simpl; lia).
  assert (W2 : nr_function_calls p ≠ 0) by (simpl; lia).
  assert (W3 : persist p = true) by (reflexivity).
  split; [exact W0|].
  split; [exact W1|].
  split; [exact W2|].
  split; [exact W3|].
  exact (init_persist_leaves_arrays K p W0 W1 W2 W3).
Defined.

(** X12 on the sample kernel. *)
Lemma exit_unregisters_every_ops_witness :
  let K := sample_kernel true (λ _, true) in
  let p := sample_params_persist in
  (kernel_wf K) ∧
  (params_wf p) ∧
  (nr_function_calls p ≠ 0) ∧
  (persist p = true) ∧
  (∃ s s',
    ftrace_ops_sample_init K (initial_state p) = Ok 0 s ∧
    ftrace_ops_sample_exit K s = Ok tt s' ∧
    klog (kern s') =
      klog (kern s) ++
      destroy_events (ops_relevant s) (nr_ops_relevant p) ++
      destroy_events (ops_irrelevant s) (nr_ops_irrelevant p) ∧
    unregistrations
      (destroy_events (ops_relevant s) (nr_ops_relevant p) ++
       destroy_events (ops_irrelevant s) (nr_ops_irrelevant p)) =
      ftrace_ops_list (kern s) ∧
    ftrace_ops_list (kern s') = [] ∧
    Forall (λ blk, blk = None) (heap (kern s')) ∧
    ops_relevant s' = ops_relevant s ∧
    ops_irrelevant s' = ops_irrelevant s).
Proof.
  intros K p.
  assert (W0 : kernel_wf K) by (constructor; simpl; lia).
  assert (W1 : params_wf p) by (constructor; simpl; lia).
  assert (W2 : nr_function_calls p ≠ 0) by (simpl; lia).
  assert (W3 : persist p = true) by (reflexivity).
  split; [exact W0|].
  split; [exact W1|].
  split; [exact W2|].
  split; [exact W3|].
  exact (exit_unregisters_every_ops K p W0 W1 W2 W3).
Defined.

(** X13 on the sample kernel. *)
Lemma init_report_rounds_down_witness :
  let K := sample_kernel true (λ _, true) in
  let p := sample_params in
  (kernel_wf K) ∧
  (params_wf p) ∧
  (nr_function_calls p ≠ 0) ∧
  (let log := klog (kern (final_state (ftrace_ops_sample_init K (initial_state p)))) in
  let n := nr_function_calls p in
  ∃ period per_call,
    EvPrInfoResult n period per_call ∈ log ∧
    period = to_u64 (ktime_at K 1 - ktime_at K 0) ∧
    0 ≤ period < 2 ^ 64 ∧
    0 ≤ per_call ≤ period ∧
    per_call * n ≤ period < (per_call + 1) * n).
Proof.
  intros K p.
  assert (W0 : kernel_wf K) by (constructor; simpl; lia).
  assert (W1 : params_wf p) by (constructor; simpl; lia).
  assert (W2 : nr_function_calls p ≠ 0) by (simpl; lia).
  split; [exact W0|].
  split; [exact W1|].
  split; [exact W2|].
  exact (init_report_rounds_down K p W0 W1 W2).
Defined.
